(** * LLL-TestData-Generator: a shallow embedding of the two generators

    The repository holds two Python scripts that prompt a hosted completion
    endpoint and store the replies as JSON records:

    - [GenerateLocaleTestData.py]: [generate_for_locale] and its helpers;
    - [TestcaseTokens.py]: [generate_bulk_rate_safe] and its helpers,
      driven by [runbulk.py].

    Python values are a small dynamic universe ([Py.value]); functions that
    can raise return an [outcome]; functions that touch the network, the
    output file or the random trace token run in a state-and-exception
    monad [M] in which the state survives a raised exception, as in Python.

    What lies outside the repository is a parameter of the model, gathered
    in the record [Env]: the replies of [requests.post], the text of
    [str(x)] and [json.dumps(x)], Python's [float(s)] parser, [str.lower],
    the regular expression search of [_sleep_from_retry_headers], the
    values of [uuid.uuid4()] and the failures of [open].  The decorator of
    tenacity is the function [retry].

    A float is the exact rational value of a double, or inf or nan: the
    few operations the scripts apply to floats are exact on doubles
    except where a product overflows to inf, which is modelled.  A write
    of the output file can fail at [open] and can break off in
    [json.dump], on a string with a lone surrogate.  [time.sleep] takes
    no time in the model but raises as Python's does on a length it
    refuses; the scripts compute one sleep length from a reply (the wait
    on a 429, [_sleep_from_retry_headers]), and that one is modelled.
    The other sleeps take the [throttle] arguments, which the model fixes
    at their defaults, where the sleep returns; the one exception sleeps
    inside a handler that swallows whatever it raises.  The progress
    [print]s are taken to succeed and are left out.

    Layout: the Python fragment ([Py]), the world ([World], [Loop]), the
    three scripts ([GenerateLocaleTestData], [TestcaseTokens], [runbulk]),
    concrete worlds ([Scenario]) and the notions the statements use
    ([Notions]); then the properties: the token heuristic ([Heuristics]),
    sanitization ([Sanitize]), the retry envelope ([RetryEnvelope]), the
    locale generator ([LocaleRun], [Frame]), the rate-aware generator on
    concrete runs ([RateAwareRun]) and what both guarantee in general
    ([Guarantees], [OneRecordPerPair]). *)

From Stdlib Require Import String Ascii ZArith QArith Qabs Qround Bool Lia List.
Import ListNotations.

Set Implicit Arguments.
Set Warnings "-register-all".  (* value nests list and prod *)

(** ** Python strings, values and exceptions *)

Module Py.

(** A Python [str] is a sequence of code points. *)
Definition str := list N.

Definition lit (s : string) : str :=
  List.map N_of_ascii (list_ascii_of_string s).

Arguments lit s%_string.

Fixpoint str_eqb (a b : str) : bool :=
  match a, b with
  | [], [] => true
  | x :: a', y :: b' => N.eqb x y && str_eqb a' b'
  | _, _ => false
  end.

(** [s[:k]] for any sequence: a negative bound counts from the end. *)
Definition slice_to (A : Type) (k : Z) (s : list A) : list A :=
  if (0 <=? k)%Z then firstn (Z.to_nat k) s
  else firstn (length s - Z.to_nat (- k)) s.

Definition len (A : Type) (s : list A) : Z := Z.of_nat (length s).

(** [s * n] for a sequence. *)
Definition seq_repeat (A : Type) (s : list A) (n : Z) : list A :=
  concat (repeat s (Z.to_nat n)).

Inductive float :=
| Fin (q : Q)
| Inf
| NegInf
| NaN.

Inductive value :=
| VNone
| VBool (b : bool)
| VInt (z : Z)
| VFloat (f : float)
| VStr (s : str)
| VList (l : list value)
| VDict (d : list (str * value)).

Inductive exn_class :=
| TypeError
| ValueError
| OverflowError
| AttributeError
| KeyError
| IndexError
| OSError
| EnvironmentError
| RequestException   (* requests.exceptions.RequestException and subclasses *)
| RetryError         (* tenacity.RetryError *)
| OtherException.

(** An exception: its class (up to what the handlers of the scripts tell
    apart) and the text [str(e)]. *)
Record exn := mk_exn { exn_class_of : exn_class; exn_text : str }.

Inductive outcome (A : Type) :=
| Ok (a : A)
| Raise (e : exn).

Arguments Ok {A} a.
Arguments Raise {A} e.

Definition obind (A B : Type) (c : outcome A) (k : A -> outcome B) : outcome B :=
  match c with
  | Ok a => k a
  | Raise e => Raise e
  end.

Definition raise_of (A : Type) (c : exn_class) (text : string) : outcome A :=
  Raise (mk_exn c (lit text)).

Arguments raise_of {A} c text%_string.

Definition is_request_exception (e : exn) : bool :=
  match exn_class_of e with
  | RequestException => true
  | _ => false
  end.

(** *** Truth value testing, [or], [dict.get], subscripting *)

Definition float_is_zero (f : float) : bool :=
  match f with
  | Fin q => Qeq_bool q 0
  | _ => false
  end.

Definition truthy (v : value) : bool :=
  match v with
  | VNone => false
  | VBool b => b
  | VInt z => negb (z =? 0)%Z
  | VFloat f => negb (float_is_zero f)
  | VStr s => match s with [] => false | _ => true end
  | VList l => match l with [] => false | _ => true end
  | VDict d => match d with [] => false | _ => true end
  end.

Definition py_or (a b : value) : value := if truthy a then a else b.

Fixpoint assoc (A : Type) (k : str) (d : list (str * A)) : option A :=
  match d with
  | [] => None
  | (k', v) :: d' => if str_eqb k k' then Some v else assoc k d'
  end.

(** [d.get(k)] on a dict. *)
Definition dict_get (d : list (str * value)) (k : string) : value :=
  match assoc (lit k) d with
  | Some v => v
  | None => VNone
  end.

Arguments dict_get d k%_string.

(** [x.get(k)] on an arbitrary value: only a dict has the method. *)
Definition get_method (x : value) (k : string) : outcome value :=
  match x with
  | VDict d => Ok (dict_get d k)
  | _ => raise_of AttributeError "object has no attribute 'get'"
  end.

Arguments get_method x k%_string.

(** [x[0]].  The keys of a dict that came out of JSON are strings, so the
    integer key 0 is never found. *)
Definition subscript0 (x : value) : outcome value :=
  match x with
  | VList (v :: _) => Ok v
  | VList [] => raise_of IndexError "list index out of range"
  | VStr (c :: _) => Ok (VStr [c])
  | VStr [] => raise_of IndexError "string index out of range"
  | VDict _ => raise_of KeyError "0"
  | _ => raise_of TypeError "object is not subscriptable"
  end.

(** *** Arithmetic used by the token heuristic *)

Definition int_of_bool (b : bool) : Z := if b then 1%Z else 0%Z.

(** A [Fin q] stands for the double whose value is [q].  The results of
    the operations below are exact on doubles (a product with 1024, a
    floor division by 4), except that a product leaves the range: from
    2^1024 - 2^970 on, rounding to nearest gives inf. *)
Definition float_overflow : Z := Eval vm_compute in (2 ^ 1024 - 2 ^ 970)%Z.

(** The double for an exact result [q]. *)
Definition float_of_Q (q : Q) : float :=
  if Qle_bool (inject_Z float_overflow) q then Inf
  else if Qle_bool q (inject_Z (- float_overflow)) then NegInf
  else Fin q.

Definition float_scale (f : float) (n : Z) : float :=
  match f with
  | Fin q => float_of_Q (q * inject_Z n)
  | other => other
  end.

(** [x * n] with [n] a positive int literal. *)
Definition py_mul (x : value) (n : Z) : outcome value :=
  match x with
  | VBool b => Ok (VInt (int_of_bool b * n))
  | VInt z => Ok (VInt (z * n))
  | VFloat f => Ok (VFloat (float_scale f n))
  | VStr s => Ok (VStr (seq_repeat s n))
  | VList l => Ok (VList (seq_repeat l n))
  | VNone | VDict _ => raise_of TypeError "unsupported operand type(s) for *"
  end.

(** [x // n] with [n] a positive int literal; inf // n is nan. *)
Definition py_floordiv (x : value) (n : Z) : outcome value :=
  match x with
  | VBool b => Ok (VInt (int_of_bool b / n))
  | VInt z => Ok (VInt (z / n))
  | VFloat (Fin q) => Ok (VFloat (Fin (inject_Z (Qfloor (q / inject_Z n)))))
  | VFloat _ => Ok (VFloat NaN)
  | _ => raise_of TypeError "unsupported operand type(s) for //"
  end.

(** [int(x)] on the numbers that [//] produces; truncation toward zero. *)
Definition py_int (x : value) : outcome Z :=
  match x with
  | VBool b => Ok (int_of_bool b)
  | VInt z => Ok z
  | VFloat (Fin q) => Ok (Qnum q ÷ Zpos (Qden q))%Z
  | VFloat NaN => raise_of ValueError "cannot convert float NaN to integer"
  | VFloat _ => raise_of OverflowError "cannot convert float infinity to integer"
  | _ => raise_of TypeError "int() argument must be a string or a number"
  end.

(** *** What a UTF-8 file can take *)

(** A lone surrogate: a code point that [str.encode("utf-8")] refuses. *)
Definition is_surrogate (c : N) : bool := ((55296 <=? c) && (c <=? 57343))%N.

Definition encodable_str (s : str) : bool :=
  forallb (fun c => negb (is_surrogate c)) s.

(** No string of the document, key or value, holds a surrogate. *)
Fixpoint encodable (v : value) : bool :=
  match v with
  | VStr s => encodable_str s
  | VList l => forallb encodable l
  | VDict d =>
      forallb (fun kv : str * value => let (k, x) := kv in encodable_str k && encodable x) d
  | _ => true
  end.

(** [a + b]: the scripts add a loaded JSON document and a list. *)
Definition py_add_list (a : value) (b : list value) : outcome value :=
  match a with
  | VList l => Ok (VList (l ++ b))
  | _ => raise_of TypeError "unsupported operand type(s) for +"
  end.

(** [x <= y] on floats. *)
Definition float_le (x y : float) : bool :=
  match x, y with
  | NaN, _ | _, NaN => false
  | NegInf, _ => true
  | _, Inf => true
  | Fin a, Fin b => Qle_bool a b
  | _, _ => false
  end.

(** The number a value denotes, when it is a finite number. *)
Definition number (v : value) : option Q :=
  match v with
  | VBool b => Some (inject_Z (int_of_bool b))
  | VInt z => Some (inject_Z z)
  | VFloat (Fin q) => Some q
  | _ => None
  end.

(** [x * n] is a finite number again: always for an int or a bool (ints
    have no bound), for a float when the product stays in the range of
    the doubles. *)
Definition scales (v : value) (n : Z) : bool :=
  match v with
  | VBool _ | VInt _ => true
  | VFloat f => match float_scale f n with Fin _ => true | _ => false end
  | _ => false
  end.

End Py.

Export Py.

Declare Scope outcome_scope.
Delimit Scope outcome_scope with outcome.
Notation "x <- c ;; k" := (obind c (fun x => k))
  (at level 61, c at next level, right associativity) : outcome_scope.

(** ** The world outside the scripts *)

Module World.

(** What [requests.post] hands back: the fields of the response object the
    scripts read.  [json] is the result of [r.json()], which raises on a
    body that is not JSON. *)
Record response := mk_response {
  status_code : Z;
  headers : list (str * str);
  text : str;
  json : outcome value
}.

(** The arguments of one [requests.post] call. *)
Record request := mk_request {
  url : value;             (* GROQ_API_URL: a str, or None when unset *)
  payload : value;
  request_headers : value;
  timeout : Z
}.

Inductive post_outcome :=
| PostRaises (e : exn)
| PostReturns (r : response).

(** One output file: missing, present without a JSON document in it (an
    empty file, say), or holding a document. *)
Inductive file_state :=
| Absent
| Unparseable
| Holds (doc : value).

(** Everything the scripts get from libraries and from the environment. *)
Record Env := mk_env {
  transport : nat -> request -> post_outcome;  (* the n-th requests.post *)
  http_error_text : response -> str;           (* str(HTTPError) *)
  future_repr : exn -> str;                    (* repr of tenacity's last attempt *)
  py_str : value -> str;                       (* str(x) *)
  json_dumps : value -> str;                   (* json.dumps(x) *)
  py_float : str -> option float;              (* float(s); None: ValueError *)
  py_lower : str -> str;                       (* s.lower() *)
  re_try_again_ms : str -> option Z;           (* int(m.group(1)) for
                                                  m = re.search(r"try again in (\d+)ms", s);
                                                  None: no match, or int raises *)
  uuid4_hex : nat -> str;                      (* the n-th uuid.uuid4().hex *)
  read_error : str -> option exn;              (* open(path, "r") fails *)
  write_error : str -> option exn;             (* open(path, "w") fails *)
  dump_error : str -> value -> option exn      (* json.dump to the open file breaks
                                                  off: a full disk, a document
                                                  nested too deep for the encoder *)
}.

Record state := mk_state {
  posts : nat;                 (* requests.post calls made so far *)
  uuids : nat;                 (* uuid4 values drawn so far *)
  fs : str -> file_state
}.

Definition M (A : Type) : Type := state -> outcome A * state.

Definition ret (A : Type) (a : A) : M A := fun st => (Ok a, st).

Definition bind (A B : Type) (c : M A) (k : A -> M B) : M B :=
  fun st =>
    match c st with
    | (Ok a, st') => k a st'
    | (Raise e, st') => (Raise e, st')
    end.

Definition raise (A : Type) (e : exn) : M A := fun st => (Raise e, st).

Arguments raise {A} e.

Definition lift (A : Type) (c : outcome A) : M A := fun st => (c, st).

(** [try: c  except Exception as e: handler(e)]. *)
Definition try_except (A : Type) (c : M A) (handler : exn -> M A) : M A :=
  fun st =>
    match c st with
    | (Ok a, st') => (Ok a, st')
    | (Raise e, st') => handler e st'
    end.

(** *** requests *)

Definition requests_post (E : Env) (rq : request) : M response :=
  fun st =>
    let st' := mk_state (S (posts st)) (uuids st) (fs st) in
    match transport E (posts st) rq with
    | PostRaises e => (Raise e, st')
    | PostReturns r => (Ok r, st')
    end.

Definition is_http_error (status : Z) : bool :=
  ((400 <=? status) && (status <? 600))%Z.

Definition is_2xx (status : Z) : bool :=
  ((200 <=? status) && (status <? 300))%Z.

(** [r.raise_for_status()]: an HTTPError, which is a RequestException, for
    the 4xx and 5xx codes and nothing otherwise. *)
Definition raise_for_status (E : Env) (r : response) : M unit :=
  if is_http_error (status_code r)
  then raise (mk_exn RequestException (http_error_text E r))
  else ret tt.

Definition ascii_lower (c : N) : N :=
  if ((65 <=? c) && (c <=? 90))%N then (c + 32)%N else c.

(** [r.headers.get(name)]: header names compare without case. *)
Definition header_get (r : response) (name : string) : option str :=
  assoc (lit name)
        (List.map (fun kv => (List.map ascii_lower (fst kv), snd kv)) (headers r)).

Arguments header_get r name%_string.

(** *** time *)

(** What [time.sleep(secs)] finds wrong with a float: nan and a negative
    length raise ValueError, a length that the clock type cannot hold
    (inf, or more than 2^63 nanoseconds in size) raises OverflowError. *)
Definition sleep_refusal (secs : float) : option exn :=
  match secs with
  | NaN => Some (mk_exn ValueError (lit "Invalid value NaN (not a number)"))
  | Inf | NegInf =>
      Some (mk_exn OverflowError (lit "timestamp too large to convert to C _PyTime_t"))
  | Fin q =>
      if negb (Qle_bool (Qabs q * inject_Z (10 ^ 9)) (inject_Z (2 ^ 63))) then
        Some (mk_exn OverflowError (lit "timestamp too large to convert to C _PyTime_t"))
      else if negb (Qle_bool 0 q) then
        Some (mk_exn ValueError (lit "sleep length must be non-negative"))
      else None
  end.

(** [time.sleep(secs)]: it returns once the time has passed, which the
    model does not count, unless the length is refused. *)
Definition time_sleep (secs : float) : M unit :=
  match sleep_refusal secs with
  | Some e => raise e
  | None => ret tt
  end.

(** *** tenacity *)

(** [@retry(stop=stop_after_attempt(n), retry=retry_if_exception_type(
    RequestException))]: the call is repeated while it raises a
    RequestException; once attempt [n] has failed that way a RetryError
    is raised; any other exception passes through at once. *)
Fixpoint attempts (E : Env) (A : Type) (remaining : nat) (f : M A) : M A :=
  fun st =>
    match f st with
    | (Ok a, st') => (Ok a, st')
    | (Raise e, st') =>
        if is_request_exception e then
          match remaining with
          | O => (Raise (mk_exn RetryError
                           (lit "RetryError[" ++ future_repr E e ++ lit "]")), st')
          | S k => attempts E k f st'
          end
        else (Raise e, st')
    end.

Definition retry (E : Env) (A : Type) (stop_after_attempt : nat) (f : M A) : M A :=
  attempts E (stop_after_attempt - 1) f.

(** *** files, uuid *)

Definition os_path_exists (path : str) : M bool :=
  fun st =>
    (Ok (match fs st path with Absent => false | _ => true end), st).

(** [with open(path, "r") as f: json.load(f)]. *)
Definition read_json (E : Env) (path : str) : M value :=
  fun st =>
    match read_error E path with
    | Some e => (Raise e, st)
    | None =>
        match fs st path with
        | Absent => (raise_of OSError "No such file or directory", st)
        | Unparseable => (raise_of ValueError "Expecting value", st)
        | Holds doc => (Ok doc, st)
        end
    end.

Definition surrogates_not_allowed : exn :=
  mk_exn ValueError
    (lit "'utf-8' codec can't encode character: surrogates not allowed").

(** What makes [json.dump(doc, f, ensure_ascii=False, indent=2)] break
    off on an open file, if anything.  The text is written piece by
    piece: the piece of a string with a lone surrogate cannot be encoded
    and its write raises UnicodeEncodeError (a ValueError); the world may
    stop the write as well. *)
Definition dump_failure (E : Env) (path : str) (doc : value) : option exn :=
  if encodable doc then dump_error E path doc else Some surrogates_not_allowed.

(** [with open(path, "w", encoding="utf-8") as f:
    json.dump(doc, f, ensure_ascii=False, indent=2)].  When [open] fails
    nothing is touched.  Once it has succeeded the file is empty; a write
    that breaks off leaves it with the text that came before, which is no
    JSON document. *)
Definition write_json (E : Env) (path : str) (doc : value) : M unit :=
  fun st =>
    match write_error E path with
    | Some e => (Raise e, st)
    | None =>
        match dump_failure E path doc with
        | None =>
            (Ok tt,
             mk_state (posts st) (uuids st)
                      (fun p => if str_eqb p path then Holds doc else fs st p))
        | Some e =>
            (Raise e,
             mk_state (posts st) (uuids st)
                      (fun p => if str_eqb p path then Unparseable else fs st p))
        end
    end.

(** [uuid.uuid4().hex[:8]]. *)
Definition uuid4_hex8 (E : Env) : M str :=
  fun st =>
    (Ok (slice_to 8 (uuid4_hex E (uuids st))),
     mk_state (posts st) (S (uuids st)) (fs st)).

End World.

Export World.

Declare Scope M_scope.
Delimit Scope M_scope with M.
Notation "x <- c ;; k" := (bind c (fun x => k))
  (at level 61, c at next level, right associativity) : M_scope.
Notation "c ;; k" := (bind c (fun _ => k))
  (at level 61, right associativity) : M_scope.

(** *** loops *)

Module Loop.

(** [for i in range(n): acc = body(acc)]. *)
Fixpoint for_range (A : Type) (n : nat) (body : A -> M A) (acc : A) : M A :=
  match n with
  | O => ret acc
  | S k => (acc' <- body acc ;; for_range k body acc')%M
  end.

(** [for x in xs: acc = body(x, acc)]. *)
Fixpoint for_each (X A : Type) (xs : list X) (body : X -> A -> M A) (acc : A) : M A :=
  match xs with
  | [] => ret acc
  | x :: xs' => (acc' <- body x acc ;; for_each xs' body acc')%M
  end.

(** A loop body that may [return] from the enclosing function. *)
Inductive flow (A R : Type) :=
| Next (acc : A)
| Return (r : R).

Arguments Next {A R} acc.
Arguments Return {A R} r.

Fixpoint for_range_flow (A R : Type) (n : nat) (body : A -> M (flow A R)) (acc : A)
  : M (flow A R) :=
  match n with
  | O => ret (Next acc)
  | S k =>
      (fl <- body acc ;;
       match fl with
       | Next acc' => for_range_flow k body acc'
       | Return r => ret (Return r)
       end)%M
  end.

Fixpoint for_each_flow (X A R : Type) (xs : list X) (body : X -> A -> M (flow A R))
  (acc : A) : M (flow A R) :=
  match xs with
  | [] => ret (Next acc)
  | x :: xs' =>
      (fl <- body x acc ;;
       match fl with
       | Next acc' => for_each_flow xs' body acc'
       | Return r => ret (Return r)
       end)%M
  end.

(** Runs [c] and hands its outcome to the caller, as the head of a
    [try ... except Exception] does. *)
Definition attempt (A : Type) (c : M A) : M (outcome A) :=
  fun st => let (o, st') := c st in (Ok o, st').

End Loop.

Export Loop.

(** The process environment once [load_dotenv()] has run. *)
Definition environ := str -> option str.

Definition getenv (env : environ) (name : string) : value :=
  match env (lit name) with
  | Some s => VStr s
  | None => VNone
  end.

Arguments getenv env name%_string.

(** [f"{x}"]. *)
Definition format_value (E : Env) (x : value) : str :=
  match x with
  | VStr s => s
  | VNone => lit "None"
  | _ => py_str E x
  end.

Definition nl : str := [10%N].

(** ** GenerateLocaleTestData.py *)

Module GenerateLocaleTestData.

Record globals := mk_globals {
  GROQ_API_KEY : value;
  GROQ_API_URL : value;
  DEFAULT_MODEL : str;
  HEADERS : value
}.

(** The statements at module level, lines 19 to 33. *)
Definition load (E : Env) (env : environ) : outcome globals :=
  let key := getenv env "GROQ_API_KEY" in
  let url := getenv env "GROQ_API_URL" in
  let model := match env (lit "GROQ_MODEL") with
               | Some m => m
               | None => lit "llama-3.1-8b-instant"
               end in
  if negb (truthy key) then
    raise_of EnvironmentError
      "GROQ_API_KEY not found. Put it in .env or export it in the environment."
  else
    Ok (mk_globals key url model
          (VDict [(lit "Authorization", VStr (lit "Bearer " ++ format_value E key));
                  (lit "Content-Type", VStr (lit "application/json"))])).

Definition LOCALE_TO_LANGUAGE : list (str * str) :=
  [(lit "en-US", lit "English (United States)");
   (lit "en-GB", lit "English (UK)");
   (lit "it-IT", lit "Italian");
   (lit "es-ES", lit "Spanish")].

Definition DEFAULT_SEEDS : list str :=
  [lit "FAQ about warranty + order lookup + long complaint";
   lit "Order tracking long form and address correction";
   lit "Returns policy + API error + JSON payload included";
   lit "Product recommendation + warranty transfer request"].

(** [max(32, int(kb * 1024 // 4))], without the handler. *)
Definition tokens_arith (kb : value) : outcome Z :=
  (a <- py_mul kb 1024 ;;
   b <- py_floordiv a 4 ;;
   n <- py_int b ;;
   Ok (Z.max 32 n))%outcome.

Definition _tokens_for_kb (kb : value) : outcome Z :=
  match tokens_arith kb with
  | Ok n => Ok n
  | Raise _ => Ok 256%Z
  end.

Definition call_groq_max_attempts : nat := 3.

(** The characters that [re.sub] deletes: the class
    [\x00-\x08\x0b\x0c\x0e-\x1f], that is the C0 controls other than
    tab, line feed and carriage return. *)
Definition is_control (c : N) : bool :=
  ((c <=? 8) || (c =? 11) || (c =? 12) || ((14 <=? c) && (c <=? 31)))%N.

Definition strip_control (s : str) : str :=
  filter (fun c => negb (is_control c)) s.

Definition truncation_marker : str := nl ++ nl ++ lit "...[truncated]".

Definition default_max_len : Z := 100000.

Definition sanitize_text (s : str) (max_len : Z) : str :=
  match s with
  | [] => s
  | _ =>
      let s1 := strip_control s in
      if (len s1 >? max_len)%Z
      then slice_to max_len s1 ++ truncation_marker
      else s1
  end.

(** The same call on whatever value the parse found: [re.sub] wants a
    string. *)
Definition sanitize_value (x : value) (max_len : Z) : outcome value :=
  if negb (truthy x) then Ok x
  else match x with
       | VStr s => Ok (VStr (sanitize_text s max_len))
       | _ => raise_of TypeError "expected string or bytes-like object"
       end.

Record message := mk_message { role : str; content : str }.

Definition message_value (m : message) : value :=
  VDict [(lit "role", VStr (role m)); (lit "content", VStr (content m))].

(** Lines 126 to 139: the text of a reply. *)
Definition extract_text (E : Env) (resp : value) : outcome value :=
  (text <-
     match resp with
     | VDict d =>
         let text := dict_get d "output_text" in
         if truthy text then Ok text
         else
           let choices := py_or (dict_get d "choices") (VList []) in
           if truthy choices then
             first <- subscript0 choices ;;
             match first with
             | VDict fd =>
                 let msg := py_or (dict_get fd "message") (VDict []) in
                 c <- get_method msg "content" ;;
                 if truthy c then Ok c else get_method msg "text"
             | VStr _ => Ok first
             | _ => Ok text
             end
           else Ok text
     | _ => Ok VNone
     end ;;
   Ok (if truthy text then text else VStr (slice_to 200000 (py_str E resp))))%outcome.

Definition preview_record (seed locale : str) (messages : list message) : value :=
  VDict [(lit "seed", VStr seed);
         (lit "visitor_message", VNone);
         (lit "preview", VStr (slice_to 800 (content (nth 1 messages (mk_message [] [])))));
         (lit "locale", VStr locale)].

Definition error_record (seed locale : str) (e : exn) : value :=
  VDict [(lit "seed", VStr seed);
         (lit "visitor_message", VNone);
         (lit "error", VStr (exn_text e));
         (lit "locale", VStr locale)].

Definition success_record (seed locale model : str) (text : value) (tokens : Z) : value :=
  VDict [(lit "seed", VStr seed);
         (lit "visitor_message", text);
         (lit "locale", VStr locale);
         (lit "model", VStr model);
         (lit "tokens_requested", VInt tokens)].

Section WithGlobals.

Variable E : Env.
Variable G : globals.

(** The body of [call_groq], lines 60 to 66. *)
Definition call_groq_body (messages : list message) (model : str) (max_tokens : Z)
  (tmo : Z) : M value :=
  (let payload :=
     VDict [(lit "model", VStr model);
            (lit "messages", VList (List.map message_value messages));
            (lit "max_tokens", VInt max_tokens)] in
   r <- requests_post E (mk_request (GROQ_API_URL G) payload (HEADERS G) tmo) ;;
   (if negb (is_2xx (status_code r)) then raise_for_status E r else ret tt) ;;
   lift (json r))%M.

(** [call_groq] under its decorator. *)
Definition call_groq (messages : list message) (model : str) (max_tokens : Z) : M value :=
  retry E call_groq_max_attempts (call_groq_body messages model max_tokens 120).

Definition build_prompt (seed locale language_label : str) (kb : value)
  : M (list message) :=
  (let instr :=
     lit "Generate a single visitor message of approximately ~" ++ format_value E kb
     ++ lit " KB intended to test a customer support chatbot. "
     ++ lit "The message must reflect the scenario: " ++ seed ++ lit ". "
     ++ lit "Include natural user content typical for customers: short paragraphs, multi-part questions, emotional phrases, emojis, "
     ++ lit "repeated characters, a short code snippet (optional), and a small JSON block (optional). "
     ++ lit "**IMPORTANT**: Return the message ONLY in " ++ language_label
     ++ lit " (do not mix in other languages). "
     ++ lit "Return the visitor message only " ++ [226; 8364; 8221]%N
     ++ lit " no commentary, no numbered explanation. " in
   token <- uuid4_hex8 E ;;
   let trace := lit "[[LOCALE:" ++ locale ++ lit "]] [[TRACE:" ++ token ++ lit "]]" in
   let user_prompt := instr ++ nl ++ lit "Seed: " ++ seed ++ nl ++ nl ++ trace in
   ret [mk_message (lit "system") (lit "You are a test-case generator for QA automation.");
        mk_message (lit "user") user_prompt])%M.

(** The body of the inner loop, lines 107 to 150: one record is appended
    to [out], unless the parse of a reply raises. *)
Definition generate_one (locale language_label : str) (kb : value) (model : str)
  (dry_run : bool) (tokens : Z) (seed : str) (out : list value) : M (list value) :=
  (messages <- build_prompt seed locale language_label kb ;;
   if dry_run then ret (out ++ [preview_record seed locale messages])
   else
     called <- attempt (call_groq messages model tokens) ;;
     match called with
     | Raise e => ret (out ++ [error_record seed locale e])
     | Ok resp =>
         text <- lift (extract_text E resp) ;;
         text <- lift (sanitize_value text default_max_len) ;;
         ret (out ++ [success_record seed locale model text tokens])
     end)%M.

(** Lines 151 to 162: merge with what the file holds, write, swallow any
    failure. *)
Definition write_merged (out_file : str) (out : list value) : M unit :=
  try_except
    (there <- os_path_exists out_file ;;
     existing <- (if there then read_json E out_file else ret (VList [])) ;;
     combined <- lift (py_add_list existing out) ;;
     write_json E out_file combined)%M
    (fun _ => ret tt).

(** The two loops, lines 105 to 150, starting from [out = []]. *)
Definition generate_all (locale language_label : str) (kb : value) (model : str)
  (dry_run : bool) (tokens : Z) (seeds : list str) (per_seed : Z) : M (list value) :=
  for_each seeds
    (fun seed =>
       for_range (Z.to_nat per_seed)
         (generate_one locale language_label kb model dry_run tokens seed))
    [].

(** [LOCALE_TO_LANGUAGE.get(locale, locale)]. *)
Definition language_of (locale : str) : str :=
  match assoc locale LOCALE_TO_LANGUAGE with
  | Some label => label
  | None => locale
  end.

Definition generate_for_locale (locale : str) (seeds : list str) (per_seed : Z)
  (kb : value) (model : str) (dry_run : bool) (out_file : str) : M (list value) :=
  (let language_label := language_of locale in
   tokens <- lift (_tokens_for_kb kb) ;;
   out <- generate_all locale language_label kb model dry_run tokens seeds per_seed ;;
   write_merged out_file out ;;
   ret out)%M.

End WithGlobals.

(** The command line once argparse has read it; [seeds] is the content of
    the seeds file when one was named. *)
Record args := mk_args {
  arg_locale : str;
  arg_per_seed : Z;
  arg_kb : value;
  arg_out : str;
  arg_dry_run : bool;
  arg_seeds : option (list str);
  arg_model : option str
}.

(** [parse_args_and_run], lines 165 to 188; what [generate_for_locale]
    returns is dropped. *)
Definition parse_args_and_run (E : Env) (G : globals) (a : args) : M unit :=
  (let seeds := match arg_seeds a with Some s => s | None => DEFAULT_SEEDS end in
   let model := match arg_model a with Some m => m | None => DEFAULT_MODEL G end in
   _ <- generate_for_locale E G (arg_locale a) seeds (arg_per_seed a) (arg_kb a)
          model (arg_dry_run a) (arg_out a) ;;
   ret tt)%M.

(** Running the script: the module level first, then
    [parse_args_and_run]. *)
Definition main (E : Env) (env : environ) (a : args) : M unit :=
  (G <- lift (load E env) ;; parse_args_and_run E G a)%M.

End GenerateLocaleTestData.

(** ** TestcaseTokens.py *)

Module TestcaseTokens.

Record globals := mk_globals {
  GROQ_API_KEY : value;
  GROQ_API_URL : value;
  DEFAULT_MODEL : str;
  HEADERS : value
}.

(** The statements at module level, lines 6 to 16: nothing is tested. *)
Definition load (E : Env) (env : environ) : outcome globals :=
  let key := getenv env "GROQ_API_KEY" in
  let url := getenv env "GROQ_API_URL" in
  Ok (mk_globals key url (lit "llama-3.1-8b-instant")
        (VDict [(lit "Authorization", VStr (lit "Bearer " ++ format_value E key));
                (lit "Content-Type", VStr (lit "application/json"))])).

Definition _tokens_for_kb (kb : value) : outcome Z :=
  (a <- py_mul kb 1024 ;;
   b <- py_floordiv a 4 ;;
   n <- py_int b ;;
   Ok (Z.max 32 n))%outcome.

Definition call_groq_once_max_attempts : nat := 4.

Definition default_safety_token_threshold : float := Fin 200.

(** Lines 123 to 134: the text of a reply. *)
Definition extract_text (E : Env) (resp : value) : outcome value :=
  (text <- get_method resp "output_text" ;;
   text <-
     (if truthy text then Ok text
      else
        found <- get_method resp "choices" ;;
        let choices := py_or found (VList []) in
        if truthy choices then
          first <- subscript0 choices ;;
          msg <- match first with
                 | VDict _ => get_method first "message"
                 | _ => Ok first
                 end ;;
          match msg with
          | VDict _ =>
              c <- get_method msg "content" ;;
              if truthy c then Ok c else get_method msg "text"
          | VStr _ => Ok msg
          | _ => Ok text
          end
        else Ok text) ;;
   Ok (if truthy text then text else VStr (json_dumps E resp)))%outcome.

(** [int(m.group(1)) / 1000.0 + 0.05], line 38: the division raises
    OverflowError on an int that no double can hold. *)
Definition ms_to_seconds (ms : Z) : outcome float :=
  match float_of_Q (inject_Z ms) with
  | Fin q => Ok (Fin (q / inject_Z 1000 + (1 # 20)))
  | _ => raise_of OverflowError "int too large to convert to float"
  end.

(** [_sleep_from_retry_headers], lines 24 to 43: the retry-after header
    when [float] reads it, else the milliseconds named in the body, else
    one second. *)
Definition _sleep_from_retry_headers (E : Env) (r : response) : float :=
  let from_body :=
    match re_try_again_ms E (py_lower E (text r)) with
    | Some ms =>
        match ms_to_seconds ms with
        | Ok secs => secs
        | Raise _ => Fin 1
        end
    | None => Fin 1
    end in
  match header_get r "retry-after" with
  | Some (c :: rest) =>
      match py_float E (c :: rest) with
      | Some secs => secs
      | None => from_body
      end
  | _ => from_body
  end.

Definition error_record (seed : str) (e : exn) : value :=
  VDict [(lit "seed", VStr seed);
         (lit "visitor_message", VNone);
         (lit "error", VStr (exn_text e))].

Definition message_record (seed : str) (text : value) : value :=
  VDict [(lit "seed", VStr seed); (lit "visitor_message", text)].

Section WithGlobals.

Variable E : Env.
Variable G : globals.

(** The body of [call_groq_once], lines 48 to 78. *)
Definition call_groq_once_body (prompt_seed : str) (kb : value) (model : str)
  (max_tokens : option Z) : M response :=
  (let instruction :=
     lit "Generate a single long visitor message (~" ++ format_value E kb
     ++ lit " KB) for testing a customer support chatbot. "
     ++ lit "Include Tamil text, emojis, some repeated characters, optionally a small code snippet and a small JSON block. "
     ++ lit "Return only the message content with no commentary." in
   let messages :=
     VList [VDict [(lit "role", VStr (lit "system"));
                   (lit "content", VStr (lit "You are a test-case generator."))];
            VDict [(lit "role", VStr (lit "user"));
                   (lit "content", VStr (instruction ++ nl ++ lit "Seed: " ++ prompt_seed))]] in
   max_tokens <- match max_tokens with
                 | None => lift (_tokens_for_kb kb)
                 | Some n => ret n
                 end ;;
   let payload :=
     VDict [(lit "model", VStr model);
            (lit "messages", messages);
            (lit "max_tokens", VInt max_tokens)] in
   r <- requests_post E (mk_request (GROQ_API_URL G) payload (HEADERS G) 120) ;;
   (if (status_code r =? 429)%Z then
      let sleep_for := _sleep_from_retry_headers E r in
      time_sleep sleep_for ;;
      raise_for_status E r
    else ret tt) ;;
   (if negb (is_2xx (status_code r)) then raise_for_status E r else ret tt) ;;
   ret r)%M.

(** [call_groq_once] under its decorator. *)
Definition call_groq_once (prompt_seed : str) (kb : value) : M response :=
  retry E call_groq_once_max_attempts
    (call_groq_once_body prompt_seed kb (DEFAULT_MODEL G) None).

(** Lines 110 to 118, after a reply whose body is not JSON: [Some path]
    when the function returns there. *)
Definition stop_if_low (out_file : str) (safety_token_threshold : float)
  (r : response) (out : list value) : M (option str) :=
  match header_get r "x-ratelimit-remaining-tokens" with
  | Some (c :: rest) =>
      match py_float E (c :: rest) with
      | None => raise (mk_exn ValueError (lit "could not convert string to float"))
      | Some remaining_tokens =>
          if float_le remaining_tokens safety_token_threshold then
            (write_json E out_file (VList out) ;; ret (Some out_file))%M
          else ret None
      end
  | _ => ret None
  end.

(** Lines 138 to 160, after a reply whose body is JSON: the branch only
    sleeps, inside a handler that swallows every exception, so in the
    model it does nothing. *)
Definition pause_if_low (safety_token_threshold : float) (r : response) : M unit :=
  match header_get r "x-ratelimit-remaining-tokens" with
  | Some (c :: rest) =>
      try_except
        match py_float E (c :: rest) with
        | None => raise (mk_exn ValueError (lit "could not convert string to float"))
        | Some remaining_tokens =>
            if float_le remaining_tokens safety_token_threshold
            then ret tt     (* time.sleep(sec + 1.0) *)
            else ret tt
        end
        (fun _ => ret tt)
  | _ => ret tt
  end.

(** The body of the inner loop, lines 93 to 163. *)
Definition generate_one (kb : value) (out_file : str) (safety_token_threshold : float)
  (s : str) (out : list value) : M (flow (list value) str) :=
  (called <- attempt (call_groq_once s kb) ;;
   match called with
   | Raise e => ret (Next (out ++ [error_record s e]))
   | Ok r =>
       match json r with
       | Raise _ =>
           let out := out ++ [message_record s (VStr (text r))] in
           stopped <- stop_if_low out_file safety_token_threshold r out ;;
           match stopped with
           | Some path => ret (Return path)
           | None => ret (Next out)
           end
       | Ok resp =>
           text <- lift (extract_text E resp) ;;
           let out := out ++ [message_record s text] in
           pause_if_low safety_token_threshold r ;;
           ret (Next out)
       end
   end)%M.

(** The two loops, lines 91 to 163, starting from [out = []]. *)
Definition generate_all (kb : value) (out_file : str) (safety_token_threshold : float)
  (seeds : list str) (per_seed : Z) : M (flow (list value) str) :=
  for_each_flow seeds
    (fun s =>
       for_range_flow (Z.to_nat per_seed)
         (generate_one kb out_file safety_token_threshold s))
    [].

Definition generate_bulk_rate_safe (seeds : list str) (per_seed : Z) (kb : value)
  (out_file : str) (safety_token_threshold : float) : M str :=
  (_ <- lift (_tokens_for_kb kb) ;;
   fl <- generate_all kb out_file safety_token_threshold seeds per_seed ;;
   match fl with
   | Return path => ret path
   | Next out => (write_json E out_file (VList out) ;; ret out_file)
   end)%M.

End WithGlobals.

End TestcaseTokens.

(** ** runbulk.py *)

Module runbulk.

Definition seeds : list str :=
  [lit "FAQ about warranty + order lookup + long complaint (Tamil + English)";
   lit "Order tracking long form and address correction";
   lit "Returns policy + API error + JSON payload included";
   lit "Product recommendation + warranty transfer request"].

Definition PER_SEED : Z := 25.
Definition KB : value := VInt 1.
Definition OUT : str := lit "generated_messages.json".

(** Running the script: the import of TestcaseTokens, then the call. *)
Definition main (E : Env) (env : environ) : M str :=
  (G <- lift (TestcaseTokens.load E env) ;;
   TestcaseTokens.generate_bulk_rate_safe E G seeds PER_SEED KB OUT
     TestcaseTokens.default_safety_token_threshold)%M.

End runbulk.

(** ** Concrete worlds *)

Module Scenario.

(** A fragment of Python's float(): a string of decimal digits. *)
Fixpoint digits_value (acc : Z) (s : str) : option Z :=
  match s with
  | [] => Some acc
  | c :: s' =>
      if ((48 <=? c) && (c <=? 57))%N
      then digits_value (acc * 10 + Z.of_N (c - 48)) s'
      else None
  end.

Definition float_of_digits (s : str) : option float :=
  match s with
  | [] => None
  | _ => option_map (fun z => Fin (inject_Z z)) (digits_value 0 s)
  end.

(** The same with a sign in front. *)
Definition float_of_signed_digits (s : str) : option float :=
  match s with
  | 45%N :: (_ :: _) as digits =>
      option_map (fun z => Fin (inject_Z (- z))) (digits_value 0 digits)
  | _ => float_of_digits s
  end.

(** A world with the given transport and write failures, and fixed
    stand-ins for the library texts. *)
Definition world (t : nat -> request -> post_outcome) (wr : str -> option exn) : Env :=
  mk_env t
         (fun _ => lit "HTTPError")
         (fun _ => lit "<Future>")
         (fun _ => lit "<value>")
         (fun _ => lit "<json>")
         float_of_signed_digits
         (List.map ascii_lower)
         (fun _ => None)
         (fun _ => lit "0123456789abcdef0123456789abcdef")
         (fun _ => None)
         wr
         (fun _ _ => None).

Definition writable : str -> option exn := fun _ => None.

Definition read_only : str -> option exn :=
  fun _ => Some (mk_exn OSError (lit "Permission denied")).

Definition no_files : str -> file_state := fun _ => Absent.

Definition boot : state := mk_state 0 0 no_files.

Definition out_json : str := lit "generated_messages.json".

Definition old_record : value :=
  VDict [(lit "seed", VStr (lit "earlier campaign"));
         (lit "visitor_message", VStr (lit "kept from before"))].

(** A disk on which the output file already holds one record. *)
Definition one_old_record : str -> file_state :=
  fun p => if str_eqb p out_json then Holds (VList [old_record]) else Absent.

(** The start of a run over that disk. *)
Definition second_campaign : state := mk_state 0 0 one_old_record.

Definition the_key : str := lit "gsk_test".
Definition the_url : str := lit "https://api.groq.com/openai/v1/chat/completions".

Definition env_complete : environ :=
  fun name =>
    if str_eqb name (lit "GROQ_API_KEY") then Some the_key
    else if str_eqb name (lit "GROQ_API_URL") then Some the_url
    else None.

Definition env_without_key : environ :=
  fun name => if str_eqb name (lit "GROQ_API_URL") then Some the_url else None.

Definition env_without_url : environ :=
  fun name => if str_eqb name (lit "GROQ_API_KEY") then Some the_key else None.

Definition dq : str := [34%N].

Definition budget_header (remaining : string) : list (str * str) :=
  [(lit "x-ratelimit-remaining-tokens", lit remaining)].

Arguments budget_header remaining%_string.

(** 200, body [{"output_text": "hi"}], no tokens left. *)
Definition json_reply_low_budget : response :=
  mk_response 200 (budget_header "0")
    (lit "{" ++ dq ++ lit "output_text" ++ dq ++ lit ": " ++ dq ++ lit "hi" ++ dq ++ lit "}")
    (Ok (VDict [(lit "output_text", VStr (lit "hi"))])).

(** 200, a body that is not JSON, no tokens left. *)
Definition text_reply_low_budget : response :=
  mk_response 200 (budget_header "0") (lit "hi")
    (Raise (mk_exn ValueError (lit "Expecting value"))).

(** 200, body [{"output_text": "hi"}], plenty of tokens left. *)
Definition json_reply : response :=
  mk_response 200 (budget_header "5000")
    (lit "{" ++ dq ++ lit "output_text" ++ dq ++ lit ": " ++ dq ++ lit "hi" ++ dq ++ lit "}")
    (Ok (VDict [(lit "output_text", VStr (lit "hi"))])).

(** 200, body [[]]: JSON, but not an object. *)
Definition array_reply : response :=
  mk_response 200 [] (lit "[]") (Ok (VList [])).

(** 200, body [{"choices": [{"message": "hi"}]}]: the message is a bare
    string. *)
Definition bare_message_reply : response :=
  mk_response 200 []
    (lit "{" ++ dq ++ lit "choices" ++ dq ++ lit ": [{" ++ dq ++ lit "message" ++ dq
     ++ lit ": " ++ dq ++ lit "hi" ++ dq ++ lit "}]}")
    (Ok (VDict [(lit "choices",
                 VList [VDict [(lit "message", VStr (lit "hi"))]])])).

(** 429 with the header [retry-after: -1]. *)
Definition throttled_reply : response :=
  mk_response 429 [(lit "retry-after", lit "-1")] (lit "Too Many Requests")
    (Raise (mk_exn ValueError (lit "Expecting value"))).

Definition unauthorized_reply : response :=
  mk_response 401 [] (lit "Invalid API Key")
    (Raise (mk_exn ValueError (lit "Expecting value"))).

Definition always (r : response) : nat -> request -> post_outcome :=
  fun _ _ => PostReturns r.

(** No network: every post raises a ConnectionError. *)
Definition unreachable : nat -> request -> post_outcome :=
  fun _ _ => PostRaises (mk_exn RequestException (lit "Connection refused")).

(** The module globals of either script when both variables are set. *)
Definition the_headers : value :=
  VDict [(lit "Authorization", VStr (lit "Bearer " ++ the_key));
         (lit "Content-Type", VStr (lit "application/json"))].

Definition locale_globals : GenerateLocaleTestData.globals :=
  GenerateLocaleTestData.mk_globals (VStr the_key) (VStr the_url)
    (lit "llama-3.1-8b-instant") the_headers.

Definition bulk_globals : TestcaseTokens.globals :=
  TestcaseTokens.mk_globals (VStr the_key) (VStr the_url)
    (lit "llama-3.1-8b-instant") the_headers.

(** runbulk.py with other seeds and counts: the import, then the call. *)
Definition bulk (E : Env) (env : environ) (seeds : list str) (per_seed : Z)
  (threshold : float) : M str :=
  (G <- lift (TestcaseTokens.load E env) ;;
   TestcaseTokens.generate_bulk_rate_safe E G seeds per_seed (VInt 1) out_json threshold)%M.

(** What [requests.post] does with the URL None: it raises
    MissingSchema, a RequestException, before anything is sent. *)
Definition schema_checking (r : response) : nat -> request -> post_outcome :=
  fun _ rq =>
    match url rq with
    | VStr _ => PostReturns r
    | _ => PostRaises (mk_exn RequestException (lit "Invalid URL 'None': No scheme supplied."))
    end.

(** What a run returned, how many posts were made by its end, and what
    the file at [path] then holds. *)
Definition observe (A : Type) (run : outcome A * state) (path : str)
  : outcome A * nat * file_state :=
  (fst run, posts (snd run), fs (snd run) path).

(** The locale generator on the same footing: the module level, then
    the call, for locale en-GB and messages of about 1 KB. *)
Definition locale (E : Env) (env : environ) (seeds : list str) (per_seed : Z)
  (dry_run : bool) : M (list value) :=
  (G <- lift (GenerateLocaleTestData.load E env) ;;
   GenerateLocaleTestData.generate_for_locale E G (lit "en-GB") seeds per_seed
     (VFloat (Fin 1)) (GenerateLocaleTestData.DEFAULT_MODEL G) dry_run out_json)%M.

(** An endpoint that gives the same reply to every post; the file can be
    written. *)
Definition answering (r : response) : Env := world (always r) writable.

(** No network; the file can be written. *)
Definition offline : Env := world unreachable writable.

Definition locale_args (per_seed : Z) (dry_run : bool) (seeds : list str)
  : GenerateLocaleTestData.args :=
  GenerateLocaleTestData.mk_args (lit "en-GB") per_seed (VFloat (Fin 1)) out_json
    dry_run (Some seeds) None.

End Scenario.

(** ** Notions the properties are stated with *)

Module Notions.

(** A string free of the characters that sanitization strips. *)
Definition clean (s : str) : Prop :=
  Forall (fun c => GenerateLocaleTestData.is_control c = false) s.

(** The seeds in the order the nested loops visit them, each [n] times. *)
Definition planned (seeds : list str) (n : nat) : list str :=
  flat_map (fun s => repeat s n) seeds.

(** The seed a record is tagged with. *)
Definition seed_of (record : value) : option str :=
  match record with
  | VDict d =>
      match assoc (lit "seed") d with
      | Some (VStr s) => Some s
      | _ => None
      end
  | _ => None
  end.

(** One more [requests.post] on the clock, nothing else touched. *)
Definition posted (st : state) : state :=
  mk_state (S (posts st)) (uuids st) (fs st).

(** An attempt fails when the post raises a RequestException or comes
    back with a 4xx or 5xx status. *)
Definition attempt_fails (o : post_outcome) : bool :=
  match o with
  | PostRaises e => is_request_exception e
  | PostReturns r => is_http_error (status_code r)
  end.

(** An attempt of [call_groq_once] that its decorator retries: the post
    raises a RequestException, or comes back with a 4xx or 5xx status
    and, when that is 429, with a wait that [time.sleep] accepts. *)
Definition attempt_retried (E : Env) (o : post_outcome) : bool :=
  match o with
  | PostRaises e => is_request_exception e
  | PostReturns r =>
      is_http_error (status_code r)
      && (negb (status_code r =? 429)%Z
          || match sleep_refusal (TestcaseTokens._sleep_from_retry_headers E r) with
             | None => true
             | Some _ => false
             end)
  end.

(** Every post tried in state [st] fails, whatever is sent. *)
Definition post_fails (E : Env) (st : state) : Prop :=
  forall rq, attempt_fails (transport E (posts st) rq) = true.

(** Every post tried in state [st] fails in a way that the decorator of
    [call_groq_once] retries, whatever is sent. *)
Definition post_retried (E : Env) (st : state) : Prop :=
  forall rq, attempt_retried E (transport E (posts st) rq) = true.


(** An error record: no visitor message, an error text. *)
Definition is_error_record (record : value) : bool :=
  match record with
  | VDict d =>
      match assoc (lit "visitor_message") d, assoc (lit "error") d with
      | Some VNone, Some (VStr _) => true
      | _, _ => false
      end
  | _ => false
  end.

(** A success record: a visitor message, no error key. *)
Definition is_message_record (record : value) : bool :=
  match record with
  | VDict d =>
      match assoc (lit "visitor_message") d, assoc (lit "error") d with
      | Some _, None => true
      | _, _ => false
      end
  | _ => false
  end.

(** A record of a run that calls the endpoint: tagged with its seed, and
    an error record or a success record. *)
Definition tagged (seed : str) (record : value) : Prop :=
  seed_of record = Some seed /\
  (is_error_record record = true \/ is_message_record record = true).

(** Lines 126 to 140 of the locale generator on one reply. *)
Definition text_of_reply (E : Env) (resp : value) : outcome value :=
  (text <- GenerateLocaleTestData.extract_text E resp ;;
   GenerateLocaleTestData.sanitize_value text GenerateLocaleTestData.default_max_len)%outcome.

(** Every JSON document the transport can deliver gets through the
    parse of the locale generator. *)
Definition replies_parse (E : Env) : Prop :=
  forall n rq r resp,
    transport E n rq = PostReturns r -> json r = Ok resp ->
    exists text, text_of_reply E resp = Ok text.

(** Every JSON document the transport can deliver gets through the
    parse of the rate-aware generator. *)
Definition json_replies_parse (E : Env) : Prop :=
  forall n rq r resp,
    transport E n rq = PostReturns r -> json r = Ok resp ->
    exists text, TestcaseTokens.extract_text E resp = Ok text.

(** No reply with a body that is not JSON reports a budget at or below
    the threshold, or one that [float] cannot read. *)
Definition budget_stays_high (E : Env) (threshold : float) : Prop :=
  forall n rq r e,
    transport E n rq = PostReturns r -> json r = Raise e ->
    match header_get r "x-ratelimit-remaining-tokens" with
    | Some (c :: rest) =>
        exists remaining,
          py_float E (c :: rest) = Some remaining /\
          float_le remaining threshold = false
    | _ => True
    end.

(** A computation that never changes a file, whatever it returns. *)
Definition keeps_files (A : Type) (c : M A) : Prop :=
  forall st, fs (snd (c st)) = fs st.

(** The record the rate-aware generator builds for seed a from the reply
    text hi. *)
Definition hi_record : value :=
  TestcaseTokens.message_record (lit "a") (VStr (lit "hi")).


End Notions.

Export Notions.

(** ** Further notions: bounds, prefixes, what a returned record holds *)

Module Bounds.

(** A computation that makes at most [n] posts, however it ends, and
    never takes one back. *)
Definition posts_within (A : Type) (c : M A) (n : nat) : Prop :=
  forall st, (posts st <= posts (snd (c st)) <= posts st + n)%nat.

(** The message of a success record of the locale generator: a string
    without the stripped control characters, no longer than the cap plus
    the truncation marker. *)
Definition sanitized (v : value) : Prop :=
  exists s,
    v = VStr s /\ clean s /\
    (len s <= GenerateLocaleTestData.default_max_len
              + len GenerateLocaleTestData.truncation_marker)%Z.

(** [visitor_message] of a record. *)
Definition message_of (record : value) : option value :=
  match record with
  | VDict d => assoc (lit "visitor_message") d
  | _ => None
  end.

(** The disk after [path] has been given the content [doc]. *)
Definition written (disk : str -> file_state) (path : str) (doc : value)
  : str -> file_state :=
  fun p => if str_eqb p path then Holds doc else disk p.

(** The disk after a write to [path] that broke off: the file is there
    and holds no JSON document. *)
Definition cut_off (disk : str -> file_state) (path : str) : str -> file_state :=
  fun p => if str_eqb p path then Unparseable else disk p.

(** The disk after the write of [doc] to the opened file [path],
    complete or broken off. *)
Definition after_dump (E : Env) (disk : str -> file_state) (path : str) (doc : value)
  : str -> file_state :=
  match dump_failure E path doc with
  | None => written disk path doc
  | Some _ => cut_off disk path
  end.

(** What a function gives that ends in that write and then returns [a]:
    [a], or the exception of the write when it broke off. *)
Definition dump_outcome (A : Type) (E : Env) (path : str) (doc : value) (a : A)
  : outcome A :=
  match dump_failure E path doc with
  | None => Ok a
  | Some e => Raise e
  end.

(** A JSON document that is an array. *)
Definition is_array (doc : value) : bool :=
  match doc with
  | VList _ => true
  | _ => false
  end.

(** A record of a run of the locale generator that calls the endpoint:
    tagged with its seed, and either an error record or a success record
    whose message is a sanitized string. *)
Definition live (seed : str) (record : value) : Prop :=
  seed_of record = Some seed /\
  (is_error_record record = true \/
   (is_message_record record = true /\
    exists m, message_of record = Some m /\ sanitized m)).

(** A record that reports a failed call for its seed. *)
Definition failed (seed : str) (record : value) : Prop :=
  seed_of record = Some seed /\ is_error_record record = true.


End Bounds.

Export Bounds.

(** ** Further concrete worlds *)

Module Worlds.

Import Scenario.

(** A connection that is refused [k] times and then gives [r] to every
    post. *)
Definition flaky (k : nat) (r : response) : nat -> request -> post_outcome :=
  fun n _ =>
    if (n <? k)%nat
    then PostRaises (mk_exn RequestException (lit "Connection refused"))
    else PostReturns r.


(** The output file exists and is empty. *)
Definition empty_file : str -> file_state :=
  fun p => if str_eqb p out_json then Unparseable else Absent.

(** The output file holds a JSON object, not an array. *)
Definition object_file : str -> file_state :=
  fun p => if str_eqb p out_json then Holds (VDict []) else Absent.


(** 200, body [{"output_text": "\ud83d"}]: the text is one lone
    surrogate, which [json.loads] accepts. *)
Definition surrogate_reply : response :=
  mk_response 200 []
    (lit "{" ++ dq ++ lit "output_text" ++ dq ++ lit ": " ++ dq ++ lit "\ud83d"
     ++ dq ++ lit "}")
    (Ok (VDict [(lit "output_text", VStr [55357%N])])).





End Worlds.

(** ** Properties of the token heuristic and of sanitization *)

Module Heuristics.

Import GenerateLocaleTestData.

Lemma Qfloor_scaled (q : Q) :
  Qfloor (q * 1024 / 4) = Qfloor (q * inject_Z 1024 / inject_Z 4).
Proof. reflexivity. Qed.

Lemma int_times_1024_floordiv_4 (z : Z) :
  Qfloor (inject_Z z * 1024 / 4) = (z * 1024 / 4)%Z.
Proof.
  unfold Qfloor, Qdiv, Qmult, Qinv, inject_Z; simpl.
  rewrite !Z.mul_1_r. reflexivity.
Qed.

Lemma float_of_Q_finite (q q' : Q) : float_of_Q q = Fin q' -> q' = q.
Proof.
  unfold float_of_Q.
  destruct (Qle_bool (inject_Z float_overflow) q); [discriminate | ].
  destruct (Qle_bool q (inject_Z (- float_overflow))); [discriminate | ].
  now intros [= <-].
Qed.

(** Both copies of the heuristic on a finite number whose product with
    1024 is finite. *)
Lemma tokens_on_number (kb : value) (q : Q) :
  number kb = Some q -> scales kb 1024 = true ->
  _tokens_for_kb kb = Ok (Z.max 32 (Qfloor (q * 1024 / 4))) /\
  TestcaseTokens._tokens_for_kb kb = Ok (Z.max 32 (Qfloor (q * 1024 / 4))).
Proof.
  intros Hnum Hfits.
  destruct kb as [ | b | z | f | s | l | d]; simpl in Hnum; try discriminate.
  - injection Hnum as <-.
    rewrite int_times_1024_floordiv_4.
    unfold _tokens_for_kb, tokens_arith, TestcaseTokens._tokens_for_kb; simpl.
    split; reflexivity.
  - injection Hnum as <-.
    rewrite int_times_1024_floordiv_4.
    unfold _tokens_for_kb, tokens_arith, TestcaseTokens._tokens_for_kb; simpl.
    split; reflexivity.
  - destruct f as [r | | | ]; try discriminate.
    injection Hnum as <-.
    unfold scales in Hfits.
    destruct (float_scale (Fin r) 1024) as [p | | | ] eqn:Hscale; try discriminate.
    apply float_of_Q_finite in Hscale as Hp. subst p.
    unfold _tokens_for_kb, tokens_arith, TestcaseTokens._tokens_for_kb.
    cbn [py_mul obind]. rewrite Hscale.
    cbn [py_floordiv py_int obind].
    cbn [inject_Z Qnum Qden].
    rewrite Z.quot_1_r.
    split; reflexivity.
Qed.

(** Past the range of the doubles the product is inf, the floor division
    gives nan and [int] raises: the locale generator's copy falls back on
    256, the other copy lets the ValueError out. *)
Lemma tokens_on_overflow (q : Q) :
  scales (VFloat (Fin q)) 1024 = false ->
  _tokens_for_kb (VFloat (Fin q)) = Ok 256%Z /\
  TestcaseTokens._tokens_for_kb (VFloat (Fin q))
  = raise_of ValueError "cannot convert float NaN to integer".
Proof.
  unfold scales, _tokens_for_kb, tokens_arith, TestcaseTokens._tokens_for_kb.
  cbn [py_mul obind].
  destruct (float_scale (Fin q) 1024) as [p | | | ]; [discriminate | | | ];
    intros _; split; reflexivity.
Qed.

(** C8: for every number kb >= 0 whose product with 1024 is a finite
    number (any int, and any float up to 2^1014 - 2^961, the largest
    double below 2^1014), both copies of the token heuristic return max(32, floor(kb * 1024 / 4)); and for kb = 1 they
    return 256. *)
Theorem tokens_for_kb_formula :
  (forall (kb : value) (q : Q),
      number kb = Some q -> (0 <= q)%Q -> scales kb 1024 = true ->
      _tokens_for_kb kb = Ok (Z.max 32 (Qfloor (q * 1024 / 4))) /\
      TestcaseTokens._tokens_for_kb kb = Ok (Z.max 32 (Qfloor (q * 1024 / 4)))) /\
  (forall z : Z, scales (VInt z) 1024 = true) /\
  (forall q : Q,
      (0 <= q)%Q -> (q <= inject_Z (2 ^ 1014 - 2 ^ 961))%Q ->
      scales (VFloat (Fin q)) 1024 = true) /\
  _tokens_for_kb (VInt 1) = Ok 256%Z /\
  TestcaseTokens._tokens_for_kb (VInt 1) = Ok 256%Z /\
  _tokens_for_kb (VFloat (Fin 1)) = Ok 256%Z.
Proof.
  split; [ | split; [ | split; [ | repeat split; reflexivity]]].
  - intros kb q Hnum _ Hfits. exact (tokens_on_number kb Hnum Hfits).
  - reflexivity.
  - intros q Hpos Hlt. unfold scales, float_scale, float_of_Q.
    assert (Hprod : (q * inject_Z 1024 < inject_Z float_overflow)%Q).
    { apply Qle_lt_trans with (y := (inject_Z (2 ^ 1014 - 2 ^ 961) * inject_Z 1024)%Q).
      - apply Qmult_le_compat_r; [exact Hlt | discriminate].
      - rewrite <- inject_Z_mult. rewrite <- Zlt_Qlt.
        apply Z.ltb_lt. vm_compute. reflexivity. }
    assert (Hneg : (inject_Z (- float_overflow) < q * inject_Z 1024)%Q).
    { apply Qlt_le_trans with (y := 0%Q); [reflexivity | ].
      apply Qmult_le_0_compat; [exact Hpos | discriminate]. }
    destruct (Qle_bool (inject_Z float_overflow) (q * inject_Z 1024)) eqn:Hhi.
    { apply Qle_bool_iff in Hhi. exfalso. exact (Qlt_not_le _ _ Hprod Hhi). }
    destruct (Qle_bool (q * inject_Z 1024) (inject_Z (- float_overflow))) eqn:Hlo.
    { apply Qle_bool_iff in Hlo. exfalso. exact (Qlt_not_le _ _ Hneg Hlo). }
    reflexivity.
Qed.

Lemma tokens_for_kb_formula_witness :
  number (VFloat (Fin (3 # 2))) = Some (3 # 2) /\
  (0 <= 3 # 2)%Q /\
  scales (VFloat (Fin (3 # 2))) 1024 = true /\
  _tokens_for_kb (VFloat (Fin (3 # 2))) = Ok 384%Z /\
  TestcaseTokens._tokens_for_kb (VFloat (Fin (3 # 2))) = Ok 384%Z.
Proof.
  split; [reflexivity | ].
  split; [discriminate | ].
  split; [reflexivity | ].
  apply (proj1 tokens_for_kb_formula (VFloat (Fin (3 # 2))) (3 # 2)).
  - reflexivity.
  - discriminate.
  - reflexivity.
Defined.

(** At the double 2^1023, a number >= 0, the formula gives 2^1031 and
    neither copy returns it: one returns 256, the other raises. *)
Lemma tokens_for_kb_formula_fails_on_overflow :
  number (VFloat (Fin (inject_Z (2 ^ 1023)))) = Some (inject_Z (2 ^ 1023)) /\
  (0 <= inject_Z (2 ^ 1023))%Q /\
  Z.max 32 (Qfloor (inject_Z (2 ^ 1023) * 1024 / 4)) = (2 ^ 1031)%Z /\
  _tokens_for_kb (VFloat (Fin (inject_Z (2 ^ 1023)))) = Ok 256%Z /\
  _tokens_for_kb (VFloat (Fin (inject_Z (2 ^ 1023))))
  <> Ok (Z.max 32 (Qfloor (inject_Z (2 ^ 1023) * 1024 / 4))) /\
  TestcaseTokens._tokens_for_kb (VFloat (Fin (inject_Z (2 ^ 1023))))
  = raise_of ValueError "cannot convert float NaN to integer".
Proof.
  split; [reflexivity | ].
  split; [discriminate | ].
  split; [vm_compute; reflexivity | ].
  split; [vm_compute; reflexivity | ].
  split; [vm_compute; discriminate | vm_compute; reflexivity].
Qed.

(** The locale generator's copy always has a value. *)
Lemma locale_tokens_defined (kb : value) : exists n : Z, _tokens_for_kb kb = Ok n.
Proof.
  unfold _tokens_for_kb. destruct (tokens_arith kb) as [n | e]; eexists; reflexivity.
Qed.

(** C10: the locale generator's heuristic never raises: it returns a
    number on every value, and that number is 256 whenever the arithmetic
    raises. *)
Theorem locale_tokens_for_kb_total (kb : value) :
  exists n : Z,
    _tokens_for_kb kb = Ok n /\
    (forall e, tokens_arith kb = Raise e -> n = 256%Z).
Proof.
  unfold _tokens_for_kb.
  destruct (tokens_arith kb) as [n | e0].
  - exists n. split; [reflexivity | discriminate].
  - exists 256%Z. split; reflexivity.
Qed.

Lemma locale_tokens_for_kb_total_witness :
  tokens_arith (VStr (lit "1")) = raise_of TypeError "unsupported operand type(s) for //" /\
  exists n : Z,
    _tokens_for_kb (VStr (lit "1")) = Ok n /\ n = 256%Z.
Proof.
  split; [reflexivity | ].
  destruct (locale_tokens_for_kb_total (VStr (lit "1"))) as [n [Hn H256]].
  exists n. split; [exact Hn | ].
  apply (H256 (mk_exn TypeError (lit "unsupported operand type(s) for //"))).
  reflexivity.
Defined.

(** The arithmetic does raise on values that are not finite numbers; the
    copy in TestcaseTokens.py lets the exception out. *)
Lemma tokens_arith_raises :
  (forall s, exists e, tokens_arith (VStr s) = Raise e) /\
  (exists e, tokens_arith VNone = Raise e) /\
  (exists e, tokens_arith (VFloat NaN) = Raise e) /\
  (exists e, tokens_arith (VFloat Inf) = Raise e) /\
  (exists e, TestcaseTokens._tokens_for_kb VNone = Raise e).
Proof.
  repeat split; intros; eexists; reflexivity.
Qed.

End Heuristics.

Module Sanitize.

Import GenerateLocaleTestData.

Lemma strip_control_clean (s : str) : clean (strip_control s).
Proof.
  unfold clean, strip_control. apply Forall_forall. intros c Hc.
  apply filter_In in Hc. destruct Hc as [_ Hc].
  now apply negb_true_iff in Hc.
Qed.

Lemma strip_control_fixed (s : str) : clean s -> strip_control s = s.
Proof.
  unfold clean, strip_control. induction 1 as [ | c s Hc _ IH]; simpl.
  - reflexivity.
  - rewrite Hc. simpl. now rewrite IH.
Qed.

Lemma clean_firstn (n : nat) (s : str) : clean s -> clean (firstn n s).
Proof.
  unfold clean. intros H. rewrite <- (firstn_skipn n s) in H.
  apply Forall_app in H. exact (proj1 H).
Qed.

Lemma clean_marker : clean truncation_marker.
Proof. unfold clean. repeat constructor. Qed.

Lemma clean_app (a b : str) : clean a -> clean b -> clean (a ++ b).
Proof. unfold clean. intros Ha Hb. apply Forall_app. now split. Qed.

Lemma sanitize_text_cons (c : N) (s : str) (max_len : Z) :
  sanitize_text (c :: s) max_len =
  if (len (strip_control (c :: s)) >? max_len)%Z
  then slice_to max_len (strip_control (c :: s)) ++ truncation_marker
  else strip_control (c :: s).
Proof. reflexivity. Qed.

(** What the function returns is free of the stripped characters. *)
Lemma sanitize_text_clean (s : str) (max_len : Z) : clean s -> clean (sanitize_text s max_len).
Proof.
  intros Hs. destruct s as [ | c s]; [exact Hs | ].
  rewrite sanitize_text_cons.
  destruct (len (strip_control (c :: s)) >? max_len)%Z.
  - apply clean_app; [ | apply clean_marker].
    unfold slice_to. destruct (0 <=? max_len)%Z; apply clean_firstn, strip_control_clean.
  - apply strip_control_clean.
Qed.

(** On a string that is already clean and short enough nothing changes. *)
Lemma sanitize_text_short (s : str) (max_len : Z) :
  clean s -> (len s <= max_len)%Z -> sanitize_text s max_len = s.
Proof.
  intros Hs Hlen. destruct s as [ | c s]; [reflexivity | ].
  rewrite sanitize_text_cons, (strip_control_fixed Hs).
  destruct (Z.gtb_spec (len (c :: s)) max_len) as [Hgt | _]; [lia | reflexivity].
Qed.

(** On a clean string of the shape [prefix ++ marker] with a prefix of
    exactly [max_len] characters the cut falls where it fell before. *)
Lemma sanitize_text_truncated (prefix : str) (max_len : Z) :
  clean prefix -> len prefix = max_len ->
  sanitize_text (prefix ++ truncation_marker) max_len = prefix ++ truncation_marker.
Proof.
  intros Hp Hlen.
  assert (Hclean : clean (prefix ++ truncation_marker))
    by (apply clean_app; [exact Hp | apply clean_marker]).
  assert (Hne : exists c r, prefix ++ truncation_marker = c :: r).
  { destruct prefix as [ | c r]; [unfold truncation_marker, nl | ]; simpl; eauto. }
  destruct Hne as [c [r Hcr]].
  rewrite Hcr, sanitize_text_cons, <- Hcr.
  rewrite (strip_control_fixed Hclean).
  assert (Hlong : (len (prefix ++ truncation_marker) > max_len)%Z).
  { unfold len in *. rewrite length_app. simpl. lia. }
  destruct (Z.gtb_spec (len (prefix ++ truncation_marker)) max_len) as [_ | Hle]; [ | lia].
  f_equal. unfold slice_to, len in *.
  destruct (Z.leb_spec 0 max_len) as [_ | Hneg]; [ | lia].
  replace (Z.to_nat max_len) with (length prefix + 0)%nat by lia.
  rewrite firstn_app_2. simpl. apply app_nil_r.
Qed.

(** Idempotence for every cap that is not negative. *)
Lemma sanitize_text_twice (max_len : Z) (x : str) :
  (0 <= max_len)%Z ->
  sanitize_text (sanitize_text x max_len) max_len = sanitize_text x max_len.
Proof.
  intros Hmax. destruct x as [ | c x]; [reflexivity | ].
  rewrite sanitize_text_cons.
  pose proof (strip_control_clean (c :: x)) as Hclean.
  set (s1 := strip_control (c :: x)) in *.
  destruct (Z.gtb_spec (len s1) max_len) as [Hgt | Hle].
  - apply sanitize_text_truncated.
    + unfold slice_to. destruct (0 <=? max_len)%Z; now apply clean_firstn.
    + unfold slice_to, len in *.
      destruct (Z.leb_spec 0 max_len) as [_ | Hneg]; [ | lia].
      rewrite length_firstn. lia.
  - now apply sanitize_text_short.
Qed.

(** C4: sanitization with the configured cap of 100000 characters is
    idempotent on every string, the long ones that get cut and marked
    included. *)
Theorem sanitize_text_idempotent (x : str) :
  sanitize_text (sanitize_text x default_max_len) default_max_len
  = sanitize_text x default_max_len.
Proof.
  apply sanitize_text_twice. unfold default_max_len. lia.
Qed.

(** A long input does take the truncating branch: with a cap of 3, five
    letters come back as three letters and the marker, and a second pass
    returns the same. *)
Example sanitize_text_cut :
  sanitize_text (lit "abcde") 3 = lit "abc" ++ truncation_marker /\
  sanitize_text (sanitize_text (lit "abcde") 3) 3 = lit "abc" ++ truncation_marker.
Proof. split; reflexivity. Qed.

(** The value-level call of the loop agrees with [sanitize_text] on
    strings and raises on any other truthy value. *)
Lemma sanitize_value_str (s : str) (max_len : Z) :
  sanitize_value (VStr s) max_len = Ok (VStr (sanitize_text s max_len)).
Proof. destruct s; reflexivity. Qed.

End Sanitize.

(** ** Reasoning about runs *)

Module Run.

Lemma length_planned (seeds : list str) (n : nat) :
  length (planned seeds n) = (length seeds * n)%nat.
Proof.
  unfold planned. induction seeds as [ | s seeds IH]; simpl.
  - reflexivity.
  - rewrite length_app, repeat_length, IH. reflexivity.
Qed.

Lemma Forall2_repeat (A B : Type) (P : A -> B -> Prop) (a : A) (l : list B) :
  Forall (P a) l -> Forall2 P (repeat a (length l)) l.
Proof. induction 1; simpl; constructor; assumption. Qed.

Section Lockstep.

Variable Q : state -> Prop.

(** An inner loop whose body appends one record each time. *)
Lemma for_range_lockstep (body : list value -> M (list value)) (P : value -> Prop) :
  (forall out st, Q st ->
     exists record st', body out st = (Ok (out ++ [record]), st') /\ P record /\ Q st') ->
  forall n out st, Q st ->
     exists records st',
       for_range n body out st = (Ok (out ++ records), st') /\
       length records = n /\ Forall P records /\ Q st'.
Proof.
  intros Hbody. induction n as [ | n IH]; intros out st HQ.
  - exists [], st. rewrite app_nil_r. repeat split; [constructor | exact HQ].
  - destruct (Hbody out st HQ) as [record [st1 [Hrun [HP HQ1]]]].
    destruct (IH (out ++ [record]) st1 HQ1) as [records [st2 [Hrest [Hlen [HPs HQ2]]]]].
    exists (record :: records), st2.
    simpl. unfold bind. rewrite Hrun, Hrest, <- app_assoc. simpl.
    repeat split; [now rewrite Hlen | now constructor | exact HQ2].
Qed.

(** The outer loop over the seeds. *)
Lemma for_each_lockstep (body : str -> list value -> M (list value))
  (P : str -> value -> Prop) (n : nat) :
  (forall seed out st, Q st ->
     exists records st',
       body seed out st = (Ok (out ++ records), st') /\
       length records = n /\ Forall (P seed) records /\ Q st') ->
  forall seeds out st, Q st ->
     exists records st',
       for_each seeds body out st = (Ok (out ++ records), st') /\
       Forall2 P (planned seeds n) records /\ Q st'.
Proof.
  intros Hbody. induction seeds as [ | seed seeds IH]; intros out st HQ.
  - exists [], st. rewrite app_nil_r. repeat split; [constructor | exact HQ].
  - destruct (Hbody seed out st HQ) as [recs [st1 [Hrun [Hlen [HP HQ1]]]]].
    destruct (IH (out ++ recs) st1 HQ1) as [records [st2 [Hrest [HPs HQ2]]]].
    exists (recs ++ records), st2.
    simpl. unfold bind. rewrite Hrun, Hrest, <- app_assoc.
    repeat split; [ | exact HQ2].
    apply Forall2_app; [ | exact HPs].
    rewrite <- Hlen. now apply Forall2_repeat.
Qed.

End Lockstep.

(** Exhausting the retry envelope: when the wrapped call raises a
    RequestException in every state it is tried in, [retry] tries it
    [n] times and raises a RetryError. *)
Lemma retry_exhausts (E : Env) (A : Type) (f : M A) (next : state -> state)
  (fails : state -> Prop) :
  (forall st, fails st ->
     exists e, f st = (Raise e, next st) /\ is_request_exception e = true) ->
  forall n st,
    (forall k, (k <= n)%nat -> fails (Nat.iter k next st)) ->
    exists e,
      attempts E n f st = (Raise e, Nat.iter (S n) next st) /\
      exn_class_of e = RetryError.
Proof.
  intros Hf. induction n as [ | n IH]; intros st Hall.
  - destruct (Hf st (Hall 0%nat (Nat.le_refl _))) as [e [Hrun Hreq]].
    eexists. simpl. rewrite Hrun, Hreq. split; reflexivity.
  - destruct (Hf st (Hall 0%nat (Nat.le_0_l _))) as [e [Hrun Hreq]].
    destruct (IH (next st)) as [e' [Hrest Hclass]].
    { intros k Hk. specialize (Hall (S k) (proj1 (Nat.succ_le_mono _ _) Hk)).
      now rewrite Nat.iter_succ_r in Hall. }
    exists e'. cbn [attempts]. rewrite Hrun, Hreq, Hrest.
    split; [ | exact Hclass].
    f_equal. now rewrite <- Nat.iter_succ_r.
Qed.

Lemma posts_iter_posted (k : nat) (st : state) :
  posts (Nat.iter k posted st) = (k + posts st)%nat /\
  uuids (Nat.iter k posted st) = uuids st /\
  fs (Nat.iter k posted st) = fs st.
Proof.
  induction k as [ | k [IHp [IHu IHf]]]; simpl; [auto | ].
  rewrite IHp, IHu, IHf. auto.
Qed.

(** Building a prompt draws one uuid and cannot fail. *)
Lemma build_prompt_runs (E : Env) (seed locale label : str) (kb : value) (st : state) :
  exists messages,
    GenerateLocaleTestData.build_prompt E seed locale label kb st
    = (Ok messages, mk_state (posts st) (S (uuids st)) (fs st)) /\
    length messages = 2%nat.
Proof. eexists. split; reflexivity. Qed.

Lemma http_error_not_2xx (status : Z) :
  is_http_error status = true -> is_2xx status = false.
Proof.
  unfold is_http_error, is_2xx. intros H.
  apply andb_true_iff in H. destruct H as [H _].
  apply Z.leb_le in H. apply andb_false_iff. right. apply Z.ltb_ge. lia.
Qed.

End Run.

(** ** The bounded-retry envelope *)

Module RetryEnvelope.

Import Run.

Lemma call_groq_body_fails (E : Env) (G : GenerateLocaleTestData.globals)
  (messages : list GenerateLocaleTestData.message) (model : str) (tokens tmo : Z)
  (st : state) :
  post_fails E st ->
  exists e,
    GenerateLocaleTestData.call_groq_body E G messages model tokens tmo st
    = (Raise e, posted st) /\
    is_request_exception e = true.
Proof.
  intros Hfail.
  unfold GenerateLocaleTestData.call_groq_body, bind, requests_post.
  match goal with |- context [transport E (posts st) ?rq] =>
    specialize (Hfail rq); destruct (transport E (posts st) rq) as [e | r] end;
    simpl in Hfail.
  - exists e. split; [reflexivity | exact Hfail].
  - rewrite (http_error_not_2xx _ Hfail). simpl.
    unfold raise_for_status. rewrite Hfail.
    eexists. split; reflexivity.
Qed.

Lemma call_groq_once_body_fails (E : Env) (G : TestcaseTokens.globals)
  (s : str) (kb : value) (model : str) (n : Z) (st : state) :
  TestcaseTokens._tokens_for_kb kb = Ok n ->
  post_retried E st ->
  exists e,
    TestcaseTokens.call_groq_once_body E G s kb model None st
    = (Raise e, posted st) /\
    is_request_exception e = true.
Proof.
  intros Htok Hfail.
  unfold TestcaseTokens.call_groq_once_body, bind, lift, requests_post.
  rewrite Htok.
  match goal with |- context [transport E (posts st) ?rq] =>
    specialize (Hfail rq); destruct (transport E (posts st) rq) as [e | r] end;
    simpl in Hfail.
  - exists e. split; [reflexivity | exact Hfail].
  - apply andb_true_iff in Hfail. destruct Hfail as [Hfail Hwait].
    unfold raise_for_status. rewrite Hfail.
    destruct (status_code r =? 429)%Z.
    + unfold time_sleep.
      destruct (sleep_refusal (TestcaseTokens._sleep_from_retry_headers E r));
        [discriminate Hwait | ].
      eexists. split; reflexivity.
    + rewrite (http_error_not_2xx _ Hfail). simpl.
      eexists. split; reflexivity.
Qed.

(** A 429 whose wait [time.sleep] refuses ends the attempt with that
    refusal, which is no RequestException: the HTTPError is never
    raised. *)
Lemma call_groq_once_body_refused (E : Env) (G : TestcaseTokens.globals)
  (s : str) (kb : value) (model : str) (n : Z) (st : state) (r : response) (e : exn) :
  TestcaseTokens._tokens_for_kb kb = Ok n ->
  (forall rq, transport E (posts st) rq = PostReturns r) ->
  status_code r = 429%Z ->
  sleep_refusal (TestcaseTokens._sleep_from_retry_headers E r) = Some e ->
  TestcaseTokens.call_groq_once_body E G s kb model None st = (Raise e, posted st).
Proof.
  intros Htok Hreply Hstatus Hwait.
  unfold TestcaseTokens.call_groq_once_body, bind, lift, requests_post.
  rewrite Htok, Hreply. cbv beta iota. rewrite Hstatus. cbv beta iota.
  change (429 =? 429)%Z with true. cbv beta iota.
  unfold time_sleep. rewrite Hwait. reflexivity.
Qed.

Lemma post_retried_iter (E : Env) (st : state) (n : nat) :
  (forall k rq, (k < n)%nat -> attempt_retried E (transport E (posts st + k) rq) = true) ->
  forall k, (k <= n - 1)%nat -> (0 < n)%nat -> post_retried E (Nat.iter k posted st).
Proof.
  intros Hall k Hk Hn rq.
  destruct (posts_iter_posted k st) as [-> _].
  rewrite Nat.add_comm. apply Hall. lia.
Qed.

Lemma post_fails_iter (E : Env) (st : state) (n : nat) :
  (forall k rq, (k < n)%nat -> attempt_fails (transport E (posts st + k) rq) = true) ->
  forall k, (k <= n - 1)%nat -> (0 < n)%nat -> post_fails E (Nat.iter k posted st).
Proof.
  intros Hall k Hk Hn rq.
  destruct (posts_iter_posted k st) as [-> _].
  rewrite Nat.add_comm. apply Hall. lia.
Qed.

(** The dispatch of the locale generator. *)
Lemma call_groq_exhausts (E : Env) (G : GenerateLocaleTestData.globals)
  (messages : list GenerateLocaleTestData.message) (model : str) (tokens : Z)
  (st : state) :
  (forall k rq, (k < GenerateLocaleTestData.call_groq_max_attempts)%nat ->
                attempt_fails (transport E (posts st + k) rq) = true) ->
  exists e,
    GenerateLocaleTestData.call_groq E G messages model tokens st
    = (Raise e, Nat.iter GenerateLocaleTestData.call_groq_max_attempts posted st) /\
    exn_class_of e = RetryError.
Proof.
  intros Hall. unfold GenerateLocaleTestData.call_groq, retry.
  apply retry_exhausts with (fails := post_fails E).
  - intros st0. apply call_groq_body_fails.
  - intros k Hk. apply (post_fails_iter E st Hall); [exact Hk | ].
    unfold GenerateLocaleTestData.call_groq_max_attempts. lia.
Qed.

(** The dispatch of the rate-aware generator. *)
Lemma call_groq_once_exhausts (E : Env) (G : TestcaseTokens.globals)
  (s : str) (kb : value) (n : Z) (st : state) :
  TestcaseTokens._tokens_for_kb kb = Ok n ->
  (forall k rq, (k < TestcaseTokens.call_groq_once_max_attempts)%nat ->
                attempt_retried E (transport E (posts st + k) rq) = true) ->
  exists e,
    TestcaseTokens.call_groq_once E G s kb st
    = (Raise e, Nat.iter TestcaseTokens.call_groq_once_max_attempts posted st) /\
    exn_class_of e = RetryError.
Proof.
  intros Htok Hall. unfold TestcaseTokens.call_groq_once, retry.
  apply retry_exhausts with (fails := post_retried E).
  - intros st0. now apply call_groq_once_body_fails with (n := n).
  - intros k Hk. apply (post_retried_iter E st Hall); [exact Hk | ].
    unfold TestcaseTokens.call_groq_once_max_attempts. lia.
Qed.

(** The retry envelope where it holds.  In the locale generator, when
    every attempt fails (a RequestException, or a 4xx or 5xx status),
    [call_groq] makes exactly 3 posts and the loop appends an error
    record for the seed.  In the rate-aware generator the same holds with
    4 posts when every failed attempt is one the decorator retries: on a
    429 the wait must be one that [time.sleep] accepts. *)
Lemma retry_envelope_holds (E : Env) (st : state) :
  (3 <= GenerateLocaleTestData.call_groq_max_attempts <= 4)%nat /\
  (3 <= TestcaseTokens.call_groq_once_max_attempts <= 4)%nat /\
  (forall G locale label kb model tokens seed out,
     (forall k rq, (k < GenerateLocaleTestData.call_groq_max_attempts)%nat ->
                   attempt_fails (transport E (posts st + k) rq) = true) ->
     exists record st',
       GenerateLocaleTestData.generate_one E G locale label kb model false tokens seed out st
       = (Ok (out ++ [record]), st') /\
       failed seed record /\
       posts st' = (posts st + GenerateLocaleTestData.call_groq_max_attempts)%nat) /\
  (forall G kb n out_file threshold s out,
     TestcaseTokens._tokens_for_kb kb = Ok n ->
     (forall k rq, (k < TestcaseTokens.call_groq_once_max_attempts)%nat ->
                   attempt_retried E (transport E (posts st + k) rq) = true) ->
     exists record st',
       TestcaseTokens.generate_one E G kb out_file threshold s out st
       = (Ok (Next (out ++ [record])), st') /\
       failed s record /\
       posts st' = (posts st + TestcaseTokens.call_groq_once_max_attempts)%nat).
Proof.
  split; [unfold GenerateLocaleTestData.call_groq_max_attempts; lia | ].
  split; [unfold TestcaseTokens.call_groq_once_max_attempts; lia | ].
  split.
  - intros G locale label kb model tokens seed out Hall.
    destruct (build_prompt_runs E seed locale label kb st) as [messages [Hprompt _]].
    unfold GenerateLocaleTestData.generate_one, bind, attempt, ret.
    rewrite Hprompt. cbv beta iota.
    match goal with |- context [GenerateLocaleTestData.call_groq E G ?m model tokens ?s] =>
      destruct (call_groq_exhausts E G m model tokens s Hall) as [e [Hrun Hclass]];
      rewrite Hrun end.
    exists (GenerateLocaleTestData.error_record seed locale e). eexists.
    split; [reflexivity | ]. split; [split; reflexivity | ].
    match goal with |- posts (Nat.iter _ posted ?s) = _ =>
      destruct (posts_iter_posted GenerateLocaleTestData.call_groq_max_attempts s)
        as [-> _] end.
    cbn [posts]. lia.
  - intros G kb n out_file threshold s out Htok Hall.
    unfold TestcaseTokens.generate_one, bind, attempt, ret.
    destruct (call_groq_once_exhausts E G s kb st Htok Hall) as [e [Hrun Hclass]].
    rewrite Hrun.
    exists (TestcaseTokens.error_record s e). eexists.
    split; [reflexivity | ]. split; [split; reflexivity | ].
    destruct (posts_iter_posted TestcaseTokens.call_groq_once_max_attempts st) as [-> _].
    lia.
Qed.

Example retry_envelope_offline :
  (exists record st',
     GenerateLocaleTestData.generate_one Scenario.offline Scenario.locale_globals
       (lit "en-GB") (lit "English (UK)") (VInt 1) (lit "llama-3.1-8b-instant")
       false 256 (lit "a") [] Scenario.boot
     = (Ok ([] ++ [record]), st') /\
     failed (lit "a") record /\
     posts st' = (posts Scenario.boot + GenerateLocaleTestData.call_groq_max_attempts)%nat) /\
  (exists record st',
     TestcaseTokens.generate_one Scenario.offline Scenario.bulk_globals (VInt 1) Scenario.out_json
       TestcaseTokens.default_safety_token_threshold (lit "a") [] Scenario.boot
     = (Ok (Next ([] ++ [record])), st') /\
     failed (lit "a") record /\
     posts st' = (posts Scenario.boot + TestcaseTokens.call_groq_once_max_attempts)%nat).
Proof.
  pose proof (retry_envelope_holds Scenario.offline Scenario.boot) as [_ [_ [Hlocale Hbulk]]].
  split; [apply Hlocale; intros k rq _; reflexivity | ].
  apply Hbulk with (n := 256%Z); [reflexivity | intros k rq _; reflexivity].
Qed.

(** C5: an endpoint that answers every post with 429 and the header
    retry-after: -1 fails on every attempt, yet [call_groq_once] makes
    one post, not 4: [time.sleep(-1.0)] raises ValueError before
    [raise_for_status] is reached, and the decorator only retries a
    RequestException.  The item is recorded as an error after that single
    post, and a run over one item ends after 1 post.  The dispatch of the
    locale generator, which does not sleep, makes its 3 posts against the
    same endpoint. *)
Theorem retry_envelope_cut_short_by_refused_wait :
  attempt_fails (PostReturns Scenario.throttled_reply) = true /\
  TestcaseTokens._sleep_from_retry_headers
    (Scenario.answering Scenario.throttled_reply) Scenario.throttled_reply
  = Fin (inject_Z (-1)) /\
  (exists e,
     TestcaseTokens.generate_one (Scenario.answering Scenario.throttled_reply)
       Scenario.bulk_globals (VInt 1) Scenario.out_json
       TestcaseTokens.default_safety_token_threshold (lit "a") [] Scenario.boot
     = (Ok (Next [TestcaseTokens.error_record (lit "a") e]),
        mk_state 1 0 Scenario.no_files) /\
     exn_class_of e = ValueError /\
     exn_text e = lit "sleep length must be non-negative") /\
  (exists e,
     TestcaseTokens.generate_bulk_rate_safe (Scenario.answering Scenario.throttled_reply)
       Scenario.bulk_globals [lit "a"] 1 (VInt 1) Scenario.out_json
       TestcaseTokens.default_safety_token_threshold Scenario.boot
     = (Ok Scenario.out_json,
        mk_state 1 0
          (written Scenario.no_files Scenario.out_json
             (VList [TestcaseTokens.error_record (lit "a") e]))) /\
     exn_class_of e = ValueError) /\
  (exists record st',
     GenerateLocaleTestData.generate_one (Scenario.answering Scenario.throttled_reply)
       Scenario.locale_globals (lit "en-GB") (lit "English (UK)") (VInt 1)
       (lit "llama-3.1-8b-instant") false 256 (lit "a") [] Scenario.boot
     = (Ok [record], st') /\
     failed (lit "a") record /\
     posts st' = 3%nat).
Proof.
  split; [reflexivity | ].
  split; [reflexivity | ].
  split; [eexists; split; [reflexivity | split; reflexivity] | ].
  split; [eexists; split; reflexivity | ].
  eexists. eexists. split; [reflexivity | ]. split; [split; reflexivity | reflexivity].
Qed.

End RetryEnvelope.

(** ** The locale generator: writing the file, dry runs *)

Module LocaleRun.

Import Run.
Import GenerateLocaleTestData.

(** The write at the end never raises and never posts. *)
Lemma write_merged_quiet (E : Env) (out_file : str) (out : list value) (st : state) :
  exists st',
    write_merged E out_file out st = (Ok tt, st') /\
    posts st' = posts st /\ uuids st' = uuids st.
Proof.
  unfold write_merged, try_except, bind, os_path_exists, read_json, write_json,
    lift, ret, raise_of.
  cbv beta iota.
  destruct (fs st out_file) as [ | | doc] eqn:Hfs; cbv beta iota;
    try destruct (read_error E out_file); cbv beta iota; rewrite ?Hfs;
    try destruct doc; cbv beta iota delta [py_add_list raise_of];
    try destruct (write_error E out_file); cbv beta iota;
    try match goal with |- context [dump_failure E out_file ?d] =>
          destruct (dump_failure E out_file d) end;
    eexists; (split; [reflexivity | split; reflexivity]).
Qed.

(** What the write leaves in the file when nothing fails: the records it
    held, then the new ones. *)
Lemma write_merged_appends (E : Env) (out_file : str) (old out : list value) (st : state) :
  read_error E out_file = None ->
  write_error E out_file = None ->
  fs st out_file = Holds (VList old) ->
  dump_failure E out_file (VList (old ++ out)) = None ->
  exists st',
    write_merged E out_file out st = (Ok tt, st') /\
    fs st' out_file = Holds (VList (old ++ out)) /\
    (forall p, str_eqb p out_file = false -> fs st' p = fs st p).
Proof.
  intros Hr Hw Hfs Henc.
  unfold write_merged, try_except, bind, os_path_exists, read_json, write_json, lift, ret.
  cbv beta iota. rewrite Hfs. cbv beta iota. rewrite Hr, Hfs.
  cbv beta iota delta [py_add_list]. rewrite Hw, Henc.
  eexists. split; [reflexivity | ]. cbn [fs]. split.
  - assert (Hrefl : str_eqb out_file out_file = true).
    { clear. induction out_file as [ | c s IH]; simpl; [reflexivity | ].
      now rewrite N.eqb_refl, IH. }
    now rewrite Hrefl.
  - intros p Hp. now rewrite Hp.
Qed.

(** With no file yet, the new records become its content. *)
Lemma write_merged_creates (E : Env) (out_file : str) (out : list value) (st : state) :
  write_error E out_file = None ->
  fs st out_file = Absent ->
  dump_failure E out_file (VList out) = None ->
  exists st',
    write_merged E out_file out st = (Ok tt, st') /\
    fs st' out_file = Holds (VList out).
Proof.
  intros Hw Hfs Henc.
  unfold write_merged, try_except, bind, os_path_exists, read_json, write_json, lift, ret.
  cbv beta iota. rewrite Hfs. cbv beta iota delta [py_add_list]. rewrite Hw.
  change ([] ++ out) with out. rewrite Henc.
  eexists. split; [reflexivity | ]. cbn [fs].
  assert (Hrefl : str_eqb out_file out_file = true).
  { clear. induction out_file as [ | c s IH]; simpl; [reflexivity | ].
    now rewrite N.eqb_refl, IH. }
  now rewrite Hrefl.
Qed.

(** An empty file, or one that does not hold a JSON array, is left as it
    is: the load or the concatenation raises inside the handler and the
    write is skipped. *)
Lemma write_merged_skips (E : Env) (out_file : str) (out : list value) (st : state) :
  fs st out_file = Unparseable ->
  write_merged E out_file out st = (Ok tt, st).
Proof.
  intros Hfs.
  unfold write_merged, try_except, bind, os_path_exists, read_json, write_json, lift, ret.
  cbv beta iota. rewrite Hfs. cbv beta iota.
  destruct (read_error E out_file); [reflexivity | ]. rewrite Hfs. reflexivity.
Qed.

(** A failing write is swallowed and the file keeps its content. *)
Lemma write_merged_failure (E : Env) (out_file : str) (out : list value) (st : state)
  (e : exn) :
  write_error E out_file = Some e ->
  exists st',
    write_merged E out_file out st = (Ok tt, st') /\ fs st' = fs st.
Proof.
  intros Hw.
  unfold write_merged, try_except, bind, os_path_exists, read_json, write_json,
    lift, ret, raise_of.
  cbv beta iota.
  destruct (fs st out_file) as [ | | doc] eqn:Hfs; cbv beta iota;
    try destruct (read_error E out_file); cbv beta iota; rewrite ?Hfs;
    try destruct doc; cbv beta iota delta [py_add_list raise_of];
    rewrite ?Hw; cbv beta iota;
    eexists; (split; reflexivity).
Qed.





End LocaleRun.

(** ** The rate-aware generator on concrete runs *)

Module RateAwareRun.

Import Scenario.
Import TestcaseTokens.

(** C1, where the code departs from it: the first of two planned requests
    gets a JSON reply whose remaining-token header reads 0, below the
    threshold of 200.  The loop does not stop: it makes the second request
    too and only then writes, two records. *)
Theorem low_budget_on_json_reply_does_not_stop :
  header_get json_reply_low_budget "x-ratelimit-remaining-tokens" = Some (lit "0") /\
  py_float (answering json_reply_low_budget) (lit "0") = Some (Fin 0) /\
  float_le (Fin 0) default_safety_token_threshold = true /\
  observe (bulk (answering json_reply_low_budget) env_complete [lit "a"] 2
             default_safety_token_threshold boot) out_json
  = (Ok out_json, 2%nat, Holds (VList [hi_record; hi_record])).
Proof. repeat split. Qed.

(** The same run with a body that is not JSON does stop after the first
    request, with one record in the file. *)
Lemma low_budget_on_text_reply_stops :
  observe (bulk (answering text_reply_low_budget) env_complete [lit "a"] 2
             default_safety_token_threshold boot) out_json
  = (Ok out_json, 1%nat, Holds (VList [hi_record])).
Proof. reflexivity. Qed.

(** C2, where the code departs from it: one reply of an unexpected shape
    ends the batch with an exception and no record at all.  The
    rate-aware generator calls [.get] on a reply that is a JSON array;
    the locale generator calls [.get] on a message that is a bare string.
    Two records were planned in each run. *)
Theorem malformed_reply_aborts_batch :
  observe (bulk (answering array_reply) env_complete
             [lit "a"; lit "b"] 1 default_safety_token_threshold boot) out_json
  = (raise_of AttributeError "object has no attribute 'get'", 1%nat, Absent) /\
  observe (locale (answering bare_message_reply) env_complete
             [lit "a"; lit "b"] 1 false boot) out_json
  = (raise_of AttributeError "object has no attribute 'get'", 1%nat, Absent).
Proof. split; reflexivity. Qed.

(** Each generator copes with the reply the other one trips on. *)
Lemma malformed_reply_tolerated_by_sibling :
  fst (bulk (answering bare_message_reply) env_complete
         [lit "a"; lit "b"] 1 default_safety_token_threshold boot)
  = Ok out_json /\
  (exists out,
     fst (locale (answering array_reply) env_complete [lit "a"; lit "b"] 1 false boot)
     = Ok out /\ length out = 2%nat).
Proof. split; [reflexivity | eexists; split; reflexivity]. Qed.

(** C3, where the code departs from it: the output file holds one record
    of an earlier campaign; after a run that produces one record the
    file holds that new record alone, at the end of a full run and on the
    early stop alike. *)
Theorem rate_aware_write_replaces_file :
  fs second_campaign out_json = Holds (VList [old_record]) /\
  observe (bulk (answering json_reply) env_complete [lit "a"] 1
             default_safety_token_threshold second_campaign) out_json
  = (Ok out_json, 1%nat, Holds (VList [hi_record])) /\
  observe (bulk (answering text_reply_low_budget) env_complete [lit "a"] 1
             default_safety_token_threshold second_campaign) out_json
  = (Ok out_json, 1%nat, Holds (VList [hi_record])).
Proof. repeat split. Qed.

(** C6, where the code departs from it: when the output file cannot be
    opened for writing, the rate-aware generator lets the OSError out, and
    the caller gets no records. *)
Theorem rate_aware_write_failure_raises :
  observe (bulk (world (always json_reply) read_only) env_complete [lit "a"] 1
             default_safety_token_threshold boot) out_json
  = (Raise (mk_exn OSError (lit "Permission denied")), 1%nat, Absent).
Proof. reflexivity. Qed.

(** C7, where the code departs from it: TestcaseTokens.py loads without
    its credential, and runbulk.py then posts for every one of its 100
    planned items (4 attempts each against a server that answers 401);
    GenerateLocaleTestData.py loads without its endpoint URL and calls
    [requests.post] three times for its one item. *)
Theorem missing_configuration_not_fatal :
  (forall E, exists G, load E env_without_key = Ok G /\ GROQ_API_KEY G = VNone) /\
  fst (runbulk.main (answering unauthorized_reply) env_without_key boot)
  = Ok runbulk.OUT /\
  posts (snd (runbulk.main (answering unauthorized_reply) env_without_key boot))
  = 400%nat /\
  (forall E, exists G,
      GenerateLocaleTestData.load E env_without_url = Ok G /\
      GenerateLocaleTestData.GROQ_API_URL G = VNone) /\
  fst (GenerateLocaleTestData.main (world (schema_checking json_reply) writable)
         env_without_url (locale_args 1 false [lit "a"]) boot)
  = Ok tt /\
  posts (snd (GenerateLocaleTestData.main (world (schema_checking json_reply) writable)
                env_without_url (locale_args 1 false [lit "a"]) boot))
  = 3%nat.
Proof.
  split; [intros E; eexists; split; reflexivity | ].
  split; [vm_compute; reflexivity | ].
  split; [vm_compute; reflexivity | ].
  split; [intros E; eexists; split; reflexivity | ].
  split; vm_compute; reflexivity.
Qed.

End RateAwareRun.

(** ** Startup, persistence and the early stop, in general *)

Module Guarantees.

Import Run.

(** The locale script refuses to start without its credential: the
    EnvironmentError comes before any post. *)
Lemma locale_main_needs_key (E : Env) (env : environ) (a : GenerateLocaleTestData.args)
  (st : state) :
  truthy (getenv env "GROQ_API_KEY") = false ->
  exists e,
    GenerateLocaleTestData.main E env a st = (Raise e, st) /\
    exn_class_of e = EnvironmentError.
Proof.
  intros Hkey.
  unfold GenerateLocaleTestData.main, bind, lift, GenerateLocaleTestData.load.
  rewrite Hkey. eexists. split; reflexivity.
Qed.

(** The endpoint URL is not looked at when the locale script starts. *)
Lemma locale_load_ignores_url (E : Env) (env : environ) :
  truthy (getenv env "GROQ_API_KEY") = true ->
  exists G,
    GenerateLocaleTestData.load E env = Ok G /\
    GenerateLocaleTestData.GROQ_API_URL G = getenv env "GROQ_API_URL".
Proof.
  intros Hkey. unfold GenerateLocaleTestData.load. rewrite Hkey.
  eexists. split; reflexivity.
Qed.

(** The rate-aware script starts whatever the environment holds. *)
Lemma bulk_load_never_fails (E : Env) (env : environ) :
  exists G, TestcaseTokens.load E env = Ok G.
Proof. eexists. reflexivity. Qed.

(** In the locale generator the records the loops produced are what the
    caller gets, whether or not the file could be written; a failed write
    leaves the disk as it was. *)
Lemma locale_returns_records (E : Env) (G : GenerateLocaleTestData.globals)
  (locale : str) (seeds : list str) (per_seed : Z) (kb : value) (model : str)
  (dry_run : bool) (out_file : str) (tokens : Z) (out : list value) (st st1 : state) :
  GenerateLocaleTestData._tokens_for_kb kb = Ok tokens ->
  GenerateLocaleTestData.generate_all E G locale
    (GenerateLocaleTestData.language_of locale) kb model dry_run tokens seeds per_seed st
  = (Ok out, st1) ->
  exists st2,
    GenerateLocaleTestData.generate_for_locale E G locale seeds per_seed kb model
      dry_run out_file st
    = (Ok out, st2) /\
    posts st2 = posts st1 /\
    (forall e, write_error E out_file = Some e -> fs st2 = fs st1).
Proof.
  intros Htok Hloops.
  destruct (LocaleRun.write_merged_quiet E out_file out st1) as [st2 [Hwrite [Hposts _]]].
  exists st2.
  unfold GenerateLocaleTestData.generate_for_locale, bind, lift, ret.
  rewrite Htok, Hloops, Hwrite.
  split; [reflexivity | ]. split; [exact Hposts | ].
  intros e He.
  destruct (LocaleRun.write_merged_failure E out_file out st1 He) as [st3 [Hwrite' Hfs]].
  rewrite Hwrite in Hwrite'. now injection Hwrite' as ->.
Qed.

(** In the rate-aware generator a reply that is not JSON and reports a
    token budget at or below the threshold ends the run on the spot: the
    records so far, this one included, are written and the function
    returns. *)
Lemma text_reply_low_budget_stops (E : Env) (G : TestcaseTokens.globals) (kb : value)
  (out_file : str) (threshold : float) (s : str) (out : list value) (st st1 : state)
  (r : response) (e : exn) (c : N) (rest : str) (remaining : float) :
  TestcaseTokens.call_groq_once E G s kb st = (Ok r, st1) ->
  json r = Raise e ->
  header_get r "x-ratelimit-remaining-tokens" = Some (c :: rest) ->
  py_float E (c :: rest) = Some remaining ->
  float_le remaining threshold = true ->
  write_error E out_file = None ->
  dump_failure E out_file
    (VList (out ++ [TestcaseTokens.message_record s (VStr (text r))])) = None ->
  exists st2,
    TestcaseTokens.generate_one E G kb out_file threshold s out st
    = (Ok (Return out_file), st2) /\
    posts st2 = posts st1 /\
    fs st2 out_file
    = Holds (VList (out ++ [TestcaseTokens.message_record s (VStr (text r))])).
Proof.
  intros Hcall Hjson Hheader Hfloat Hlow Hwrite Henc.
  unfold TestcaseTokens.generate_one, bind, attempt, TestcaseTokens.stop_if_low.
  rewrite Hcall, Hjson. cbv beta iota.
  rewrite Hheader, Hfloat, Hlow.
  unfold bind, write_json, ret. rewrite Hwrite, Henc.
  eexists. split; [reflexivity | ]. split; [reflexivity | ].
  cbn [fs].
  assert (Hrefl : str_eqb out_file out_file = true).
  { clear. induction out_file as [ | x p IH]; simpl; [reflexivity | ].
    now rewrite N.eqb_refl, IH. }
  now rewrite Hrefl.
Qed.

(** After a reply whose body is JSON the same header changes nothing:
    the loop goes on to its next item. *)
Lemma json_reply_never_stops (E : Env) (G : TestcaseTokens.globals) (kb : value)
  (out_file : str) (threshold : float) (s : str) (out : list value) (st st1 : state)
  (r : response) (resp text : value) :
  TestcaseTokens.call_groq_once E G s kb st = (Ok r, st1) ->
  json r = Ok resp ->
  TestcaseTokens.extract_text E resp = Ok text ->
  TestcaseTokens.generate_one E G kb out_file threshold s out st
  = (Ok (Next (out ++ [TestcaseTokens.message_record s text])), st1).
Proof.
  intros Hcall Hjson Htext.
  unfold TestcaseTokens.generate_one, bind, attempt, lift.
  rewrite Hcall, Hjson. cbv beta iota. rewrite Htext.
  assert (Hpause : TestcaseTokens.pause_if_low E threshold r st1 = (Ok tt, st1)).
  { unfold TestcaseTokens.pause_if_low.
    destruct (header_get r "x-ratelimit-remaining-tokens") as [[ | c rest] | ];
      try reflexivity.
    unfold try_except. destruct (py_float E (c :: rest)) as [f | ]; [ | reflexivity].
    destruct (float_le f threshold); reflexivity. }
  rewrite Hpause. reflexivity.
Qed.

End Guarantees.

(** ** One record per (seed, repetition) pair *)

Module OneRecordPerPair.

Import Run.

(** A value that [retry] returns was returned by the wrapped call. *)
Lemma attempts_ok_inv (E : Env) (A : Type) (f : M A) (k : nat) (st st' : state) (a : A) :
  attempts E k f st = (Ok a, st') -> exists st0, f st0 = (Ok a, st').
Proof.
  revert st. induction k as [ | k IH]; intros st; simpl;
    destruct (f st) as [[a0 | e] st1] eqn:Hf.
  - intros [= -> ->]. now exists st.
  - destruct (is_request_exception e); discriminate.
  - intros [= -> ->]. now exists st.
  - destruct (is_request_exception e); [apply IH | discriminate].
Qed.

Section Flow.

Variable Q : state -> Prop.

Lemma for_range_flow_lockstep (R : Type) (body : list value -> M (flow (list value) R))
  (P : value -> Prop) :
  (forall out st, Q st ->
     exists record st',
       body out st = (Ok (Next (out ++ [record])), st') /\ P record /\ Q st') ->
  forall n out st, Q st ->
     exists records st',
       for_range_flow n body out st = (Ok (Next (out ++ records)), st') /\
       length records = n /\ Forall P records /\ Q st'.
Proof.
  intros Hbody. induction n as [ | n IH]; intros out st HQ.
  - exists [], st. rewrite app_nil_r. repeat split; [constructor | exact HQ].
  - destruct (Hbody out st HQ) as [record [st1 [Hrun [HP HQ1]]]].
    destruct (IH (out ++ [record]) st1 HQ1) as [records [st2 [Hrest [Hlen [HPs HQ2]]]]].
    exists (record :: records), st2.
    simpl. unfold bind. rewrite Hrun, Hrest, <- app_assoc. simpl.
    repeat split; [now rewrite Hlen | now constructor | exact HQ2].
Qed.

Lemma for_each_flow_lockstep (R : Type)
  (body : str -> list value -> M (flow (list value) R))
  (P : str -> value -> Prop) (n : nat) :
  (forall seed out st, Q st ->
     exists records st',
       body seed out st = (Ok (Next (out ++ records)), st') /\
       length records = n /\ Forall (P seed) records /\ Q st') ->
  forall seeds out st, Q st ->
     exists records st',
       for_each_flow seeds body out st = (Ok (Next (out ++ records)), st') /\
       Forall2 P (planned seeds n) records /\ Q st'.
Proof.
  intros Hbody. induction seeds as [ | seed seeds IH]; intros out st HQ.
  - exists [], st. rewrite app_nil_r. repeat split; [constructor | exact HQ].
  - destruct (Hbody seed out st HQ) as [recs [st1 [Hrun [Hlen [HP HQ1]]]]].
    destruct (IH (out ++ recs) st1 HQ1) as [records [st2 [Hrest [HPs HQ2]]]].
    exists (recs ++ records), st2.
    simpl. unfold bind. rewrite Hrun, Hrest, <- app_assoc.
    repeat split; [ | exact HQ2].
    apply Forall2_app; [ | exact HPs].
    rewrite <- Hlen. now apply Forall2_repeat.
Qed.

End Flow.

(** *** The locale generator *)

Section Locale.

Import GenerateLocaleTestData.

Variable E : Env.
Variable G : globals.

Lemma call_groq_body_ok_inv (messages : list message) (model : str) (tokens tmo : Z)
  (st st' : state) (resp : value) :
  call_groq_body E G messages model tokens tmo st = (Ok resp, st') ->
  exists rq r, transport E (posts st) rq = PostReturns r /\ json r = Ok resp.
Proof.
  unfold call_groq_body, bind, requests_post, lift.
  match goal with |- context [transport E (posts st) ?rq] =>
    exists rq; destruct (transport E (posts st) rq) as [e | r] end;
    [discriminate | ].
  exists r. split; [reflexivity | ].
  destruct (negb (is_2xx (status_code r))).
  - unfold raise_for_status in H.
    destruct (is_http_error (status_code r)); [discriminate | ].
    simpl in H. destruct (json r); [ | discriminate]. now injection H as -> _.
  - simpl in H. destruct (json r); [ | discriminate]. now injection H as -> _.
Qed.

Lemma generate_one_live (locale label : str) (kb : value) (model : str) (tokens : Z)
  (seed : str) (out : list value) (st : state) :
  replies_parse E ->
  exists record st',
    generate_one E G locale label kb model false tokens seed out st
    = (Ok (out ++ [record]), st') /\
    tagged seed record.
Proof.
  intros Hparse.
  destruct (build_prompt_runs E seed locale label kb st) as [messages [Hprompt _]].
  unfold generate_one, bind, attempt. rewrite Hprompt. cbv beta iota.
  match goal with |- context [call_groq E G messages model tokens ?s] =>
    destruct (call_groq E G messages model tokens s) as [[resp | e] st1] eqn:Hcall end.
  - unfold call_groq, retry in Hcall.
    apply attempts_ok_inv in Hcall. destruct Hcall as [st0 Hbody].
    apply call_groq_body_ok_inv in Hbody. destruct Hbody as [rq [r [Htr Hjson]]].
    destruct (Hparse _ _ _ _ Htr Hjson) as [text Htext].
    unfold text_of_reply, obind in Htext.
    destruct (extract_text E resp) as [raw | ] eqn:Hraw; [ | discriminate].
    unfold lift. rewrite Htext.
    eexists. eexists. split; [reflexivity | ].
    split; [reflexivity | right; reflexivity].
  - eexists. eexists. split; [reflexivity | ].
    split; [reflexivity | left; reflexivity].
Qed.

(** When every reply parses, a run of the locale generator that calls
    the endpoint returns one record per (seed, repetition) pair, in loop
    order, each tagged with its seed and each a success or an error
    record; a failed call costs the batch nothing. *)
Lemma locale_one_record_per_pair (locale : str) (seeds : list str) (per_seed : Z)
  (kb : value) (model out_file : str) (st : state) :
  replies_parse E ->
  exists out st',
    generate_for_locale E G locale seeds per_seed kb model false out_file st
    = (Ok out, st') /\
    Forall2 tagged (planned seeds (Z.to_nat per_seed)) out /\
    length out = (length seeds * Z.to_nat per_seed)%nat.
Proof.
  intros Hparse.
  destruct (Heuristics.locale_tokens_defined kb) as [tokens Htok].
  assert (Hinner : forall seed out st0, True ->
            exists records st',
              for_range (Z.to_nat per_seed)
                (generate_one E G locale (language_of locale) kb model false tokens seed)
                out st0
              = (Ok (out ++ records), st') /\
              length records = Z.to_nat per_seed /\
              Forall (tagged seed) records /\ True).
  { intros seed out st0 _.
    apply for_range_lockstep with (Q := fun _ => True); [ | exact I].
    intros out0 st1 _.
    destruct (generate_one_live locale (language_of locale) kb model tokens seed out0 st1
                Hparse) as [record [st2 [Hone Htag]]].
    exists record, st2. split; [exact Hone | split; [exact Htag | exact I]]. }
  destruct (@for_each_lockstep (fun _ => True) _ tagged (Z.to_nat per_seed) Hinner
              seeds [] st I) as [out [st1 [Hloops [Hall _]]]].
  simpl in Hloops.
  destruct (@Guarantees.locale_returns_records E G locale seeds per_seed kb model false
              out_file tokens out st st1 Htok Hloops) as [st2 [Hrun _]].
  exists out, st2. split; [exact Hrun | ]. split; [exact Hall | ].
  apply Forall2_length in Hall. now rewrite <- Hall, length_planned.
Qed.

(** The documented reply shapes do parse. *)
Lemma documented_replies_parse (s : str) :
  text_of_reply E (VDict [(lit "output_text", VStr s)])
  = Ok (VStr (if truthy (VStr s)
              then sanitize_text s default_max_len
              else sanitize_text
                     (slice_to 200000 (py_str E (VDict [(lit "output_text", VStr s)])))
                     default_max_len)) /\
  text_of_reply E
    (VDict [(lit "choices",
             VList [VDict [(lit "message", VDict [(lit "content", VStr (lit "ok"))])]])])
  = Ok (VStr (lit "ok")).
Proof.
  split; [ | reflexivity].
  unfold text_of_reply, extract_text, obind.
  change (dict_get [(lit "output_text", VStr s)] "output_text") with (VStr s).
  destruct s as [ | c s]; [ | reflexivity].
  cbn [truthy]. cbv beta iota.
  change (dict_get [(lit "output_text", VStr [])] "choices") with VNone.
  cbn [py_or truthy]. cbv beta iota.
  apply Sanitize.sanitize_value_str.
Qed.

End Locale.

(** *** The rate-aware generator *)

Section RateAware.

Import TestcaseTokens.

Variable E : Env.
Variable G : globals.

Lemma call_groq_once_body_ok_inv (s : str) (kb : value) (model : str)
  (max_tokens : option Z) (st st' : state) (r : response) :
  call_groq_once_body E G s kb model max_tokens st = (Ok r, st') ->
  exists rq, transport E (posts st) rq = PostReturns r.
Proof.
  unfold call_groq_once_body, bind, requests_post, lift, ret.
  destruct max_tokens as [n | ]; [ | destruct (_tokens_for_kb kb) as [n | e]];
    try discriminate;
    (match goal with |- context [transport E (posts st) ?rq] =>
       exists rq; destruct (transport E (posts st) rq) as [e | r0] end;
     [discriminate | ];
     unfold raise_for_status, time_sleep in H;
     destruct (status_code r0 =? 429)%Z;
     try destruct (sleep_refusal (_sleep_from_retry_headers E r0));
     destruct (is_http_error (status_code r0));
     destruct (negb (is_2xx (status_code r0)));
     try discriminate; now injection H as -> _).
Qed.

Lemma generate_one_steady (kb : value) (out_file : str) (threshold : float)
  (s : str) (out : list value) (st : state) :
  json_replies_parse E -> budget_stays_high E threshold ->
  exists record st',
    generate_one E G kb out_file threshold s out st
    = (Ok (Next (out ++ [record])), st') /\
    tagged s record.
Proof.
  intros Hparse Hhigh.
  destruct (call_groq_once E G s kb st) as [[r | e] st1] eqn:Hcall.
  - pose proof Hcall as Hinv. unfold call_groq_once, retry in Hinv.
    apply attempts_ok_inv in Hinv. destruct Hinv as [st0 Hbody].
    apply call_groq_once_body_ok_inv in Hbody. destruct Hbody as [rq Htr].
    destruct (json r) as [resp | ej] eqn:Hjson.
    + destruct (Hparse _ _ _ _ Htr Hjson) as [text Htext].
      rewrite (@Guarantees.json_reply_never_stops E G kb out_file threshold s out
                 st st1 r resp text Hcall Hjson Htext).
      eexists. eexists. split; [reflexivity | ].
      split; [reflexivity | right; reflexivity].
    + specialize (Hhigh _ _ _ _ Htr Hjson).
      unfold generate_one, bind, attempt, stop_if_low.
      rewrite Hcall, Hjson. cbv beta iota.
      destruct (header_get r "x-ratelimit-remaining-tokens") as [[ | c rest] | ].
      * eexists. eexists. split; [reflexivity | ].
        split; [reflexivity | right; reflexivity].
      * destruct Hhigh as [remaining [Hfloat Hle]]. rewrite Hfloat, Hle.
        eexists. eexists. split; [reflexivity | ].
        split; [reflexivity | right; reflexivity].
      * eexists. eexists. split; [reflexivity | ].
        split; [reflexivity | right; reflexivity].
  - unfold generate_one, bind, attempt. rewrite Hcall.
    eexists. eexists. split; [reflexivity | ].
    split; [reflexivity | left; reflexivity].
Qed.

(** When every JSON reply parses and no reply trips the early stop, the
    loops of the rate-aware generator run to their end with one record
    per (seed, repetition) pair, in loop order, each tagged with its seed
    and each a success or an error record. *)
Lemma rate_aware_loops_steady (seeds : list str) (per_seed : Z) (kb : value)
  (out_file : str) (threshold : float) (st : state) :
  json_replies_parse E -> budget_stays_high E threshold ->
  exists out st1,
    generate_all E G kb out_file threshold seeds per_seed st = (Ok (Next out), st1) /\
    Forall2 tagged (planned seeds (Z.to_nat per_seed)) out.
Proof.
  intros Hparse Hhigh.
  assert (Hinner : forall seed out st0, True ->
            exists records st',
              for_range_flow (Z.to_nat per_seed)
                (generate_one E G kb out_file threshold seed) out st0
              = (Ok (Next (out ++ records)), st') /\
              length records = Z.to_nat per_seed /\
              Forall (tagged seed) records /\ True).
  { intros seed out st0 _.
    apply for_range_flow_lockstep with (Q := fun _ => True); [ | exact I].
    intros out0 st1 _.
    destruct (generate_one_steady kb out_file seed out0 st1 Hparse Hhigh)
      as [record [st2 [Hone Htag]]].
    exists record, st2. split; [exact Hone | split; [exact Htag | exact I]]. }
  destruct (@for_each_flow_lockstep (fun _ => True) str _ tagged (Z.to_nat per_seed)
              Hinner seeds [] st I) as [out [st1 [Hloops [Hall _]]]].
  simpl in Hloops.
  exists out, st1. split; [ | exact Hall].
  unfold generate_all.
  match goal with |- for_each_flow seeds ?body [] st = _ =>
    change (for_each_flow seeds body [] st) with
      (for_each_flow seeds
         (fun seed out0 st0 =>
            for_range_flow (Z.to_nat per_seed)
              (generate_one E G kb out_file threshold seed) out0 st0) [] st) end.
  exact Hloops.
Qed.

(** Then, when the file can be opened, the run ends in the final write
    of those len(seeds) * per_seed records: it returns the path with the
    records in the file, unless the write breaks off (on a lone surrogate
    in a record, say), where its exception leaves the function. *)
Lemma rate_aware_one_record_per_pair (seeds : list str) (per_seed : Z) (kb : value)
  (n : Z) (out_file : str) (threshold : float) (st : state) :
  _tokens_for_kb kb = Ok n ->
  json_replies_parse E -> budget_stays_high E threshold ->
  write_error E out_file = None ->
  exists out st',
    Forall2 tagged (planned seeds (Z.to_nat per_seed)) out /\
    length out = (length seeds * Z.to_nat per_seed)%nat /\
    generate_bulk_rate_safe E G seeds per_seed kb out_file threshold st
    = (dump_outcome E out_file (VList out) out_file, st') /\
    fs st' out_file
    = match dump_failure E out_file (VList out) with
      | None => Holds (VList out)
      | Some _ => Unparseable
      end.
Proof.
  intros Htok Hparse Hhigh Hwrite.
  destruct (rate_aware_loops_steady seeds per_seed kb out_file st Hparse Hhigh)
    as [out [st1 [Hloops Hall]]].
  assert (Hrefl : str_eqb out_file out_file = true).
  { clear. induction out_file as [ | x p IH]; simpl; [reflexivity | ].
    now rewrite N.eqb_refl, IH. }
  exists out,
    (mk_state (posts st1) (uuids st1)
       (fun p => if str_eqb p out_file
                 then match dump_failure E out_file (VList out) with
                      | None => Holds (VList out)
                      | Some _ => Unparseable
                      end
                 else fs st1 p)).
  split; [exact Hall | ].
  split; [apply Forall2_length in Hall; now rewrite <- Hall, length_planned | ].
  unfold generate_bulk_rate_safe, bind, lift.
  rewrite Htok. cbv beta iota. rewrite Hloops.
  unfold write_json, ret, dump_outcome. rewrite Hwrite.
  destruct (dump_failure E out_file (VList out)); (split; [reflexivity | ]); cbn [fs];
    now rewrite Hrefl.
Qed.

End RateAware.

(** An endpoint that always answers with the documented reply meets the
    three conditions, so both lemmas apply to it. *)
Example documented_endpoint_qualifies :
  replies_parse (Scenario.answering Scenario.json_reply) /\
  json_replies_parse (Scenario.answering Scenario.json_reply) /\
  budget_stays_high (Scenario.answering Scenario.json_reply)
    TestcaseTokens.default_safety_token_threshold.
Proof.
  split; [ | split].
  - intros n rq r resp [= <-] [= <-]. eexists. reflexivity.
  - intros n rq r resp [= <-] [= <-]. eexists. reflexivity.
  - intros n rq r e [= <-] Hjson. discriminate Hjson.
Qed.

Example documented_endpoint_runs :
  (exists out st',
     GenerateLocaleTestData.generate_for_locale (Scenario.answering Scenario.json_reply)
       Scenario.locale_globals (lit "en-GB") [lit "a"; lit "b"] 3 (VInt 1)
       (lit "llama-3.1-8b-instant") false Scenario.out_json Scenario.boot
     = (Ok out, st') /\
     Forall2 tagged (planned [lit "a"; lit "b"] 3) out /\
     length out = 6%nat) /\
  (exists out st',
     TestcaseTokens.generate_bulk_rate_safe (Scenario.answering Scenario.json_reply)
       Scenario.bulk_globals [lit "a"; lit "b"] 3 (VInt 1) Scenario.out_json
       TestcaseTokens.default_safety_token_threshold Scenario.boot
     = (Ok Scenario.out_json, st') /\
     fs st' Scenario.out_json = Holds (VList out) /\
     Forall2 tagged (planned [lit "a"; lit "b"] 3) out /\
     length out = 6%nat).
Proof.
  destruct documented_endpoint_qualifies as [Hlocale [Hjson Hhigh]].
  split.
  - exact (locale_one_record_per_pair Scenario.locale_globals (lit "en-GB")
             [lit "a"; lit "b"] 3 (VInt 1) (lit "llama-3.1-8b-instant")
             Scenario.out_json Scenario.boot Hlocale).
  - destruct (@rate_aware_one_record_per_pair (Scenario.answering Scenario.json_reply)
                Scenario.bulk_globals [lit "a"; lit "b"] 3 (VInt 1) 256
                Scenario.out_json TestcaseTokens.default_safety_token_threshold
                Scenario.boot eq_refl Hjson Hhigh eq_refl)
      as [out [st' [Hall [Hlen [Hrun Hfile]]]]].
    assert (Hok : fst (TestcaseTokens.generate_bulk_rate_safe
                         (Scenario.answering Scenario.json_reply) Scenario.bulk_globals
                         [lit "a"; lit "b"] 3 (VInt 1) Scenario.out_json
                         TestcaseTokens.default_safety_token_threshold Scenario.boot)
                  = Ok Scenario.out_json) by reflexivity.
    rewrite Hrun in Hok. cbn [fst] in Hok. unfold dump_outcome in *.
    destruct (dump_failure (Scenario.answering Scenario.json_reply) Scenario.out_json
                (VList out)); [discriminate Hok | ].
    exists out, st'. split; [exact Hrun | ].
    split; [exact Hfile | split; [exact Hall | exact Hlen]].
Qed.

End OneRecordPerPair.

(** ** Which steps leave the disk alone *)

Module Frame.

Import Run.

Lemma keeps_files_ret (A : Type) (a : A) : keeps_files (ret a).
Proof. intros st. reflexivity. Qed.

Lemma keeps_files_lift (A : Type) (o : outcome A) : keeps_files (lift o).
Proof. intros st. reflexivity. Qed.

Lemma keeps_files_raise (A : Type) (e : exn) : keeps_files (@raise A e).
Proof. intros st. reflexivity. Qed.

Lemma keeps_files_bind (A B : Type) (c : M A) (k : A -> M B) :
  keeps_files c -> (forall a, keeps_files (k a)) -> keeps_files (bind c k).
Proof.
  intros Hc Hk st. unfold bind. specialize (Hc st).
  destruct (c st) as [[a | e] st1]; simpl in *.
  - now rewrite Hk.
  - exact Hc.
Qed.

Lemma keeps_files_attempt (A : Type) (c : M A) :
  keeps_files c -> keeps_files (attempt c).
Proof.
  intros Hc st. unfold attempt. specialize (Hc st).
  destruct (c st) as [o st1]. exact Hc.
Qed.

Lemma keeps_files_attempts (E : Env) (A : Type) (f : M A) (k : nat) :
  keeps_files f -> keeps_files (attempts E k f).
Proof.
  intros Hf. induction k as [ | k IH]; intros st; simpl; specialize (Hf st);
    destruct (f st) as [[a | e] st1]; simpl in *; try exact Hf;
    destruct (is_request_exception e); simpl; try exact Hf.
  now rewrite IH.
Qed.

Lemma keeps_files_post (E : Env) (rq : request) : keeps_files (requests_post E rq).
Proof.
  intros st. unfold requests_post. destruct (transport E (posts st) rq); reflexivity.
Qed.

Lemma keeps_files_raise_for_status (E : Env) (r : response) :
  keeps_files (raise_for_status E r).
Proof.
  intros st. unfold raise_for_status. destruct (is_http_error (status_code r)); reflexivity.
Qed.

Lemma keeps_files_for_range (A : Type) (body : A -> M A) (n : nat) :
  (forall acc, keeps_files (body acc)) -> forall acc, keeps_files (for_range n body acc).
Proof.
  intros Hbody. induction n as [ | n IH]; intros acc; simpl.
  - apply keeps_files_ret.
  - apply keeps_files_bind; [apply Hbody | exact IH].
Qed.

Lemma keeps_files_for_each (X A : Type) (body : X -> A -> M A) (xs : list X) :
  (forall x acc, keeps_files (body x acc)) ->
  forall acc, keeps_files (for_each xs body acc).
Proof.
  intros Hbody. induction xs as [ | x xs IH]; intros acc; simpl.
  - apply keeps_files_ret.
  - apply keeps_files_bind; [apply Hbody | exact IH].
Qed.

Lemma keeps_files_call_groq (E : Env) (G : GenerateLocaleTestData.globals)
  (messages : list GenerateLocaleTestData.message) (model : str) (tokens : Z) :
  keeps_files (GenerateLocaleTestData.call_groq E G messages model tokens).
Proof.
  unfold GenerateLocaleTestData.call_groq, retry.
  apply keeps_files_attempts.
  unfold GenerateLocaleTestData.call_groq_body.
  apply keeps_files_bind; [apply keeps_files_post | intros r].
  apply keeps_files_bind; [ | intros _; apply keeps_files_lift].
  destruct (negb (is_2xx (status_code r)));
    [apply keeps_files_raise_for_status | apply keeps_files_ret].
Qed.

(** The loops of the locale generator only read the network and the
    uuid source: the disk is the same after them, also when the parse of
    a reply raises. *)
Lemma keeps_files_generate_all (E : Env) (G : GenerateLocaleTestData.globals)
  (locale label : str) (kb : value) (model : str) (dry_run : bool) (tokens : Z)
  (seeds : list str) (per_seed : Z) :
  keeps_files
    (GenerateLocaleTestData.generate_all E G locale label kb model dry_run tokens
       seeds per_seed).
Proof.
  unfold GenerateLocaleTestData.generate_all.
  apply keeps_files_for_each. intros seed acc.
  apply keeps_files_for_range. intros out.
  unfold GenerateLocaleTestData.generate_one.
  apply keeps_files_bind.
  - intros st. reflexivity.
  - intros messages. destruct dry_run; [apply keeps_files_ret | ].
    apply keeps_files_bind; [apply keeps_files_attempt, keeps_files_call_groq | ].
    intros [resp | e]; [ | apply keeps_files_ret].
    apply keeps_files_bind; [apply keeps_files_lift | intros text].
    apply keeps_files_bind; [apply keeps_files_lift | intros text'].
    apply keeps_files_ret.
Qed.

(** The merge of the locale generator, for a whole run: a file that
    held N records holds those N, in their order, and then the M new
    ones, when the write does not break off; the caller gets the M new
    ones. *)
Lemma locale_run_merges (E : Env) (G : GenerateLocaleTestData.globals)
  (locale : str) (seeds : list str) (per_seed : Z) (kb : value) (model : str)
  (dry_run : bool) (out_file : str) (tokens : Z) (old out : list value)
  (st st1 : state) :
  GenerateLocaleTestData._tokens_for_kb kb = Ok tokens ->
  GenerateLocaleTestData.generate_all E G locale
    (GenerateLocaleTestData.language_of locale) kb model dry_run tokens seeds per_seed st
  = (Ok out, st1) ->
  read_error E out_file = None ->
  write_error E out_file = None ->
  fs st out_file = Holds (VList old) ->
  dump_failure E out_file (VList (old ++ out)) = None ->
  exists st2,
    GenerateLocaleTestData.generate_for_locale E G locale seeds per_seed kb model
      dry_run out_file st
    = (Ok out, st2) /\
    fs st2 out_file = Holds (VList (old ++ out)) /\
    length (old ++ out) = (length old + length out)%nat.
Proof.
  intros Htok Hloops Hr Hw Hfs Henc.
  pose proof (keeps_files_generate_all E G locale
                (GenerateLocaleTestData.language_of locale) kb model dry_run tokens
                seeds per_seed st) as Hkeep.
  rewrite Hloops in Hkeep. simpl in Hkeep.
  assert (Hfs1 : fs st1 out_file = Holds (VList old)) by now rewrite Hkeep.
  destruct (@LocaleRun.write_merged_appends E out_file old out st1 Hr Hw Hfs1 Henc)
    as [st2 [Hwrite [Hfile _]]].
  exists st2.
  unfold GenerateLocaleTestData.generate_for_locale, bind, lift, ret.
  rewrite Htok, Hloops, Hwrite.
  split; [reflexivity | ]. split; [exact Hfile | apply length_app].
Qed.

(** With no file at the start of the run the new records become the
    file. *)
Lemma locale_run_creates (E : Env) (G : GenerateLocaleTestData.globals)
  (locale : str) (seeds : list str) (per_seed : Z) (kb : value) (model : str)
  (dry_run : bool) (out_file : str) (tokens : Z) (out : list value) (st st1 : state) :
  GenerateLocaleTestData._tokens_for_kb kb = Ok tokens ->
  GenerateLocaleTestData.generate_all E G locale
    (GenerateLocaleTestData.language_of locale) kb model dry_run tokens seeds per_seed st
  = (Ok out, st1) ->
  write_error E out_file = None ->
  fs st out_file = Absent ->
  dump_failure E out_file (VList out) = None ->
  exists st2,
    GenerateLocaleTestData.generate_for_locale E G locale seeds per_seed kb model
      dry_run out_file st
    = (Ok out, st2) /\
    fs st2 out_file = Holds (VList out).
Proof.
  intros Htok Hloops Hw Hfs Henc.
  pose proof (keeps_files_generate_all E G locale
                (GenerateLocaleTestData.language_of locale) kb model dry_run tokens
                seeds per_seed st) as Hkeep.
  rewrite Hloops in Hkeep. simpl in Hkeep.
  assert (Hfs1 : fs st1 out_file = Absent) by now rewrite Hkeep.
  destruct (@LocaleRun.write_merged_creates E out_file out st1 Hw Hfs1 Henc)
    as [st2 [Hwrite Hfile]].
  exists st2.
  unfold GenerateLocaleTestData.generate_for_locale, bind, lift, ret.
  rewrite Htok, Hloops, Hwrite.
  split; [reflexivity | exact Hfile].
Qed.

End Frame.

(** ** More on sanitization *)

Module SanitizeBounds.

Import GenerateLocaleTestData.
Import Sanitize.

Lemma clean_slice_to (k : Z) (s : str) : clean s -> clean (slice_to k s).
Proof.
  intros Hs. unfold slice_to. destruct (0 <=? k)%Z; now apply clean_firstn.
Qed.

Lemma len_marker : len truncation_marker = 16%Z.
Proof. reflexivity. Qed.

(** Nothing that is stripped survives, the marker included. *)
Lemma sanitize_text_strips (s : str) (max_len : Z) :
  clean (sanitize_text s max_len).
Proof.
  destruct s as [ | c s]; [constructor | ].
  rewrite sanitize_text_cons.
  destruct (len (strip_control (c :: s)) >? max_len)%Z.
  - apply clean_app; [ | apply clean_marker].
    apply clean_slice_to, strip_control_clean.
  - apply strip_control_clean.
Qed.

(** X1: whatever the input and the cap, the text that [sanitize_text]
    returns holds none of the characters it strips (the code points 0 to
    8, 11, 12 and 14 to 31), the truncation marker included. *)
Theorem sanitize_text_output_clean (s : str) (max_len : Z) :
  clean (sanitize_text s max_len).
Proof.
  apply sanitize_text_strips.
Qed.

Lemma length_strip_control (s : str) :
  (length (strip_control s) <= length s)%nat.
Proof.
  unfold strip_control. induction s as [ | c s IH]; simpl; [lia | ].
  destruct (negb (is_control c)); simpl; lia.
Qed.

(** The result and its length. *)
Lemma sanitize_text_measures (s : str) (max_len : Z) :
  (0 <= max_len)%Z ->
  (len (sanitize_text s max_len) <= max_len + 16)%Z /\
  (len (sanitize_text s max_len) <= len s + 16)%Z /\
  ((len (strip_control s) > max_len)%Z ->
   sanitize_text s max_len
   = firstn (Z.to_nat max_len) (strip_control s) ++ truncation_marker /\
   len (sanitize_text s max_len) = (max_len + 16)%Z) /\
  ((len (strip_control s) <= max_len)%Z ->
   sanitize_text s max_len = strip_control s).
Proof.
  intros Hmax.
  pose proof (length_strip_control s) as Hstrip.
  destruct s as [ | c s].
  - unfold len; simpl. repeat split; lia.
  - rewrite sanitize_text_cons.
    set (s1 := strip_control (c :: s)) in *.
    destruct (Z.gtb_spec (len s1) max_len) as [Hgt | Hle].
    + assert (Hslice : slice_to max_len s1 = firstn (Z.to_nat max_len) s1).
      { unfold slice_to. destruct (Z.leb_spec 0 max_len) as [_ | Hneg]; [reflexivity | lia]. }
      assert (Hkept : len (slice_to max_len s1) = max_len).
      { rewrite Hslice. unfold len in *. rewrite length_firstn. lia. }
      assert (Hlen : len (slice_to max_len s1 ++ truncation_marker) = (max_len + 16)%Z).
      { unfold len in *. rewrite length_app. simpl. lia. }
      rewrite Hlen. unfold len in *.
      split; [lia | ]. split; [lia | ].
      split; [intros _; split; [now rewrite Hslice | reflexivity] | lia].
    + unfold len in *.
      split; [lia | ]. split; [lia | ]. split; [lia | reflexivity].
Qed.

(** X2: for a cap that is not negative the result is never longer than
    the cap plus the 16 characters of the marker, and never longer than
    the input plus the marker.  When the stripped text exceeds the cap
    the result is the first cap characters of the stripped text followed
    by the marker, cap + 16 characters in all; otherwise it is the
    stripped text. *)
Theorem sanitize_text_length (s : str) (max_len : Z) :
  (0 <= max_len)%Z ->
  (len (sanitize_text s max_len) <= max_len + 16)%Z /\
  (len (sanitize_text s max_len) <= len s + 16)%Z /\
  ((len (strip_control s) > max_len)%Z ->
   sanitize_text s max_len
   = firstn (Z.to_nat max_len) (strip_control s) ++ truncation_marker /\
   len (sanitize_text s max_len) = (max_len + 16)%Z) /\
  ((len (strip_control s) <= max_len)%Z ->
   sanitize_text s max_len = strip_control s).
Proof.
  apply sanitize_text_measures.
Qed.

Lemma sanitize_text_length_witness :
  (0 <= 3)%Z /\
  (len (sanitize_text (lit "abcde") 3) <= 3 + 16)%Z /\
  (len (sanitize_text (lit "abcde") 3) <= len (lit "abcde") + 16)%Z /\
  ((len (strip_control (lit "abcde")) > 3)%Z ->
   sanitize_text (lit "abcde") 3
   = firstn (Z.to_nat 3) (strip_control (lit "abcde")) ++ truncation_marker /\
   len (sanitize_text (lit "abcde") 3) = (3 + 16)%Z) /\
  ((len (strip_control (lit "abcde")) <= 3)%Z ->
   sanitize_text (lit "abcde") 3 = strip_control (lit "abcde")).
Proof.
  split; [lia | ].
  apply (@sanitize_text_length (lit "abcde") 3%Z). lia.
Defined.

(** X3: for a cap that is not negative, the strings that [sanitize_text]
    returns unchanged are exactly the strings without stripped characters
    that fit the cap or already end in the marker right after the cap. *)
Theorem sanitize_text_fixed_points (s : str) (max_len : Z) :
  (0 <= max_len)%Z ->
  (sanitize_text s max_len = s <->
   clean s /\
   ((len s <= max_len)%Z \/ s = slice_to max_len s ++ truncation_marker)).
Proof.
  intros Hmax. split.
  - intros Hfix.
    assert (Hclean : clean s).
    { rewrite <- Hfix. apply sanitize_text_strips. }
    split; [exact Hclean | ].
    destruct (Z.leb_spec (len s) max_len) as [Hle | Hgt]; [now left | right].
    destruct s as [ | c s]; [unfold len in Hgt; simpl in Hgt; lia | ].
    rewrite sanitize_text_cons, (strip_control_fixed Hclean) in Hfix.
    destruct (Z.gtb_spec (len (c :: s)) max_len) as [_ | Hle]; [ | lia].
    now symmetry.
  - intros [Hclean [Hle | Hshape]].
    + now apply sanitize_text_short.
    + destruct s as [ | c s]; [reflexivity | ].
      rewrite sanitize_text_cons, (strip_control_fixed Hclean).
      destruct (Z.gtb_spec (len (c :: s)) max_len) as [Hgt | Hle].
      * now symmetry.
      * reflexivity.
Qed.

Lemma sanitize_text_fixed_points_witness :
  (0 <= 3)%Z /\
  (sanitize_text (lit "abc" ++ truncation_marker) 3 = lit "abc" ++ truncation_marker <->
   clean (lit "abc" ++ truncation_marker) /\
   ((len (lit "abc" ++ truncation_marker) <= 3)%Z \/
    lit "abc" ++ truncation_marker
    = slice_to 3 (lit "abc" ++ truncation_marker) ++ truncation_marker)).
Proof.
  split; [lia | ].
  apply (@sanitize_text_fixed_points (lit "abc" ++ truncation_marker) 3%Z). lia.
Defined.

End SanitizeBounds.

(** ** More on the token heuristic *)

Module TokenBounds.

Lemma scaled_le (q1 q2 : Q) :
  (q1 <= q2)%Q -> (Qfloor (q1 * 1024 / 4) <= Qfloor (q2 * 1024 / 4))%Z.
Proof.
  intros Hle. apply Qfloor_resp_le.
  unfold Qdiv. apply Qmult_le_compat_r; [ | discriminate].
  apply Qmult_le_compat_r; [exact Hle | discriminate].
Qed.

(** X4: on numbers whose product with 1024 is finite (every int and
    bool, the floats up to about 1.7e305) both copies of the heuristic
    agree, are monotone in kb and never go below 32; on an integer
    kb >= 1 they return 256 * kb exactly, and on an integer kb <= 0 they
    return the floor of 32.  On a finite float past that range the product
    is inf: the locale generator's copy returns 256, so it is not
    monotone over all floats, and the other copy raises a ValueError. *)
Theorem tokens_for_kb_monotone :
  (forall (kb1 kb2 : value) (q1 q2 : Q),
      number kb1 = Some q1 -> number kb2 = Some q2 -> (q1 <= q2)%Q ->
      scales kb1 1024 = true -> scales kb2 1024 = true ->
      exists n1 n2 : Z,
        GenerateLocaleTestData._tokens_for_kb kb1 = Ok n1 /\
        GenerateLocaleTestData._tokens_for_kb kb2 = Ok n2 /\
        TestcaseTokens._tokens_for_kb kb1 = Ok n1 /\
        TestcaseTokens._tokens_for_kb kb2 = Ok n2 /\
        (32 <= n1 <= n2)%Z) /\
  (forall z : Z,
      (1 <= z)%Z ->
      GenerateLocaleTestData._tokens_for_kb (VInt z) = Ok (256 * z)%Z /\
      TestcaseTokens._tokens_for_kb (VInt z) = Ok (256 * z)%Z) /\
  (forall z : Z,
      (z <= 0)%Z ->
      GenerateLocaleTestData._tokens_for_kb (VInt z) = Ok 32%Z /\
      TestcaseTokens._tokens_for_kb (VInt z) = Ok 32%Z) /\
  (forall q : Q,
      scales (VFloat (Fin q)) 1024 = false ->
      GenerateLocaleTestData._tokens_for_kb (VFloat (Fin q)) = Ok 256%Z /\
      exists e,
        TestcaseTokens._tokens_for_kb (VFloat (Fin q)) = Raise e /\
        exn_class_of e = ValueError).
Proof.
  split; [ | split; [ | split]].
  - intros kb1 kb2 q1 q2 H1 H2 Hle Hfit1 Hfit2.
    destruct (Heuristics.tokens_on_number kb1 H1 Hfit1) as [Hl1 Hb1].
    destruct (Heuristics.tokens_on_number kb2 H2 Hfit2) as [Hl2 Hb2].
    eexists. eexists. repeat split; try eassumption.
    + apply Z.le_max_l.
    + apply Z.max_le_compat_l. now apply scaled_le.
  - intros z Hz.
    destruct (@Heuristics.tokens_on_number (VInt z) (inject_Z z) eq_refl eq_refl)
      as [Hl Hb].
    rewrite Hl, Hb, Heuristics.int_times_1024_floordiv_4.
    replace (z * 1024 / 4)%Z with (256 * z)%Z
      by (replace (z * 1024)%Z with (256 * z * 4)%Z by lia; now rewrite Z.div_mul).
    rewrite Z.max_r by lia. split; reflexivity.
  - intros z Hz.
    destruct (@Heuristics.tokens_on_number (VInt z) (inject_Z z) eq_refl eq_refl)
      as [Hl Hb].
    rewrite Hl, Hb, Heuristics.int_times_1024_floordiv_4.
    replace (z * 1024 / 4)%Z with (256 * z)%Z
      by (replace (z * 1024)%Z with (256 * z * 4)%Z by lia; now rewrite Z.div_mul).
    rewrite Z.max_l by lia. split; reflexivity.
  - intros q Hout.
    destruct (Heuristics.tokens_on_overflow q Hout) as [Hl Hb].
    split; [exact Hl | ]. eexists. split; [exact Hb | reflexivity].
Qed.

Lemma tokens_for_kb_monotone_witness :
  number (VFloat (Fin (1 # 2))) = Some (1 # 2) /\
  number (VInt 2) = Some (inject_Z 2) /\
  (1 # 2 <= inject_Z 2)%Q /\
  scales (VFloat (Fin (1 # 2))) 1024 = true /\
  scales (VInt 2) 1024 = true /\
  (exists n1 n2 : Z,
     GenerateLocaleTestData._tokens_for_kb (VFloat (Fin (1 # 2))) = Ok n1 /\
     GenerateLocaleTestData._tokens_for_kb (VInt 2) = Ok n2 /\
     TestcaseTokens._tokens_for_kb (VFloat (Fin (1 # 2))) = Ok n1 /\
     TestcaseTokens._tokens_for_kb (VInt 2) = Ok n2 /\
     (32 <= n1 <= n2)%Z) /\
  (1 <= 2)%Z /\
  GenerateLocaleTestData._tokens_for_kb (VInt 2) = Ok (256 * 2)%Z /\
  (-1 <= 0)%Z /\
  TestcaseTokens._tokens_for_kb (VInt (-1)) = Ok 32%Z /\
  scales (VFloat (Fin (inject_Z (2 ^ 1023)))) 1024 = false /\
  GenerateLocaleTestData._tokens_for_kb (VFloat (Fin (inject_Z (2 ^ 1023)))) = Ok 256%Z.
Proof.
  destruct tokens_for_kb_monotone as [Hmono [Hint [Hneg Hout]]].
  split; [reflexivity | ].
  split; [reflexivity | ].
  split; [discriminate | ].
  split; [reflexivity | ].
  split; [reflexivity | ].
  split.
  - apply (Hmono (VFloat (Fin (1 # 2))) (VInt 2) (1 # 2) (inject_Z 2));
      [reflexivity | reflexivity | discriminate | reflexivity | reflexivity].
  - split; [lia | ].
    split; [apply (Hint 2%Z); lia | ].
    split; [lia | ].
    split; [apply (Hneg (-1)%Z); lia | ].
    split; [vm_compute; reflexivity | ].
    apply (Hout (inject_Z (2 ^ 1023))). vm_compute. reflexivity.
Defined.

Lemma bulk_tokens_raise_on_str (s : str) :
  TestcaseTokens._tokens_for_kb (VStr s)
  = raise_of TypeError "unsupported operand type(s) for //".
Proof. reflexivity. Qed.

Lemma bulk_tokens_raise_on_list (l : list value) :
  TestcaseTokens._tokens_for_kb (VList l)
  = raise_of TypeError "unsupported operand type(s) for //".
Proof. reflexivity. Qed.

(** The copy in TestcaseTokens.py has a value exactly on the numbers
    whose product with 1024 is finite. *)
Lemma bulk_tokens_defined_iff (kb : value) :
  (exists n, TestcaseTokens._tokens_for_kb kb = Ok n) <-> scales kb 1024 = true.
Proof.
  destruct kb as [ | b | z | f | s | l | d].
  - split; [intros [x Hx]; discriminate Hx | discriminate].
  - split; intros _; [reflexivity | eexists; reflexivity].
  - split; intros _; [reflexivity | eexists; reflexivity].
  - destruct f as [q | | | ].
    + destruct (scales (VFloat (Fin q)) 1024) eqn:Hfit.
      * split; [reflexivity | intros _].
        destruct (@Heuristics.tokens_on_number (VFloat (Fin q)) q eq_refl Hfit)
          as [_ Hb].
        eexists. exact Hb.
      * destruct (Heuristics.tokens_on_overflow q Hfit) as [_ Hb].
        rewrite Hb. split; [intros [x Hx]; discriminate Hx | discriminate].
    + split; [intros [x Hx]; discriminate Hx | discriminate].
    + split; [intros [x Hx]; discriminate Hx | discriminate].
    + split; [intros [x Hx]; discriminate Hx | discriminate].
  - rewrite bulk_tokens_raise_on_str.
    split; [intros [x Hx]; discriminate Hx | discriminate].
  - rewrite bulk_tokens_raise_on_list.
    split; [intros [x Hx]; discriminate Hx | discriminate].
  - split; [intros [x Hx]; discriminate Hx | discriminate].
Qed.

(** X5: the heuristic of TestcaseTokens.py accepts exactly the numbers
    whose product with 1024 is finite (ints, bools, floats up to about
    1.7e305); for any other kb, None or a string or nan or 1e308 say,
    [generate_bulk_rate_safe] raises at its first statement: no request
    is made and no file is touched. *)
Theorem rate_aware_rejects_bad_size (kb : value) :
  ((exists n, TestcaseTokens._tokens_for_kb kb = Ok n) <-> scales kb 1024 = true) /\
  (scales kb 1024 = false ->
   forall E G seeds per_seed out_file threshold st,
   exists e,
     TestcaseTokens.generate_bulk_rate_safe E G seeds per_seed kb out_file threshold st
     = (Raise e, st)).
Proof.
  split; [apply bulk_tokens_defined_iff | ].
  intros Hnum E G seeds per_seed out_file threshold st.
  destruct (TestcaseTokens._tokens_for_kb kb) as [n | e] eqn:Htok.
  - assert (Hfit : scales kb 1024 = true)
      by (apply bulk_tokens_defined_iff; now exists n).
    congruence.
  - exists e. unfold TestcaseTokens.generate_bulk_rate_safe, bind, lift.
    now rewrite Htok.
Qed.

Lemma rate_aware_rejects_bad_size_witness :
  scales (VFloat (Fin (inject_Z (2 ^ 1023)))) 1024 = false /\
  exists e,
    TestcaseTokens.generate_bulk_rate_safe Scenario.offline Scenario.bulk_globals
      [lit "a"] 1 (VFloat (Fin (inject_Z (2 ^ 1023)))) Scenario.out_json
      TestcaseTokens.default_safety_token_threshold Scenario.boot
    = (Raise e, Scenario.boot).
Proof.
  split; [vm_compute; reflexivity | ].
  apply (proj2 (rate_aware_rejects_bad_size (VFloat (Fin (inject_Z (2 ^ 1023)))))).
  vm_compute. reflexivity.
Defined.

End TokenBounds.

(** ** Dispatches that recover, and how many posts a run can make *)

Module Dispatch.

Import Run.

(** The retry envelope settles on the first attempt that does not raise
    a RequestException, provided it comes within the allowed number. *)
Lemma attempts_settle (E : Env) (A : Type) (f : M A) (next : state -> state)
  (fails : state -> Prop) :
  (forall st, fails st ->
     exists e, f st = (Raise e, next st) /\ is_request_exception e = true) ->
  forall j remaining st o st',
    (j <= remaining)%nat ->
    (forall k, (k < j)%nat -> fails (Nat.iter k next st)) ->
    f (Nat.iter j next st) = (o, st') ->
    (forall e, o = Raise e -> is_request_exception e = false) ->
    attempts E remaining f st = (o, st').
Proof.
  intros Hf. induction j as [ | j IH]; intros remaining st o st' Hj Hbefore Hrun Hfinal.
  - simpl in Hrun.
    destruct remaining; simpl; rewrite Hrun;
      (destruct o as [a | e]; [reflexivity | now rewrite (Hfinal e eq_refl)]).
  - destruct remaining as [ | remaining]; [lia | ].
    destruct (Hf st (Hbefore 0%nat (Nat.lt_0_succ _))) as [e [Hfail Hreq]].
    cbn [attempts]. rewrite Hfail, Hreq.
    apply IH; [lia | | | exact Hfinal].
    + intros k Hk. rewrite <- Nat.iter_succ_r. apply Hbefore. lia.
    + now rewrite <- Nat.iter_succ_r.
Qed.

Lemma post_fails_upto (E : Env) (st : state) (j : nat) :
  (forall k rq, (k < j)%nat -> attempt_fails (transport E (posts st + k) rq) = true) ->
  forall k, (k < j)%nat -> post_fails E (Nat.iter k posted st).
Proof.
  intros Hall k Hk rq.
  destruct (posts_iter_posted k st) as [-> _].
  rewrite Nat.add_comm. now apply Hall.
Qed.

(** X6: [call_groq] recovers from transient failures: when the first j
    attempts fail (j < 3) and the next post gets a reply whose status is
    not 4xx or 5xx, the call ends there with what [r.json()] gives, the
    parsed body or an exception that is not a RequestException, after
    exactly j + 1 posts. *)
Theorem call_groq_recovers (E : Env) (G : GenerateLocaleTestData.globals)
  (messages : list GenerateLocaleTestData.message) (model : str) (tokens : Z)
  (st : state) (j : nat) (r : response) :
  (j < GenerateLocaleTestData.call_groq_max_attempts)%nat ->
  (forall k rq, (k < j)%nat -> attempt_fails (transport E (posts st + k) rq) = true) ->
  (forall rq, transport E (posts st + j) rq = PostReturns r) ->
  is_http_error (status_code r) = false ->
  (forall e, json r = Raise e -> is_request_exception e = false) ->
  exists st',
    GenerateLocaleTestData.call_groq E G messages model tokens st = (json r, st') /\
    posts st' = (posts st + j + 1)%nat /\
    uuids st' = uuids st /\ fs st' = fs st.
Proof.
  intros Hj Hbefore Hreply Hstatus Hjson.
  exists (posted (Nat.iter j posted st)).
  destruct (posts_iter_posted j st) as [Hp [Hu Hf]].
  split.
  - unfold GenerateLocaleTestData.call_groq, retry.
    apply attempts_settle with (next := posted) (fails := post_fails E) (j := j).
    + intros st0. apply RetryEnvelope.call_groq_body_fails.
    + unfold GenerateLocaleTestData.call_groq_max_attempts in *. lia.
    + now apply post_fails_upto.
    + assert (Htr : forall rq, transport E (posts (Nat.iter j posted st)) rq
                               = PostReturns r).
      { intros rq. rewrite Hp, Nat.add_comm. apply Hreply. }
      unfold GenerateLocaleTestData.call_groq_body, bind, requests_post, lift.
      rewrite Htr. unfold raise_for_status. rewrite Hstatus.
      destruct (negb (is_2xx (status_code r))); reflexivity.
    + exact Hjson.
  - split; [ | split].
    + change (S (posts (Nat.iter j posted st)) = (posts st + j + 1)%nat).
      rewrite Hp. lia.
    + exact Hu.
    + exact Hf.
Qed.

Lemma call_groq_recovers_witness :
  (2 < GenerateLocaleTestData.call_groq_max_attempts)%nat /\
  (forall k rq, (k < 2)%nat ->
     attempt_fails
       (transport (Scenario.world (Worlds.flaky 2 Scenario.json_reply) Scenario.writable)
          (posts Scenario.boot + k) rq) = true) /\
  exists st',
    GenerateLocaleTestData.call_groq
      (Scenario.world (Worlds.flaky 2 Scenario.json_reply) Scenario.writable)
      Scenario.locale_globals [] (lit "llama-3.1-8b-instant") 256 Scenario.boot
    = (json Scenario.json_reply, st') /\
    posts st' = (posts Scenario.boot + 2 + 1)%nat /\
    uuids st' = uuids Scenario.boot /\ fs st' = fs Scenario.boot.
Proof.
  assert (Hfails : forall k rq, (k < 2)%nat ->
            attempt_fails
              (transport (Scenario.world (Worlds.flaky 2 Scenario.json_reply)
                            Scenario.writable)
                 (posts Scenario.boot + k) rq) = true).
  { intros k rq Hk. destruct k as [ | [ | k]]; [reflexivity | reflexivity | lia]. }
  split; [unfold GenerateLocaleTestData.call_groq_max_attempts; lia | ].
  split; [exact Hfails | ].
  apply call_groq_recovers with (r := Scenario.json_reply).
  - unfold GenerateLocaleTestData.call_groq_max_attempts; lia.
  - exact Hfails.
  - intros rq. reflexivity.
  - reflexivity.
  - intros e He. discriminate He.
Defined.






End Dispatch.

(** ** How many posts a run can make *)

Module PostBudget.

Lemma within_ret (A : Type) (a : A) : posts_within (ret a) 0.
Proof. intros st. simpl. lia. Qed.

Lemma within_lift (A : Type) (o : outcome A) : posts_within (lift o) 0.
Proof. intros st. simpl. lia. Qed.

Lemma within_raise (A : Type) (e : exn) : posts_within (@raise A e) 0.
Proof. intros st. simpl. lia. Qed.

Lemma within_weaken (A : Type) (c : M A) (n m : nat) :
  posts_within c n -> (n <= m)%nat -> posts_within c m.
Proof. intros Hc Hnm st. specialize (Hc st). lia. Qed.

Lemma within_bind (A B : Type) (c : M A) (k : A -> M B) (n m : nat) :
  posts_within c n -> (forall a, posts_within (k a) m) ->
  posts_within (bind c k) (n + m).
Proof.
  intros Hc Hk st. unfold bind. specialize (Hc st).
  destruct (c st) as [[a | e] st1]; simpl in *.
  - specialize (Hk a st1). lia.
  - lia.
Qed.

Lemma within_attempt (A : Type) (c : M A) (n : nat) :
  posts_within c n -> posts_within (attempt c) n.
Proof.
  intros Hc st. unfold attempt. specialize (Hc st).
  destruct (c st) as [o st1]. exact Hc.
Qed.

Lemma within_try_except (A : Type) (c : M A) (handler : exn -> M A) (n m : nat) :
  posts_within c n -> (forall e, posts_within (handler e) m) ->
  posts_within (try_except c handler) (n + m).
Proof.
  intros Hc Hh st. unfold try_except. specialize (Hc st).
  destruct (c st) as [[a | e] st1]; simpl in *.
  - lia.
  - specialize (Hh e st1). lia.
Qed.

Lemma within_post (E : Env) (rq : request) : posts_within (requests_post E rq) 1.
Proof.
  intros st. unfold requests_post.
  destruct (transport E (posts st) rq); simpl; lia.
Qed.

Lemma within_raise_for_status (E : Env) (r : response) :
  posts_within (raise_for_status E r) 0.
Proof.
  unfold raise_for_status. destruct (is_http_error (status_code r));
    [apply within_raise | apply within_ret].
Qed.

(** The envelope multiplies the cost of one attempt by the number of
    attempts, at most. *)
Lemma within_attempts (E : Env) (A : Type) (f : M A) (remaining n : nat) :
  posts_within f n -> posts_within (attempts E remaining f) (S remaining * n).
Proof.
  intros Hf. induction remaining as [ | r IH]; intros st; cbn [attempts];
    specialize (Hf st); destruct (f st) as [[a | e] st1]; simpl in *; try lia;
    destruct (is_request_exception e); simpl; try lia.
  specialize (IH st1). simpl in IH. lia.
Qed.

Lemma within_for_range (A : Type) (body : A -> M A) (m : nat) :
  (forall acc, posts_within (body acc) m) ->
  forall k acc, posts_within (for_range k body acc) (k * m).
Proof.
  intros Hbody. induction k as [ | k IH]; intros acc; simpl.
  - apply within_ret.
  - apply within_bind; [apply Hbody | exact IH].
Qed.

Lemma within_for_each (X A : Type) (body : X -> A -> M A) (m : nat) :
  (forall x acc, posts_within (body x acc) m) ->
  forall xs acc, posts_within (for_each xs body acc) (length xs * m).
Proof.
  intros Hbody. induction xs as [ | x xs IH]; intros acc; simpl.
  - apply within_ret.
  - apply within_bind; [apply Hbody | exact IH].
Qed.

Lemma within_for_range_flow (A R : Type) (body : A -> M (flow A R)) (m : nat) :
  (forall acc, posts_within (body acc) m) ->
  forall k acc, posts_within (for_range_flow k body acc) (k * m).
Proof.
  intros Hbody. induction k as [ | k IH]; intros acc; simpl.
  - apply within_ret.
  - apply within_bind; [apply Hbody | ].
    intros [acc' | r]; [apply IH | ].
    apply within_weaken with (n := 0%nat); [apply within_ret | lia].
Qed.

Lemma within_for_each_flow (X A R : Type) (body : X -> A -> M (flow A R)) (m : nat) :
  (forall x acc, posts_within (body x acc) m) ->
  forall xs acc, posts_within (for_each_flow xs body acc) (length xs * m).
Proof.
  intros Hbody. induction xs as [ | x xs IH]; intros acc; simpl.
  - apply within_ret.
  - apply within_bind; [apply Hbody | ].
    intros [acc' | r]; [apply IH | ].
    apply within_weaken with (n := 0%nat); [apply within_ret | lia].
Qed.

Lemma within_write_json (E : Env) (path : str) (doc : value) :
  posts_within (write_json E path doc) 0.
Proof.
  intros st. unfold write_json.
  destruct (write_error E path); [simpl; lia | ].
  destruct (dump_failure E path doc); simpl; lia.
Qed.

Lemma within_read_json (E : Env) (path : str) : posts_within (read_json E path) 0.
Proof.
  intros st. unfold read_json.
  destruct (read_error E path); [simpl; lia | ].
  destruct (fs st path); simpl; lia.
Qed.

Lemma within_call_groq (E : Env) (G : GenerateLocaleTestData.globals)
  (messages : list GenerateLocaleTestData.message) (model : str) (tokens : Z) :
  posts_within (GenerateLocaleTestData.call_groq E G messages model tokens) 3.
Proof.
  unfold GenerateLocaleTestData.call_groq, retry.
  apply (@within_attempts E _ _ 2 1).
  unfold GenerateLocaleTestData.call_groq_body.
  apply (@within_bind _ _ _ _ 1 0); [apply within_post | intros r].
  apply (@within_bind _ _ _ _ 0 0); [ | intros _; apply within_lift].
  destruct (negb (is_2xx (status_code r)));
    [apply within_raise_for_status | apply within_ret].
Qed.

Lemma within_time_sleep (secs : float) : posts_within (time_sleep secs) 0.
Proof.
  unfold time_sleep. destruct (sleep_refusal secs); [apply within_raise | apply within_ret].
Qed.

Lemma within_call_groq_once (E : Env) (G : TestcaseTokens.globals) (s : str)
  (kb : value) :
  posts_within (TestcaseTokens.call_groq_once E G s kb) 4.
Proof.
  unfold TestcaseTokens.call_groq_once, retry.
  apply (@within_attempts E _ _ 3 1).
  unfold TestcaseTokens.call_groq_once_body.
  apply (@within_bind _ _ _ _ 0 1); [apply within_lift | intros n].
  apply (@within_bind _ _ _ _ 1 0); [apply within_post | intros r].
  apply (@within_bind _ _ _ _ 0 0).
  - destruct (status_code r =? 429)%Z; [ | apply within_ret].
    apply (@within_bind _ _ _ _ 0 0);
      [apply within_time_sleep | intros _; apply within_raise_for_status].
  - intros _. apply (@within_bind _ _ _ _ 0 0); [ | intros _; apply within_ret].
    destruct (negb (is_2xx (status_code r)));
      [apply within_raise_for_status | apply within_ret].
Qed.

Lemma within_write_merged (E : Env) (out_file : str) (out : list value) :
  posts_within (GenerateLocaleTestData.write_merged E out_file out) 0.
Proof.
  unfold GenerateLocaleTestData.write_merged.
  apply (@within_try_except _ _ _ 0 0); [ | intros _; apply within_ret].
  apply (@within_bind _ _ _ _ 0 0); [intros st; simpl; lia | intros there].
  apply (@within_bind _ _ _ _ 0 0).
  - destruct there; [apply within_read_json | apply within_ret].
  - intros existing.
    apply (@within_bind _ _ _ _ 0 0); [apply within_lift | intros combined].
    apply within_write_json.
Qed.

Lemma within_locale_one (E : Env) (G : GenerateLocaleTestData.globals)
  (locale label : str) (kb : value) (model : str) (dry_run : bool) (tokens : Z)
  (seed : str) (out : list value) :
  posts_within
    (GenerateLocaleTestData.generate_one E G locale label kb model dry_run tokens seed out)
    3.
Proof.
  unfold GenerateLocaleTestData.generate_one.
  apply (@within_bind _ _ _ _ 0 3); [intros st; simpl; lia | intros messages].
  destruct dry_run.
  - apply within_weaken with (n := 0%nat); [apply within_ret | lia].
  - apply (@within_bind _ _ _ _ 3 0); [apply within_attempt, within_call_groq | ].
    intros [resp | e]; [ | apply within_ret].
    apply (@within_bind _ _ _ _ 0 0); [apply within_lift | intros text].
    apply (@within_bind _ _ _ _ 0 0); [apply within_lift | intros text'].
    apply within_ret.
Qed.

(** X8: however the endpoint behaves and however the run ends,
    [generate_for_locale] makes at most 3 posts per planned item, that is
    at most 3 * len(seeds) * per_seed in all, and its count of posts
    never goes down. *)
Theorem locale_posts_bounded (E : Env) (G : GenerateLocaleTestData.globals)
  (locale : str) (seeds : list str) (per_seed : Z) (kb : value) (model : str)
  (dry_run : bool) (out_file : str) (st : state) :
  (posts st
   <= posts (snd (GenerateLocaleTestData.generate_for_locale E G locale seeds per_seed
                    kb model dry_run out_file st))
   <= posts st + 3 * (length seeds * Z.to_nat per_seed))%nat.
Proof.
  assert (H : posts_within
                (GenerateLocaleTestData.generate_for_locale E G locale seeds per_seed
                   kb model dry_run out_file)
                (0 + (length seeds * (Z.to_nat per_seed * 3) + (0 + 0)))).
  { unfold GenerateLocaleTestData.generate_for_locale.
    apply within_bind; [apply within_lift | intros tokens].
    apply within_bind.
    - unfold GenerateLocaleTestData.generate_all.
      apply within_for_each. intros seed acc.
      apply within_for_range. intros out. apply within_locale_one.
    - intros out. apply within_bind; [apply within_write_merged | ].
      intros _. apply within_ret. }
  specialize (H st). lia.
Qed.

Lemma within_stop_if_low (E : Env) (out_file : str) (threshold : float) (r : response)
  (out : list value) :
  posts_within (TestcaseTokens.stop_if_low E out_file threshold r out) 0.
Proof.
  unfold TestcaseTokens.stop_if_low.
  destruct (header_get r "x-ratelimit-remaining-tokens") as [[ | c rest] | ];
    try apply within_ret.
  destruct (py_float E (c :: rest)) as [f | ]; [ | apply within_raise].
  destruct (float_le f threshold); [ | apply within_ret].
  apply (@within_bind _ _ _ _ 0 0); [apply within_write_json | ].
  intros _. apply within_ret.
Qed.

Lemma within_pause_if_low (E : Env) (threshold : float) (r : response) :
  posts_within (TestcaseTokens.pause_if_low E threshold r) 0.
Proof.
  unfold TestcaseTokens.pause_if_low.
  destruct (header_get r "x-ratelimit-remaining-tokens") as [[ | c rest] | ];
    try apply within_ret.
  apply (@within_try_except _ _ _ 0 0); [ | intros _; apply within_ret].
  destruct (py_float E (c :: rest)) as [f | ]; [ | apply within_raise].
  destruct (float_le f threshold); apply within_ret.
Qed.

Lemma within_bulk_one (E : Env) (G : TestcaseTokens.globals) (kb : value)
  (out_file : str) (threshold : float) (s : str) (out : list value) :
  posts_within (TestcaseTokens.generate_one E G kb out_file threshold s out) 4.
Proof.
  unfold TestcaseTokens.generate_one.
  apply (@within_bind _ _ _ _ 4 0); [apply within_attempt, within_call_groq_once | ].
  intros [r | e]; [ | apply within_ret].
  destruct (json r) as [resp | ej].
  - apply (@within_bind _ _ _ _ 0 0); [apply within_lift | intros text].
    apply (@within_bind _ _ _ _ 0 0); [apply within_pause_if_low | ].
    intros _. apply within_ret.
  - apply (@within_bind _ _ _ _ 0 0); [apply within_stop_if_low | ].
    intros [path | ]; apply within_ret.
Qed.

Lemma within_bulk_run (E : Env) (G : TestcaseTokens.globals) (seeds : list str)
  (per_seed : Z) (kb : value) (out_file : str) (threshold : float) :
  posts_within
    (TestcaseTokens.generate_bulk_rate_safe E G seeds per_seed kb out_file threshold)
    (0 + (length seeds * (Z.to_nat per_seed * 4) + 0)).
Proof.
  unfold TestcaseTokens.generate_bulk_rate_safe.
  apply within_bind; [apply within_lift | intros n].
  apply within_bind.
  - unfold TestcaseTokens.generate_all.
    apply within_for_each_flow. intros s acc.
    apply within_for_range_flow. intros out. apply within_bulk_one.
  - intros [out | path]; [ | apply within_ret].
    apply (@within_bind _ _ _ _ 0 0); [apply within_write_json | ].
    intros _. apply within_ret.
Qed.

(** X9: however the endpoint behaves and however the run ends,
    [generate_bulk_rate_safe] makes at most 4 posts per planned item,
    that is at most 4 * len(seeds) * per_seed in all; runbulk.py, with
    its 4 seeds and 25 messages per seed, never makes more than 400. *)
Theorem rate_aware_posts_bounded (E : Env) :
  (forall (G : TestcaseTokens.globals) (seeds : list str) (per_seed : Z) (kb : value)
          (out_file : str) (threshold : float) (st : state),
      (posts st
       <= posts (snd (TestcaseTokens.generate_bulk_rate_safe E G seeds per_seed kb
                        out_file threshold st))
       <= posts st + 4 * (length seeds * Z.to_nat per_seed))%nat) /\
  (forall (env : environ) (st : state),
      (posts st <= posts (snd (runbulk.main E env st)) <= posts st + 400)%nat).
Proof.
  split.
  - intros G seeds per_seed kb out_file threshold st.
    pose proof (within_bulk_run E G seeds per_seed kb out_file threshold st). lia.
  - intros env st. unfold runbulk.main, bind, lift.
    destruct (TestcaseTokens.load E env) as [G | e] eqn:Hload; [ | discriminate Hload].
    pose proof (within_bulk_run E G runbulk.seeds runbulk.PER_SEED runbulk.KB
                  runbulk.OUT TestcaseTokens.default_safety_token_threshold st) as H.
    change (length runbulk.seeds) with 4%nat in H.
    change (Z.to_nat runbulk.PER_SEED) with 25%nat in H.
    lia.
Qed.

End PostBudget.

(** ** What the locale generator returns *)

Module LocaleRecords.

Import Run.
Import GenerateLocaleTestData.

(** What the text extraction hands on is truthy or a string. *)
Lemma extract_text_shape (E : Env) (resp x : value) :
  extract_text E resp = Ok x -> truthy x = true \/ exists s, x = VStr s.
Proof.
  unfold extract_text, obind.
  match goal with |- match ?inner with _ => _ end = _ -> _ =>
    destruct inner as [text | e] end; [ | discriminate].
  intros [= <-]. destruct (truthy text) eqn:Htruthy; [now left | right; eauto].
Qed.

(** A reply that gets through lines 126 to 140 yields a sanitized
    string. *)
Lemma text_of_reply_sanitized (E : Env) (resp t : value) :
  text_of_reply E resp = Ok t -> sanitized t.
Proof.
  unfold text_of_reply, obind.
  destruct (extract_text E resp) as [x | e] eqn:Hx; [ | discriminate].
  apply extract_text_shape in Hx.
  unfold sanitize_value.
  assert (Hstr : forall s, sanitized (VStr (sanitize_text s default_max_len))).
  { intros s. exists (sanitize_text s default_max_len).
    split; [reflexivity | ].
    split; [apply SanitizeBounds.sanitize_text_strips | ].
    rewrite SanitizeBounds.len_marker.
    apply SanitizeBounds.sanitize_text_measures. unfold default_max_len. lia. }
  destruct (truthy x) eqn:Htruthy; simpl.
  - destruct x; try discriminate. intros [= <-]. apply Hstr.
  - destruct Hx as [Hx | [s ->]]; [discriminate | ].
    intros [= <-]. destruct s; [ | discriminate].
    exact (Hstr []).
Qed.

Lemma generate_one_inv (E : Env) (G : globals) (locale label : str) (kb : value)
  (model : str) (tokens : Z) (seed : str) (out out' : list value) (st st' : state) :
  generate_one E G locale label kb model false tokens seed out st = (Ok out', st') ->
  exists record, out' = out ++ [record] /\ live seed record.
Proof.
  destruct (build_prompt_runs E seed locale label kb st) as [messages [Hprompt _]].
  unfold generate_one, bind, attempt. rewrite Hprompt. cbv beta iota.
  match goal with |- context [call_groq E G messages model tokens ?s] =>
    destruct (call_groq E G messages model tokens s) as [[resp | e] st1] end.
  - unfold lift.
    destruct (text_of_reply E resp) as [t | e] eqn:Ht.
    + pose proof (text_of_reply_sanitized E resp Ht) as Hsan.
      unfold text_of_reply, obind in Ht.
      destruct (extract_text E resp) as [x | ex]; [ | discriminate].
      rewrite Ht. intros [= <- _].
      eexists. split; [reflexivity | ].
      split; [reflexivity | right].
      split; [reflexivity | ]. exists t. split; [reflexivity | exact Hsan].
    + unfold text_of_reply, obind in Ht.
      destruct (extract_text E resp) as [x | ex]; [ | discriminate].
      rewrite Ht. discriminate.
  - intros [= <- _]. eexists. split; [reflexivity | ].
    split; [reflexivity | left; reflexivity].
Qed.

Section Inversion.

Variable P : str -> value -> Prop.

(** A loop that has returned has appended one record per round. *)
Lemma for_range_inv (body : list value -> M (list value)) (seed : str) :
  (forall out st out' st', body out st = (Ok out', st') ->
     exists record, out' = out ++ [record] /\ P seed record) ->
  forall n out st out' st',
    for_range n body out st = (Ok out', st') ->
    exists records,
      out' = out ++ records /\ length records = n /\ Forall (P seed) records.
Proof.
  intros Hbody. induction n as [ | n IH]; intros out st out' st'; simpl.
  - intros [= <- _]. exists []. rewrite app_nil_r. repeat split. constructor.
  - unfold bind. destruct (body out st) as [[out1 | e] st1] eqn:Hone; [ | discriminate].
    intros Hrest.
    destruct (Hbody _ _ _ _ Hone) as [record [-> Hrec]].
    destruct (IH _ _ _ _ Hrest) as [records [-> [Hlen Hall]]].
    exists (record :: records). rewrite <- app_assoc. simpl.
    repeat split; [now rewrite Hlen | now constructor].
Qed.

Lemma for_each_inv (body : str -> list value -> M (list value)) (n : nat) :
  (forall seed out st out' st', body seed out st = (Ok out', st') ->
     exists records,
       out' = out ++ records /\ length records = n /\ Forall (P seed) records) ->
  forall seeds out st out' st',
    for_each seeds body out st = (Ok out', st') ->
    exists records, out' = out ++ records /\ Forall2 P (planned seeds n) records.
Proof.
  intros Hbody. induction seeds as [ | seed seeds IH]; intros out st out' st'; simpl.
  - intros [= <- _]. exists []. rewrite app_nil_r. split; [reflexivity | constructor].
  - unfold bind.
    destruct (body seed out st) as [[out1 | e] st1] eqn:Hone; [ | discriminate].
    intros Hrest.
    destruct (Hbody _ _ _ _ _ Hone) as [recs [-> [Hlen Hall]]].
    destruct (IH _ _ _ _ Hrest) as [records [-> Hall2]].
    exists (recs ++ records). rewrite <- app_assoc. split; [reflexivity | ].
    apply Forall2_app; [ | exact Hall2].
    rewrite <- Hlen. now apply Forall2_repeat.
Qed.

End Inversion.

(** The function returns what its loops return: the write at the end
    never turns a result into an exception, nor the reverse. *)
Lemma generate_for_locale_returns (E : Env) (G : globals) (locale : str)
  (seeds : list str) (per_seed : Z) (kb : value) (model : str) (dry_run : bool)
  (out_file : str) (st : state) :
  exists tokens,
    _tokens_for_kb kb = Ok tokens /\
    fst (generate_for_locale E G locale seeds per_seed kb model dry_run out_file st)
    = fst (generate_all E G locale (language_of locale) kb model dry_run tokens
             seeds per_seed st).
Proof.
  destruct (Heuristics.locale_tokens_defined kb) as [tokens Htok].
  exists tokens. split; [exact Htok | ].
  unfold generate_for_locale, bind, lift. rewrite Htok.
  destruct (generate_all E G locale (language_of locale) kb model dry_run tokens
              seeds per_seed st) as [[out | e] st1]; [ | reflexivity].
  destruct (LocaleRun.write_merged_quiet E out_file out st1) as [st2 [Hwrite _]].
  now rewrite Hwrite.
Qed.

(** X10: whenever a run of [generate_for_locale] that calls the endpoint
    returns, whatever the endpoint did, it returns exactly one record
    per (seed, repetition) pair in loop order, each tagged with its seed;
    each is an error record or a success record whose visitor_message is
    a string free of the stripped control characters and at most
    100016 characters long. *)
Theorem locale_returned_records (E : Env) (G : globals) (locale : str)
  (seeds : list str) (per_seed : Z) (kb : value) (model out_file : str)
  (st : state) (out : list value) :
  fst (generate_for_locale E G locale seeds per_seed kb model false out_file st)
  = Ok out ->
  Forall2 live (planned seeds (Z.to_nat per_seed)) out /\
  length out = (length seeds * Z.to_nat per_seed)%nat.
Proof.
  intros Hrun.
  destruct (generate_for_locale_returns E G locale seeds per_seed kb model false
              out_file st) as [tokens [_ Heq]].
  rewrite Heq in Hrun. unfold generate_all in Hrun.
  match type of Hrun with fst ?run = _ =>
    destruct run as [o st1] eqn:Hloops end.
  simpl in Hrun. subst o.
  apply for_each_inv with (P := live) (n := Z.to_nat per_seed) in Hloops.
  - destruct Hloops as [records [-> Hall]]. simpl.
    split; [exact Hall | ].
    apply Forall2_length in Hall. now rewrite <- Hall, length_planned.
  - intros seed out0 st0 out1 st2. apply for_range_inv.
    intros out2 st3 out3 st4. apply generate_one_inv.
Qed.

Lemma locale_returned_records_witness :
  fst (generate_for_locale (Scenario.answering Scenario.json_reply)
         Scenario.locale_globals (lit "en-GB") [lit "a"] 1 (VInt 1)
         (lit "llama-3.1-8b-instant") false Scenario.out_json Scenario.boot)
  = Ok [success_record (lit "a") (lit "en-GB") (lit "llama-3.1-8b-instant")
          (VStr (lit "hi")) 256] /\
  Forall2 live (planned [lit "a"] (Z.to_nat 1))
    [success_record (lit "a") (lit "en-GB") (lit "llama-3.1-8b-instant")
       (VStr (lit "hi")) 256] /\
  length [success_record (lit "a") (lit "en-GB") (lit "llama-3.1-8b-instant")
            (VStr (lit "hi")) 256]
  = (length [lit "a"] * Z.to_nat 1)%nat.
Proof.
  split; [reflexivity | ].
  apply (@locale_returned_records (Scenario.answering Scenario.json_reply)
           Scenario.locale_globals (lit "en-GB") [lit "a"] 1 (VInt 1)
           (lit "llama-3.1-8b-instant") Scenario.out_json Scenario.boot).
  reflexivity.
Defined.



End LocaleRecords.

(** ** What the locale generator leaves on disk *)

Module LocaleFile.

Import Run.
Import GenerateLocaleTestData.

Lemma str_eqb_refl (s : str) : str_eqb s s = true.
Proof.
  induction s as [ | c s IH]; simpl; [reflexivity | ].
  now rewrite N.eqb_refl, IH.
Qed.

(** When [json.dump] breaks off: always on a document with a lone
    surrogate, and otherwise only when the world stops it. *)
Lemma dump_breaks_on_surrogate (E : Env) (path : str) (doc : value) :
  encodable doc = false -> dump_failure E path doc = Some surrogates_not_allowed.
Proof. unfold dump_failure. now intros ->. Qed.

Lemma dump_completes (E : Env) (path : str) (doc : value) :
  encodable doc = true -> dump_error E path doc = None ->
  dump_failure E path doc = None.
Proof. unfold dump_failure. now intros -> ->. Qed.

(** The write block on a file that holds an array. *)
Lemma write_merged_on_array (E : Env) (out_file : str) (old out : list value)
  (st : state) :
  read_error E out_file = None ->
  write_error E out_file = None ->
  fs st out_file = Holds (VList old) ->
  write_merged E out_file out st
  = (Ok tt, mk_state (posts st) (uuids st)
              (after_dump E (fs st) out_file (VList (old ++ out)))).
Proof.
  intros Hr Hw Hfs.
  unfold write_merged, try_except, bind, os_path_exists, read_json, write_json, lift, ret.
  cbv beta iota. rewrite Hfs. cbv beta iota. rewrite Hr, Hfs.
  cbv beta iota delta [py_add_list]. rewrite Hw. unfold after_dump.
  destruct (dump_failure E out_file (VList (old ++ out))); reflexivity.
Qed.

(** The write block when there is no file yet. *)
Lemma write_merged_on_absent (E : Env) (out_file : str) (out : list value) (st : state) :
  write_error E out_file = None ->
  fs st out_file = Absent ->
  write_merged E out_file out st
  = (Ok tt, mk_state (posts st) (uuids st)
              (after_dump E (fs st) out_file (VList out))).
Proof.
  intros Hw Hfs.
  unfold write_merged, try_except, bind, os_path_exists, read_json, write_json, lift, ret.
  cbv beta iota. rewrite Hfs. cbv beta iota delta [py_add_list]. rewrite Hw.
  change ([] ++ out) with out. unfold after_dump.
  destruct (dump_failure E out_file (VList out)); reflexivity.
Qed.

(** The write block gives up, silently, on a file it cannot use. *)
Lemma write_merged_gives_up (E : Env) (out_file : str) (out : list value) (st : state) :
  fs st out_file = Unparseable \/
  (exists doc, fs st out_file = Holds doc /\ is_array doc = false) \/
  (fs st out_file <> Absent /\ exists e, read_error E out_file = Some e) \/
  (exists e, write_error E out_file = Some e) ->
  write_merged E out_file out st = (Ok tt, st).
Proof.
  unfold write_merged, try_except, bind, os_path_exists, read_json, write_json,
    lift, ret, raise_of.
  cbv beta iota.
  intros [Hfs | [[doc [Hfs Harr]] | [[Hfs [e He]] | [e He]]]].
  - rewrite Hfs. cbv beta iota.
    destruct (read_error E out_file); [reflexivity | ]. now rewrite Hfs.
  - rewrite Hfs. cbv beta iota.
    destruct (read_error E out_file); [reflexivity | ]. rewrite Hfs.
    destruct doc; try discriminate; reflexivity.
  - rewrite He. destruct (fs st out_file); [congruence | reflexivity | reflexivity].
  - destruct (fs st out_file) as [ | | doc] eqn:Hfs; cbv beta iota.
    + cbv beta iota delta [py_add_list]. now rewrite He.
    + destruct (read_error E out_file); [reflexivity | ]. now rewrite Hfs.
    + destruct (read_error E out_file); [reflexivity | ]. rewrite Hfs.
      destruct doc; cbv beta iota delta [py_add_list raise_of]; try reflexivity.
      now rewrite He.
Qed.

(** A run seen as its loops followed by the write block. *)
Lemma run_splits (E : Env) (G : globals) (locale : str) (seeds : list str)
  (per_seed : Z) (kb : value) (model : str) (dry_run : bool) (out_file : str)
  (st : state) :
  exists tokens,
    (forall e st1,
        generate_all E G locale (language_of locale) kb model dry_run tokens
          seeds per_seed st = (Raise e, st1) ->
        generate_for_locale E G locale seeds per_seed kb model dry_run out_file st
        = (Raise e, st1) /\ fs st1 = fs st) /\
    (forall out st1,
        generate_all E G locale (language_of locale) kb model dry_run tokens
          seeds per_seed st = (Ok out, st1) ->
        fs st1 = fs st /\
        forall st2, write_merged E out_file out st1 = (Ok tt, st2) ->
        generate_for_locale E G locale seeds per_seed kb model dry_run out_file st
        = (Ok out, st2)).
Proof.
  destruct (Heuristics.locale_tokens_defined kb) as [tokens Htok].
  exists tokens.
  pose proof (Frame.keeps_files_generate_all E G locale (language_of locale) kb model
                dry_run tokens seeds per_seed st) as Hkeep.
  split.
  - intros e st1 Hloops. rewrite Hloops in Hkeep. split; [ | exact Hkeep].
    unfold generate_for_locale, bind, lift. now rewrite Htok, Hloops.
  - intros out st1 Hloops. rewrite Hloops in Hkeep. split; [exact Hkeep | ].
    intros st2 Hwrite.
    unfold generate_for_locale, bind, lift, ret. now rewrite Htok, Hloops, Hwrite.
Qed.

(** X12: when [generate_for_locale] returns [out] and the file can be
    read and opened for writing, a file that held a JSON array holds
    afterwards the old elements in their order followed by [out], and a
    file that did not exist holds [out] - unless the write breaks off,
    as it does when a string of those records holds a lone surrogate,
    which UTF-8 cannot encode: then the file, emptied when it was opened,
    is left with a cut-off text that is no JSON document (the old records
    are gone), and the failure is swallowed.  No other file changes.  All
    this is so in a dry run as well. *)
Theorem locale_file_after_run (E : Env) (G : globals) (locale : str)
  (seeds : list str) (per_seed : Z) (kb : value) (model : str) (dry_run : bool)
  (out_file : str) (st : state) (out : list value) :
  fst (generate_for_locale E G locale seeds per_seed kb model dry_run out_file st)
  = Ok out ->
  read_error E out_file = None ->
  write_error E out_file = None ->
  (forall old,
      fs st out_file = Holds (VList old) ->
      fs (snd (generate_for_locale E G locale seeds per_seed kb model dry_run
                 out_file st))
      = after_dump E (fs st) out_file (VList (old ++ out))) /\
  (fs st out_file = Absent ->
   fs (snd (generate_for_locale E G locale seeds per_seed kb model dry_run
              out_file st))
   = after_dump E (fs st) out_file (VList out)).
Proof.
  intros Hrun Hr Hw.
  destruct (run_splits E G locale seeds per_seed kb model dry_run out_file st)
    as [tokens [Hraise Hok]].
  destruct (generate_all E G locale (language_of locale) kb model dry_run tokens
              seeds per_seed st) as [[out1 | e] st1] eqn:Hloops.
  - destruct (Hok out1 st1 eq_refl) as [Hkeep Hthen].
    split.
    + intros old Hfs.
      assert (Hfs1 : fs st1 out_file = Holds (VList old)) by now rewrite Hkeep.
      rewrite (Hthen _ (write_merged_on_array E out_file out1 st1 Hr Hw Hfs1)) in *.
      simpl in Hrun. injection Hrun as <-. cbn [snd fs]. now rewrite Hkeep.
    + intros Hfs.
      assert (Hfs1 : fs st1 out_file = Absent) by now rewrite Hkeep.
      rewrite (Hthen _ (write_merged_on_absent E out_file out1 st1 Hw Hfs1)) in *.
      simpl in Hrun. injection Hrun as <-. cbn [snd fs]. now rewrite Hkeep.
  - destruct (Hraise e st1 eq_refl) as [Hrun' _].
    rewrite Hrun' in Hrun. discriminate Hrun.
Qed.

Lemma locale_file_after_run_witness :
  fst (generate_for_locale (Scenario.answering Scenario.json_reply)
         Scenario.locale_globals (lit "en-GB") [lit "a"] 1 (VInt 1)
         (lit "llama-3.1-8b-instant") false Scenario.out_json Scenario.second_campaign)
  = Ok [success_record (lit "a") (lit "en-GB") (lit "llama-3.1-8b-instant")
          (VStr (lit "hi")) 256] /\
  fs Scenario.second_campaign Scenario.out_json = Holds (VList [Scenario.old_record]) /\
  fs (snd (generate_for_locale (Scenario.answering Scenario.json_reply)
             Scenario.locale_globals (lit "en-GB") [lit "a"] 1 (VInt 1)
             (lit "llama-3.1-8b-instant") false Scenario.out_json
             Scenario.second_campaign))
  = written (fs Scenario.second_campaign) Scenario.out_json
      (VList ([Scenario.old_record]
              ++ [success_record (lit "a") (lit "en-GB") (lit "llama-3.1-8b-instant")
                    (VStr (lit "hi")) 256])) /\
  fst (generate_for_locale (Scenario.answering Worlds.surrogate_reply)
         Scenario.locale_globals (lit "en-GB") [lit "a"] 1 (VInt 1)
         (lit "llama-3.1-8b-instant") false Scenario.out_json Scenario.second_campaign)
  = Ok [success_record (lit "a") (lit "en-GB") (lit "llama-3.1-8b-instant")
          (VStr [55357%N]) 256] /\
  fs (snd (generate_for_locale (Scenario.answering Worlds.surrogate_reply)
             Scenario.locale_globals (lit "en-GB") [lit "a"] 1 (VInt 1)
             (lit "llama-3.1-8b-instant") false Scenario.out_json
             Scenario.second_campaign))
  = cut_off (fs Scenario.second_campaign) Scenario.out_json.
Proof.
  split; [reflexivity | ].
  split; [reflexivity | ].
  split.
  - apply (proj1 (@locale_file_after_run (Scenario.answering Scenario.json_reply)
                    Scenario.locale_globals (lit "en-GB") [lit "a"] 1 (VInt 1)
                    (lit "llama-3.1-8b-instant") false Scenario.out_json
                    Scenario.second_campaign
                    [success_record (lit "a") (lit "en-GB") (lit "llama-3.1-8b-instant")
                       (VStr (lit "hi")) 256]
                    eq_refl eq_refl eq_refl) [Scenario.old_record]).
    reflexivity.
  - split; [reflexivity | ].
    apply (proj1 (@locale_file_after_run (Scenario.answering Worlds.surrogate_reply)
                    Scenario.locale_globals (lit "en-GB") [lit "a"] 1 (VInt 1)
                    (lit "llama-3.1-8b-instant") false Scenario.out_json
                    Scenario.second_campaign
                    [success_record (lit "a") (lit "en-GB") (lit "llama-3.1-8b-instant")
                       (VStr [55357%N]) 256]
                    eq_refl eq_refl eq_refl) [Scenario.old_record]).
    reflexivity.
Defined.

(** X13: [generate_for_locale] does not persist its records, and leaves
    every file as it was, when the output file exists but is empty or not
    JSON, holds a JSON value that is not an array, or cannot be read;
    nothing is raised for it: the function returns or raises exactly as
    its loops do. *)
Theorem locale_file_not_persisted (E : Env) (G : globals) (locale : str)
  (seeds : list str) (per_seed : Z) (kb : value) (model : str) (dry_run : bool)
  (out_file : str) (st : state) :
  fs st out_file = Unparseable \/
  (exists doc, fs st out_file = Holds doc /\ is_array doc = false) \/
  (fs st out_file <> Absent /\ exists e, read_error E out_file = Some e) ->
  fs (snd (generate_for_locale E G locale seeds per_seed kb model dry_run out_file st))
  = fs st /\
  exists tokens,
    _tokens_for_kb kb = Ok tokens /\
    generate_for_locale E G locale seeds per_seed kb model dry_run out_file st
    = generate_all E G locale (language_of locale) kb model dry_run tokens
        seeds per_seed st.
Proof.
  intros Hfile.
  destruct (Heuristics.locale_tokens_defined kb) as [tokens Htok].
  pose proof (Frame.keeps_files_generate_all E G locale (language_of locale) kb model
                dry_run tokens seeds per_seed st) as Hkeep.
  assert (Hsame :
    generate_for_locale E G locale seeds per_seed kb model dry_run out_file st
    = generate_all E G locale (language_of locale) kb model dry_run tokens
        seeds per_seed st).
  { unfold generate_for_locale, bind, lift, ret. rewrite Htok.
    destruct (generate_all E G locale (language_of locale) kb model dry_run tokens
                seeds per_seed st) as [[out | e] st1]; [ | reflexivity].
    simpl in Hkeep.
    rewrite write_merged_gives_up; [reflexivity | ].
    rewrite Hkeep.
    destruct Hfile as [H | [H | H]]; [now left | right; now left | right; right; now left]. }
  split; [rewrite Hsame; exact Hkeep | ].
  exists tokens. split; [exact Htok | exact Hsame].
Qed.

Lemma locale_file_not_persisted_witness :
  fs (mk_state 0 0 Worlds.empty_file) Scenario.out_json = Unparseable /\
  fs (snd (generate_for_locale (Scenario.answering Scenario.json_reply)
             Scenario.locale_globals (lit "en-GB") [lit "a"] 1 (VInt 1)
             (lit "llama-3.1-8b-instant") false Scenario.out_json
             (mk_state 0 0 Worlds.empty_file)))
  = fs (mk_state 0 0 Worlds.empty_file) /\
  fs (mk_state 0 0 Worlds.object_file) Scenario.out_json = Holds (VDict []) /\
  fs (snd (generate_for_locale (Scenario.answering Scenario.json_reply)
             Scenario.locale_globals (lit "en-GB") [lit "a"] 1 (VInt 1)
             (lit "llama-3.1-8b-instant") false Scenario.out_json
             (mk_state 0 0 Worlds.object_file)))
  = fs (mk_state 0 0 Worlds.object_file).
Proof.
  split; [reflexivity | ].
  split.
  - apply locale_file_not_persisted. left. reflexivity.
  - split; [reflexivity | ].
    apply locale_file_not_persisted. right. left.
    exists (VDict []). split; reflexivity.
Defined.

(** X14: when the output file cannot be opened for writing,
    [generate_for_locale] swallows the failure: it returns or raises
    exactly as its loops do, with the records they produced, and leaves
    every file as it was. *)
Theorem locale_write_failure_swallowed (E : Env) (G : globals) (locale : str)
  (seeds : list str) (per_seed : Z) (kb : value) (model : str) (dry_run : bool)
  (out_file : str) (st : state) (e : exn) :
  write_error E out_file = Some e ->
  fs (snd (generate_for_locale E G locale seeds per_seed kb model dry_run out_file st))
  = fs st /\
  exists tokens,
    _tokens_for_kb kb = Ok tokens /\
    generate_for_locale E G locale seeds per_seed kb model dry_run out_file st
    = generate_all E G locale (language_of locale) kb model dry_run tokens
        seeds per_seed st.
Proof.
  intros Hw.
  destruct (Heuristics.locale_tokens_defined kb) as [tokens Htok].
  pose proof (Frame.keeps_files_generate_all E G locale (language_of locale) kb model
                dry_run tokens seeds per_seed st) as Hkeep.
  assert (Hsame :
    generate_for_locale E G locale seeds per_seed kb model dry_run out_file st
    = generate_all E G locale (language_of locale) kb model dry_run tokens
        seeds per_seed st).
  { unfold generate_for_locale, bind, lift, ret. rewrite Htok.
    destruct (generate_all E G locale (language_of locale) kb model dry_run tokens
                seeds per_seed st) as [[out | e0] st1]; [ | reflexivity].
    rewrite write_merged_gives_up; [reflexivity | ].
    right. right. right. now exists e. }
  split; [rewrite Hsame; exact Hkeep | ].
  exists tokens. split; [exact Htok | exact Hsame].
Qed.

Lemma locale_write_failure_swallowed_witness :
  write_error (Scenario.world (Scenario.always Scenario.json_reply) Scenario.read_only)
    Scenario.out_json
  = Some (mk_exn OSError (lit "Permission denied")) /\
  fs (snd (generate_for_locale
             (Scenario.world (Scenario.always Scenario.json_reply) Scenario.read_only)
             Scenario.locale_globals (lit "en-GB") [lit "a"] 1 (VInt 1)
             (lit "llama-3.1-8b-instant") false Scenario.out_json
             Scenario.second_campaign))
  = fs Scenario.second_campaign /\
  fst (generate_for_locale
         (Scenario.world (Scenario.always Scenario.json_reply) Scenario.read_only)
         Scenario.locale_globals (lit "en-GB") [lit "a"] 1 (VInt 1)
         (lit "llama-3.1-8b-instant") false Scenario.out_json Scenario.second_campaign)
  = Ok [success_record (lit "a") (lit "en-GB") (lit "llama-3.1-8b-instant")
          (VStr (lit "hi")) 256].
Proof.
  split; [reflexivity | ].
  split; [ | reflexivity].
  apply (proj1 (@locale_write_failure_swallowed
                  (Scenario.world (Scenario.always Scenario.json_reply) Scenario.read_only)
                  Scenario.locale_globals (lit "en-GB") [lit "a"] 1 (VInt 1)
                  (lit "llama-3.1-8b-instant") false Scenario.out_json
                  Scenario.second_campaign
                  (mk_exn OSError (lit "Permission denied")) eq_refl)).
Defined.

End LocaleFile.

(** ** Dry runs and the start of the locale script *)

Module LocaleStart.

Import Run.
Import GenerateLocaleTestData.



(** X16: GenerateLocaleTestData.py starts exactly when GROQ_API_KEY is
    set to a non-empty string.  Without it the script raises
    EnvironmentError before anything else happens: no post, no uuid
    drawn, no file touched.  With it the module loads, the Authorization
    header is Bearer followed by the key, and the endpoint URL is taken
    as found, None included. *)
Theorem locale_script_start (E : Env) (env : environ) :
  (truthy (getenv env "GROQ_API_KEY") = false ->
   forall a st,
   exists e,
     main E env a st = (Raise e, st) /\ exn_class_of e = EnvironmentError) /\
  (forall key,
      env (lit "GROQ_API_KEY") = Some key -> key <> [] ->
      exists G,
        load E env = Ok G /\
        GROQ_API_KEY G = VStr key /\
        GROQ_API_URL G = getenv env "GROQ_API_URL" /\
        get_method (HEADERS G) "Authorization" = Ok (VStr (lit "Bearer " ++ key))).
Proof.
  split.
  - intros Hkey a st. unfold main, bind, lift, load. rewrite Hkey.
    eexists. split; reflexivity.
  - intros key Hkey Hne. unfold load, getenv. rewrite Hkey.
    destruct key as [ | c key]; [congruence | ].
    eexists. repeat split.
Qed.

Lemma locale_script_start_witness :
  truthy (getenv Scenario.env_without_key "GROQ_API_KEY") = false /\
  (exists e,
     main Scenario.offline Scenario.env_without_key
       (Scenario.locale_args 1 false [lit "a"]) Scenario.boot
     = (Raise e, Scenario.boot) /\
     exn_class_of e = EnvironmentError) /\
  Scenario.env_complete (lit "GROQ_API_KEY") = Some Scenario.the_key /\
  Scenario.the_key <> [] /\
  exists G,
    load Scenario.offline Scenario.env_complete = Ok G /\
    GROQ_API_KEY G = VStr Scenario.the_key /\
    GROQ_API_URL G = getenv Scenario.env_complete "GROQ_API_URL" /\
    get_method (HEADERS G) "Authorization"
    = Ok (VStr (lit "Bearer " ++ Scenario.the_key)).
Proof.
  destruct (locale_script_start Scenario.offline Scenario.env_without_key) as [Hno _].
  destruct (locale_script_start Scenario.offline Scenario.env_complete) as [_ Hyes].
  split; [reflexivity | ].
  split; [apply Hno; reflexivity | ].
  split; [reflexivity | ].
  split; [discriminate | ].
  apply Hyes; [reflexivity | discriminate].
Defined.

End LocaleStart.

(** ** The rate-aware generator: what a run that returns has written *)

Module RateAwareRecords.

Section Flatten.

Variables X A R : Type.
Variable body : X -> A -> M (flow A R).

Lemma for_each_flow_app (xs ys : list X) (acc : A) (st : state) :
  for_each_flow (xs ++ ys) body acc st
  = match for_each_flow xs body acc st with
    | (Ok (Next acc'), st') => for_each_flow ys body acc' st'
    | other => other
    end.
Proof.
  revert acc st. induction xs as [ | x xs IH]; intros acc st; simpl.
  - reflexivity.
  - unfold bind. destruct (body x acc st) as [[[acc' | r] | e] st1].
    + apply IH.
    + reflexivity.
    + reflexivity.
Qed.

Lemma for_range_flow_repeat (n : nat) (x : X) (acc : A) (st : state) :
  for_range_flow n (body x) acc st = for_each_flow (repeat x n) body acc st.
Proof.
  revert acc st. induction n as [ | n IH]; intros acc st; simpl.
  - reflexivity.
  - unfold bind. destruct (body x acc st) as [[[acc' | r] | e] st1].
    + apply IH.
    + reflexivity.
    + reflexivity.
Qed.

(** The nested loops are one loop over the pairs in loop order. *)
Lemma loops_flatten (xs : list X) (n : nat) (acc : A) (st : state) :
  for_each_flow xs (fun x => for_range_flow n (body x)) acc st
  = for_each_flow (flat_map (fun x => repeat x n) xs) body acc st.
Proof.
  revert acc st. induction xs as [ | x xs IH]; intros acc st; simpl.
  - reflexivity.
  - rewrite for_each_flow_app, <- for_range_flow_repeat. unfold bind.
    destruct (for_range_flow n (body x) acc st) as [[[acc' | r] | e] st1].
    + apply IH.
    + reflexivity.
    + reflexivity.
Qed.

End Flatten.

Section Run.

Variable E : Env.
Variable G : TestcaseTokens.globals.

Lemma keeps_files_call_groq_once (s : str) (kb : value) :
  keeps_files (TestcaseTokens.call_groq_once E G s kb).
Proof.
  unfold TestcaseTokens.call_groq_once, retry.
  apply Frame.keeps_files_attempts.
  unfold TestcaseTokens.call_groq_once_body.
  apply Frame.keeps_files_bind; [apply Frame.keeps_files_lift | intros n].
  apply Frame.keeps_files_bind; [apply Frame.keeps_files_post | intros r].
  apply Frame.keeps_files_bind;
    [destruct (status_code r =? 429)%Z; [ | apply Frame.keeps_files_ret];
     apply Frame.keeps_files_bind;
       [unfold time_sleep;
        destruct (sleep_refusal (TestcaseTokens._sleep_from_retry_headers E r));
          [apply Frame.keeps_files_raise | apply Frame.keeps_files_ret]
       | intros _; apply Frame.keeps_files_raise_for_status]
    | intros _].
  apply Frame.keeps_files_bind;
    [destruct (negb (is_2xx (status_code r)));
       [apply Frame.keeps_files_raise_for_status | apply Frame.keeps_files_ret]
    | intros _].
  apply Frame.keeps_files_ret.
Qed.

Lemma pause_if_low_runs (threshold : float) (r : response) (st : state) :
  TestcaseTokens.pause_if_low E threshold r st = (Ok tt, st).
Proof.
  unfold TestcaseTokens.pause_if_low.
  destruct (header_get r "x-ratelimit-remaining-tokens") as [[ | c rest] | ];
    try reflexivity.
  unfold try_except. destruct (py_float E (c :: rest)) as [f | ]; [ | reflexivity].
  destruct (float_le f threshold); reflexivity.
Qed.

(** One pass through the loop body that does not raise: one record for
    the seed, and the disk either untouched or, on the early return,
    changed at the output file only. *)
Lemma rate_aware_pair_inv (kb : value) (out_file : str) (threshold : float) (s : str)
  (out : list value) (st st' : state) (fl : flow (list value) str) :
  TestcaseTokens.generate_one E G kb out_file threshold s out st = (Ok fl, st') ->
  exists record,
    tagged s record /\
    match fl with
    | Next out' => out' = out ++ [record] /\ fs st' = fs st
    | Return p =>
        p = out_file /\
        fs st' = written (fs st) out_file (VList (out ++ [record]))
    end.
Proof.
  pose proof (keeps_files_call_groq_once s kb st) as Hkeep.
  unfold TestcaseTokens.generate_one, bind, attempt.
  destruct (TestcaseTokens.call_groq_once E G s kb st) as [[r | e] st1].
  - simpl in Hkeep. destruct (json r) as [resp | ej].
    + unfold lift. destruct (TestcaseTokens.extract_text E resp) as [text | e];
        [ | discriminate].
      rewrite pause_if_low_runs. unfold ret. intros [= <- <-].
      exists (TestcaseTokens.message_record s text).
      split; [split; [reflexivity | right; reflexivity] | ].
      split; [reflexivity | exact Hkeep].
    + unfold TestcaseTokens.stop_if_low.
      destruct (header_get r "x-ratelimit-remaining-tokens") as [[ | c rest] | ].
      * unfold ret. intros [= <- <-].
        exists (TestcaseTokens.message_record s (VStr (text r))).
        split; [split; [reflexivity | right; reflexivity] | ].
        split; [reflexivity | exact Hkeep].
      * destruct (py_float E (c :: rest)) as [f | ]; [ | discriminate].
        destruct (float_le f threshold).
        -- unfold bind, write_json, ret.
           destruct (write_error E out_file); [discriminate | ].
           destruct (dump_failure E out_file
                       (VList (out ++ [TestcaseTokens.message_record s
                                         (VStr (text r))])));
             [discriminate | ].
           intros [= <- <-].
           exists (TestcaseTokens.message_record s (VStr (text r))).
           split; [split; [reflexivity | right; reflexivity] | ].
           split; [reflexivity | ]. cbn [fs]. unfold written. now rewrite Hkeep.
        -- unfold ret. intros [= <- <-].
           exists (TestcaseTokens.message_record s (VStr (text r))).
           split; [split; [reflexivity | right; reflexivity] | ].
           split; [reflexivity | exact Hkeep].
      * unfold ret. intros [= <- <-].
        exists (TestcaseTokens.message_record s (VStr (text r))).
        split; [split; [reflexivity | right; reflexivity] | ].
        split; [reflexivity | exact Hkeep].
  - simpl in Hkeep. unfold ret. intros [= <- <-].
    exists (TestcaseTokens.error_record s e).
    split; [split; [reflexivity | left; reflexivity] | ].
    split; [reflexivity | exact Hkeep].
Qed.

(** The loop over the pairs, when it does not raise: either it ran to
    its end and the disk is as before, or it returned early, after
    writing the records of the pairs seen so far. *)
Lemma pairs_inv (kb : value) (out_file : str) (threshold : float) (items : list str) :
  forall (out : list value) (st st' : state) (fl : flow (list value) str),
    for_each_flow items (TestcaseTokens.generate_one E G kb out_file threshold) out st
    = (Ok fl, st') ->
    exists records,
      (length records <= length items)%nat /\
      Forall2 tagged (firstn (length records) items) records /\
      match fl with
      | Next out' =>
          out' = out ++ records /\ length records = length items /\ fs st' = fs st
      | Return p =>
          p = out_file /\ records <> [] /\
          fs st' = written (fs st) out_file (VList (out ++ records))
      end.
Proof.
  induction items as [ | s items IH]; intros out st st' fl; simpl.
  - unfold ret. intros [= <- <-]. exists []. simpl.
    split; [lia | ]. split; [constructor | ].
    split; [now rewrite app_nil_r | split; reflexivity].
  - unfold bind.
    destruct (TestcaseTokens.generate_one E G kb out_file threshold s out st)
      as [[[out1 | p] | e] st1] eqn:Hone; [ | | discriminate].
    + apply rate_aware_pair_inv in Hone.
      destruct Hone as [record [Htag [-> Hfs]]].
      intros Hrest. apply IH in Hrest.
      destruct Hrest as [records [Hlen [Hall Hend]]].
      exists (record :: records). simpl.
      split; [lia | ]. split; [now constructor | ].
      destruct fl as [out' | p].
      * destruct Hend as [-> [Hfull Hdisk]].
        split; [now rewrite <- app_assoc | ].
        split; [now rewrite Hfull | now rewrite Hdisk].
      * destruct Hend as [-> [_ Hdisk]].
        split; [reflexivity | ]. split; [discriminate | ].
        rewrite Hdisk, Hfs. now rewrite <- app_assoc.
    + apply rate_aware_pair_inv in Hone.
      destruct Hone as [record [Htag [-> Hfs]]].
      unfold ret. intros [= <- <-].
      exists [record]. simpl.
      split; [lia | ]. split; [constructor; [exact Htag | constructor] | ].
      split; [reflexivity | ]. split; [discriminate | exact Hfs].
Qed.

End Run.

(** What a run that returns leaves behind. *)
Lemma returned_file (E : Env) (G : TestcaseTokens.globals)
  (seeds : list str) (per_seed : Z) (kb : value) (out_file : str) (threshold : float)
  (st : state) (p : str) :
  fst (TestcaseTokens.generate_bulk_rate_safe E G seeds per_seed kb out_file threshold st)
  = Ok p ->
  p = out_file /\
  exists out,
    fs (snd (TestcaseTokens.generate_bulk_rate_safe E G seeds per_seed kb out_file
               threshold st))
    = written (fs st) out_file (VList out) /\
    (length out <= length seeds * Z.to_nat per_seed)%nat /\
    Forall2 tagged (firstn (length out) (planned seeds (Z.to_nat per_seed))) out.
Proof.
  unfold TestcaseTokens.generate_bulk_rate_safe, TestcaseTokens.generate_all, bind, lift.
  destruct (TestcaseTokens._tokens_for_kb kb) as [n | e]; [ | discriminate].
  cbv beta iota.
  rewrite (loops_flatten (TestcaseTokens.generate_one E G kb out_file threshold)
             seeds (Z.to_nat per_seed) [] st).
  fold (planned seeds (Z.to_nat per_seed)).
  destruct (for_each_flow (planned seeds (Z.to_nat per_seed))
              (TestcaseTokens.generate_one E G kb out_file threshold) [] st)
    as [[fl | e] st1] eqn:Hloop; [ | discriminate].
  apply pairs_inv in Hloop. destruct Hloop as [records [Hlen [Hall Hend]]].
  rewrite Run.length_planned in Hlen.
  destruct fl as [out | path].
  - destruct Hend as [-> [_ Hdisk]]. simpl app.
    unfold write_json, ret.
    destruct (write_error E out_file); [discriminate | ].
    destruct (dump_failure E out_file (VList records)); [discriminate | ].
    cbn [fst snd fs]. intros [= <-]. split; [reflexivity | ].
    exists records. split; [unfold written; now rewrite Hdisk | ].
    split; [exact Hlen | exact Hall].
  - destruct Hend as [-> [_ Hdisk]]. unfold ret. cbn [fst snd].
    intros [= <-]. split; [reflexivity | ].
    exists records. split; [exact Hdisk | ]. split; [exact Hlen | exact Hall].
Qed.

(** X17: whenever [generate_bulk_rate_safe] returns, it returns
    [out_file], and that file then holds exactly the records of this run
    (whatever it held before is gone, every other file is as before):
    one record per (seed, repetition) pair for an initial stretch of the
    pairs in loop order, each tagged with its seed and each an error or a
    success record.  The stretch is never longer than
    len(seeds) * per_seed. *)
Theorem rate_aware_file_after_run (E : Env) (G : TestcaseTokens.globals)
  (seeds : list str) (per_seed : Z) (kb : value) (out_file : str) (threshold : float)
  (st : state) (p : str) :
  fst (TestcaseTokens.generate_bulk_rate_safe E G seeds per_seed kb out_file threshold st)
  = Ok p ->
  p = out_file /\
  exists out,
    fs (snd (TestcaseTokens.generate_bulk_rate_safe E G seeds per_seed kb out_file
               threshold st))
    = written (fs st) out_file (VList out) /\
    (length out <= length seeds * Z.to_nat per_seed)%nat /\
    Forall2 tagged (firstn (length out) (planned seeds (Z.to_nat per_seed))) out.
Proof.
  apply returned_file.
Qed.

Lemma rate_aware_file_after_run_witness :
  fst (TestcaseTokens.generate_bulk_rate_safe
         (Scenario.answering Scenario.text_reply_low_budget) Scenario.bulk_globals
         [lit "a"; lit "b"] 3 (VInt 1) Scenario.out_json
         TestcaseTokens.default_safety_token_threshold Scenario.second_campaign)
  = Ok Scenario.out_json /\
  Scenario.out_json = Scenario.out_json /\
  exists out,
    fs (snd (TestcaseTokens.generate_bulk_rate_safe
               (Scenario.answering Scenario.text_reply_low_budget) Scenario.bulk_globals
               [lit "a"; lit "b"] 3 (VInt 1) Scenario.out_json
               TestcaseTokens.default_safety_token_threshold Scenario.second_campaign))
    = written (fs Scenario.second_campaign) Scenario.out_json (VList out) /\
    (length out <= length [lit "a"; lit "b"] * Z.to_nat 3)%nat /\
    Forall2 tagged (firstn (length out) (planned [lit "a"; lit "b"] (Z.to_nat 3))) out.
Proof.
  split; [reflexivity | ].
  apply rate_aware_file_after_run. reflexivity.
Defined.



(** The same run against an endpoint whose replies hold a lone
    surrogate: the final write breaks off. *)
Example rate_aware_run_breaks_off :
  TestcaseTokens.generate_bulk_rate_safe (Scenario.answering Worlds.surrogate_reply)
    Scenario.bulk_globals [lit "a"; lit "b"] 3 (VInt 1) Scenario.out_json
    TestcaseTokens.default_safety_token_threshold Scenario.second_campaign
  = (Raise surrogates_not_allowed,
     mk_state 6 0 (cut_off (fs Scenario.second_campaign) Scenario.out_json)).
Proof. reflexivity. Qed.

Section Reach.

Variable E : Env.
Variable G : TestcaseTokens.globals.



End Reach.





End RateAwareRecords.

(** ** The two reply parsers, side by side *)

Module Parsers.

Ltac settle :=
  eexists; split;
  [reflexivity | first [left; reflexivity | right; split; reflexivity]].

(** X21: on a reply that is a JSON object, the parser of the rate-aware
    generator accepts whatever the parser of the locale generator
    accepts, and finds the same text; the two differ only when no text is
    found, where the locale generator falls back on str(resp)[:200000]
    and the rate-aware one on json.dumps(resp). *)
Theorem parsers_agree_on_objects (E : Env) (d : list (str * value)) (t : value) :
  GenerateLocaleTestData.extract_text E (VDict d) = Ok t ->
  exists t',
    TestcaseTokens.extract_text E (VDict d) = Ok t' /\
    (t' = t \/
     (t = VStr (slice_to 200000 (py_str E (VDict d))) /\
      t' = VStr (json_dumps E (VDict d)))).
Proof.
  unfold GenerateLocaleTestData.extract_text, TestcaseTokens.extract_text, obind.
  cbn [get_method].
  destruct (truthy (dict_get d "output_text")) eqn:Htext.
  - rewrite Htext. intros [= <-]. settle.
  - destruct (truthy (py_or (dict_get d "choices") (VList []))) eqn:Hchoices.
    + destruct (subscript0 (py_or (dict_get d "choices") (VList [])))
        as [first | e]; [ | discriminate].
      destruct first as [ | b | z | f | s0 | l | fd].
      1-4, 6: (rewrite Htext; intros [= <-]; settle).
      * destruct s0 as [ | c0 s0]; intros [= <-]; settle.
      * cbn [get_method]. unfold py_or.
        destruct (dict_get fd "message") as [ | b | z | f | s0 | l | md] eqn:Hmsg;
          cbn [truthy get_method].
        -- cbn [truthy get_method dict_get assoc]. rewrite Htext. intros [= <-]. settle.
        -- destruct b; [discriminate | ].
           cbn [truthy get_method dict_get assoc]. rewrite Htext. intros [= <-]. settle.
        -- destruct (negb (z =? 0)%Z); [discriminate | ].
           cbn [truthy get_method dict_get assoc]. rewrite Htext. intros [= <-]. settle.
        -- destruct (negb (float_is_zero f)); [discriminate | ].
           cbn [truthy get_method dict_get assoc]. rewrite Htext. intros [= <-]. settle.
        -- destruct s0 as [ | c0 s0]; [ | discriminate].
           cbn [truthy get_method dict_get assoc]. intros [= <-]. settle.
        -- destruct l as [ | v l]; [ | discriminate].
           cbn [truthy get_method dict_get assoc]. rewrite Htext. intros [= <-]. settle.
        -- destruct md as [ | kv md].
           ++ cbn [truthy get_method dict_get assoc]. intros [= <-]. settle.
           ++ cbn [get_method].
              destruct (truthy (dict_get (kv :: md) "content")) eqn:Hcontent.
              ** rewrite Hcontent. intros [= <-]. settle.
              ** destruct (truthy (dict_get (kv :: md) "text")) eqn:Hother;
                   intros [= <-]; settle.
    + rewrite Htext. intros [= <-]. settle.
Qed.

Lemma parsers_agree_on_objects_witness :
  GenerateLocaleTestData.extract_text (Scenario.answering Scenario.json_reply)
    (VDict [(lit "choices", VList [VDict [(lit "message",
                                           VDict [(lit "content", VStr (lit "hi"))])]])])
  = Ok (VStr (lit "hi")) /\
  exists t',
    TestcaseTokens.extract_text (Scenario.answering Scenario.json_reply)
      (VDict [(lit "choices", VList [VDict [(lit "message",
                                             VDict [(lit "content", VStr (lit "hi"))])]])])
    = Ok t' /\
    (t' = VStr (lit "hi") \/
     (VStr (lit "hi")
      = VStr (slice_to 200000
                (py_str (Scenario.answering Scenario.json_reply)
                   (VDict [(lit "choices",
                            VList [VDict [(lit "message",
                                           VDict [(lit "content", VStr (lit "hi"))])]])])))
      /\
      t' = VStr (json_dumps (Scenario.answering Scenario.json_reply)
                   (VDict [(lit "choices",
                            VList [VDict [(lit "message",
                                           VDict [(lit "content", VStr (lit "hi"))])]])])))).
Proof.
  split; [reflexivity | ].
  apply parsers_agree_on_objects. reflexivity.
Defined.

End Parsers.

(** ** Runs against an endpoint that never answers *)

Module DeadNetwork.

Section Flatten.

Variables X A : Type.
Variable body : X -> A -> M A.




End Flatten.

Section Run.

Variable E : Env.

Hypothesis dead : forall k rq, attempt_fails (transport E k rq) = true.



End Run.

Section RateAware.

Variable E : Env.

Hypothesis retried : forall k rq, attempt_retried E (transport E k rq) = true.



End RateAware.





End DeadNetwork.
